(** * Brightness tray scheduler: a shallow embedding and its properties

    The Python sources under [src/brightness_tray] are rendered as Rocq
    functions, module by module:

    - [Py]            the Python built-ins the code relies on ([round],
                      [int], [float], [str.strip], [str.lower], ...);
    - [Models]        [models.py];
    - [SunSchedule]   [sun_schedule.py];
    - [ConfigStore]   [config_store.py];
    - [AmbientLight]  [ambient_light.py];
    - [Ui]            the brightness window of [ui.py] (dispatch to the
                      displays and the ambient tick);
    - [App]           the tray controller of [app.py];
    - [UiHandlers], [UiAmbient], [UiRefresh]
                      more of the window: the saved profile, the
                      handlers of the sliders and of the link button,
                      the switch of Auto Light, the list of displays;
    - [BrightnessService]
                      the picture controls of [brightness_service.py];
    - [Themes], [AppTheme]
                      [themes.py] and the theme the controller applies.

    They are followed by the wording of the specification and by sample
    inputs (the modules named [...Spec]), and then by the properties
    (the modules named [...Facts]).

    Conventions.  A Python [int] is a [Z].  A Python [float] that only
    takes part in field arithmetic is the rational it denotes ([Q]); the
    logarithmic lux curve is stated over the reals; the infinities and
    not-a-number are outside the model.  A [str] is a string of ASCII
    characters: blanks and digits are the ASCII ones.  An aware
    [datetime] of the schedule time zone is its wall-clock reading in
    microseconds: Python compares and subtracts two datetimes that share
    one [tzinfo] by their wall-clock fields.  A [dict] whose order
    reaches the persisted file is an association list; a [dict] that is
    only looked up and compared is a [gmap].  Calls to the brightness
    service and to the configuration store are recorded, oldest first,
    in the [effects] of the window. *)

From Stdlib Require Import ZArith QArith Qround Qminmax Qabs Reals Qreals Lia Lra
  List Ascii String Permutation Sorted.
From Stdlib Require Lqa.
From stdpp Require Import gmap strings.
Import ListNotations.
Open Scope Z_scope.

(* ===================================================================== *)
(** * Python built-ins *)
(* ===================================================================== *)

Module Py.

(** Exceptions the modelled code can meet. *)
Inductive exn := TypeError | ValueError | AttributeError.

(** A computation that returns or raises. *)
Definition exc (A : Type) : Type := exn + A.

Definition ret {A} (a : A) : exc A := inr a.
Definition raise {A} (e : exn) : exc A := inl e.
Definition bind {A B} (m : exc A) (k : A -> exc B) : exc B :=
  match m with
  | inl e => inl e
  | inr a => k a
  end.

Notation "'let*' x ':=' m 'in' k" := (bind m (fun x => k))
  (at level 10, x name, m at level 100, k at level 200).

(** A Python number: an [int]; a (finite) [float] reached from integers
    by field operations, held as the rational it denotes; or a [float]
    that went through a logarithm, held as the real it denotes. *)
Inductive number :=
| PyInt (z : Z)
| PyFloat (q : Q)
| PyReal (r : R).

Coercion PyInt : Z >-> number.

(** [round(x)] on a float: to the nearest integer, ties to even. *)
Definition round_half_even (q : Q) : Z :=
  let f := Qfloor q in
  match (2 * (Qnum q mod Zpos (Qden q)) ?= Zpos (Qden q)) with
  | Lt => f
  | Gt => f + 1
  | Eq => if Z.even f then f else f + 1
  end.

(** The same rounding, on a real. *)
Definition round_half_even_R (x : R) : Z :=
  let f := Int_part x in
  if Rlt_dec (frac_part x) (1 / 2) then f
  else if Rlt_dec (1 / 2) (frac_part x) then f + 1
  else if Z.even f then f else f + 1.

(** [int(round(value))]. *)
Definition int_round (value : number) : Z :=
  match value with
  | PyInt z => z
  | PyFloat q => round_half_even q
  | PyReal r => round_half_even_R r
  end.

(** [math.log10] *)
Definition log10 (x : R) : R := (ln x / ln 10)%R.

(** [a < b] on floats. *)
Definition Qlt_b (a b : Q) : bool := negb (Qle_bool b a).

(** [int(x)] on a float truncates toward zero. *)
Definition trunc (q : Q) : Z := Z.quot (Qnum q) (Zpos (Qden q)).

Definition is_Some_b {A} (o : option A) : bool :=
  match o with Some _ => true | None => false end.

(** ** Strings *)

Definition is_space (c : ascii) : bool :=
  let n := nat_of_ascii c in
  ((9 <=? n) && (n <=? 13) || (28 <=? n) && (n <=? 31) || (n =? 32))%nat.

Definition is_digit (c : ascii) : bool :=
  let n := nat_of_ascii c in ((48 <=? n) && (n <=? 57))%nat.

Definition digit_val (c : ascii) : Z := Z.of_nat (nat_of_ascii c) - 48.

Fixpoint lstrip (s : list ascii) : list ascii :=
  match s with
  | c :: s' => if is_space c then lstrip s' else s
  | [] => []
  end.

Definition rstrip (s : list ascii) : list ascii := rev (lstrip (rev s)).

(** [str.strip()] *)
Definition strip (s : string) : string :=
  string_of_list_ascii (rstrip (lstrip (list_ascii_of_string s))).

Definition lower_ascii (c : ascii) : ascii :=
  let n := nat_of_ascii c in
  if ((65 <=? n) && (n <=? 90))%nat then ascii_of_nat (n + 32) else c.

(** [str.lower()] *)
Fixpoint lower (s : string) : string :=
  match s with
  | EmptyString => EmptyString
  | String c s' => String (lower_ascii c) (lower s')
  end.

(** [text.split(sep, 1)] for a one-character separator: the text before
    the first separator and the text after it, or nothing when the
    separator does not occur. *)
Fixpoint split_once (sep : ascii) (s : string) : option (string * string) :=
  match s with
  | EmptyString => None
  | String c s' =>
      if Ascii.eqb c sep then Some (EmptyString, s')
      else match split_once sep s' with
           | Some (a, b) => Some (String c a, b)
           | None => None
           end
  end.

(** Digits of an integer literal: a digit, then digits each optionally
    preceded by one underscore. *)
Fixpoint digits_from (acc : Z) (s : list ascii) : option Z :=
  match s with
  | [] => Some acc
  | c :: s' =>
      if is_digit c then digits_from (10 * acc + digit_val c) s'
      else if Ascii.eqb c "_"%char then
        match s' with
        | d :: s'' =>
            if is_digit d then digits_from (10 * acc + digit_val d) s''
            else None
        | [] => None
        end
      else None
  end.

Definition unsigned_literal (s : list ascii) : option Z :=
  match s with
  | c :: s' => if is_digit c then digits_from (digit_val c) s' else None
  | [] => None
  end.

(** [int(s)] on a string: surrounding blanks, an optional sign, a decimal
    literal; [None] stands for [ValueError]. *)
Definition int_of_string (s : string) : option Z :=
  match rstrip (lstrip (list_ascii_of_string s)) with
  | c :: s' =>
      if Ascii.eqb c "-"%char then option_map Z.opp (unsigned_literal s')
      else if Ascii.eqb c "+"%char then unsigned_literal s'
      else unsigned_literal (c :: s')
  | [] => None
  end.

(** A maximal run of literal digits (underscores allowed between two
    digits): its value, how many digits it has, and the rest. *)
Fixpoint scan_digits (acc : Z) (count : nat) (s : list ascii)
  : Z * nat * list ascii :=
  match s with
  | c :: s' =>
      if is_digit c then scan_digits (10 * acc + digit_val c) (S count) s'
      else if Ascii.eqb c "_"%char then
        match s' with
        | d :: s'' =>
            if is_digit d
            then scan_digits (10 * acc + digit_val d) (S count) s''
            else (acc, count, s)
        | [] => (acc, count, s)
        end
      else (acc, count, s)
  | [] => (acc, count, s)
  end.

Definition scan_number (s : list ascii) : Z * nat * list ascii :=
  match s with
  | c :: _ => if is_digit c then scan_digits 0 0 s else (0, O, s)
  | [] => (0, O, s)
  end.

(** The exponent part of a float literal: empty, or [e], an optional
    sign and digits, up to the end of the text. *)
Definition exponent_of (s : list ascii) : option Z :=
  match s with
  | [] => Some 0
  | c :: s' =>
      if Ascii.eqb c "e"%char || Ascii.eqb c "E"%char then
        match s' with
        | sg :: s'' =>
            if Ascii.eqb sg "-"%char then option_map Z.opp (unsigned_literal s'')
            else if Ascii.eqb sg "+"%char then unsigned_literal s''
            else unsigned_literal s'
        | [] => None
        end
      else None
  end.

Definition pow10 (e : Z) : Q :=
  if 0 <=? e then inject_Z (10 ^ e) else (1 # Z.to_pos (10 ^ (- e))).

Definition unsigned_float (s : list ascii) : option Q :=
  let '(ip, icount, rest) := scan_number s in
  let '(fp, fcount, rest') :=
    match rest with
    | c :: r => if Ascii.eqb c "."%char then scan_number r else (0, O, rest)
    | [] => (0, O, rest)
    end in
  if (Nat.eqb icount 0 && Nat.eqb fcount 0)%bool then None
  else
    match exponent_of rest' with
    | None => None
    | Some e =>
        Some ((inject_Z ip + inject_Z fp * pow10 (- Z.of_nat fcount))
              * pow10 e)%Q
    end.

(** [float(s)] on a string, for the decimal spellings of finite numbers;
    [None] stands for [ValueError].  The spellings of infinities and of
    not-a-number denote no rational and are outside this model. *)
Definition float_of_string (s : string) : option Q :=
  match rstrip (lstrip (list_ascii_of_string s)) with
  | c :: s' =>
      if Ascii.eqb c "-"%char then option_map Qopp (unsigned_float s')
      else if Ascii.eqb c "+"%char then unsigned_float s'
      else unsigned_float (c :: s')
  | [] => None
  end.

(** [f"{n:02d}"] for a non-negative [n]. *)
Definition digit_char (d : Z) : ascii := ascii_of_nat (Z.to_nat (48 + d)).

Fixpoint decimal_digits (fuel : nat) (n : Z) (acc : string) : string :=
  match fuel with
  | O => acc
  | S fuel' =>
      let acc' := String (digit_char (n mod 10)) acc in
      if n / 10 =? 0 then acc' else decimal_digits fuel' (n / 10) acc'
  end.

Definition str_of_nonneg (n : Z) : string :=
  decimal_digits (S (Z.to_nat (Z.log2 n))) n EmptyString.

Definition format_02d (n : Z) : string :=
  if n <? 10 then String "0"%char (str_of_nonneg n) else str_of_nonneg n.

End Py.

(* ===================================================================== *)
(** * models.py *)
(* ===================================================================== *)

Module Models.
Import Py.

Inductive AnchorType := AnchorSunrise | AnchorSunset | AnchorTime.
Inductive RuleTarget := Display1 | Display2 | Both.

(** The string literal behind each enumerator. *)
Definition anchor_text (a : AnchorType) : string :=
  match a with
  | AnchorSunrise => "sunrise"
  | AnchorSunset => "sunset"
  | AnchorTime => "time"
  end.

Definition target_text (t : RuleTarget) : string :=
  match t with
  | Display1 => "display1"
  | Display2 => "display2"
  | Both => "both"
  end.

Definition clamp_brightness (value : number) : Z :=
  Z.max 0 (Z.min 100 (int_round value)).

Record ScheduleRule := {
  anchor : AnchorType;
  offset_minutes : Z;
  brightness : Z;
  target : RuleTarget;
  specific_time : option string
}.

Definition default_schedule_rules : list ScheduleRule :=
  [ {| anchor := AnchorSunrise; offset_minutes := -60; brightness := 50;
       target := Both; specific_time := None |};
    {| anchor := AnchorSunrise; offset_minutes := -30; brightness := 75;
       target := Both; specific_time := None |};
    {| anchor := AnchorSunrise; offset_minutes := 0; brightness := 100;
       target := Both; specific_time := None |};
    {| anchor := AnchorSunset; offset_minutes := 0; brightness := 100;
       target := Both; specific_time := None |};
    {| anchor := AnchorSunset; offset_minutes := 30; brightness := 75;
       target := Both; specific_time := None |};
    {| anchor := AnchorSunset; offset_minutes := 60; brightness := 50;
       target := Both; specific_time := None |} ].

Record ScheduleSettings := {
  enabled : bool;
  gradual : bool;
  auto_location : bool;
  latitude : option Q;
  longitude : option Q;
  rules : list ScheduleRule
}.

Definition default_schedule : ScheduleSettings :=
  {| enabled := false; gradual := true; auto_location := true;
     latitude := None; longitude := None;
     rules := default_schedule_rules |}.

Record AppConfig := {
  version : Z;
  theme : string;
  link_mode : bool;
  ambient_auto_enabled : bool;
  last_global_brightness : Z;
  monitor_levels : list (string * Z);
  startup_enabled : bool;
  schedule : ScheduleSettings
}.

Definition default_config : AppConfig :=
  {| version := 1; theme := "dark"; link_mode := true;
     ambient_auto_enabled := false; last_global_brightness := 100;
     monitor_levels := []; startup_enabled := true;
     schedule := default_schedule |}.

End Models.

(* ===================================================================== *)
(** * sun_schedule.py *)
(* ===================================================================== *)

Module SunSchedule.
Import Py Models.

(** Wall-clock microseconds in the schedule time zone. *)
Abbreviation datetime := Z (only parsing).

Definition DAY : Z := 86400000000.

(** [dt.date()], as a day number. *)
Definition date_of (dt : datetime) : Z := dt / DAY.

(** [timedelta(days=d)] and [timedelta(minutes=m)] *)
Definition timedelta_days (d : Z) : Z := d * DAY.
Definition timedelta_minutes (m : Z) : Z := m * 60000000.

(** [datetime.combine(date, time(hour, minute), timezone)] *)
Definition combine (date : Z) (t : Z * Z) : datetime :=
  date * DAY + (fst t * 3600 + snd t * 60) * 1000000.

(** [delta.total_seconds()] *)
Definition total_seconds (delta : Z) : Q := delta # 1000000.

(** An anchor point: [(instant, brightness)]. *)
Abbreviation point := (datetime * Z)%type (only parsing).

Definition _parse_time (value : option string) : option (Z * Z) :=
  match value with
  | None => None
  | Some EmptyString => None
  | Some v =>
      let text := strip v in
      match split_once ":" text with
      | None => None
      | Some (h, m) =>
          match int_of_string h, int_of_string m with
          | Some hour, Some minute =>
              if (hour <? 0) || (23 <? hour) || (minute <? 0) || (59 <? minute)
              then None
              else Some (hour, minute)
          | _, _ => None
          end
      end
  end.

Definition _interpolate (current_time : datetime) (previous following : point)
  : Z :=
  let '(start_time, start_value) := previous in
  let '(end_time, end_value) := following in
  if end_time <=? start_time then clamp_brightness end_value
  else
    let elapsed_seconds := total_seconds (current_time - start_time) in
    let duration_seconds := total_seconds (end_time - start_time) in
    let ratio := Qmax 0 (Qmin 1 (elapsed_seconds / duration_seconds)) in
    let blended :=
      (inject_Z start_value + inject_Z (end_value - start_value) * ratio)%Q in
    clamp_brightness (PyFloat blended).

(** [points.sort(key=lambda point: point[0])]: the stable sort by instant. *)
Fixpoint insert_point (p : point) (l : list point) : list point :=
  match l with
  | [] => [p]
  | q :: l' => if fst p <=? fst q then p :: l else q :: insert_point p l'
  end.

Definition sort_points (l : list point) : list point :=
  fold_right insert_point [] l.

(** The selection loop: [previous] follows the points not after
    [current_time]; the first later point becomes [following] and ends
    the loop. *)
Fixpoint scan_points (current_time : datetime) (points : list point)
    (previous following : point) : point * point :=
  match points with
  | [] => (previous, following)
  | p :: rest =>
      if fst p <=? current_time
      then scan_points current_time rest p following
      else (previous, p)
  end.

(** Lines 73-89 of [target_brightness]: from the collected points to the
    returned value. *)
Definition evaluate_points (is_gradual : bool) (current_time : datetime)
    (points : list point) : option Z :=
  match points with
  | [] => None
  | _ :: _ =>
      let sorted := sort_points points in
      match sorted with
      | [] => None
      | first :: _ =>
          let '(previous, following) :=
            scan_points current_time sorted first (List.last sorted first) in
          if negb is_gradual then Some (snd previous)
          else Some (_interpolate current_time previous following)
      end
  end.

Definition is_sun_anchor (a : AnchorType) : bool :=
  match a with
  | AnchorSunrise | AnchorSunset => true
  | AnchorTime => false
  end.

(** [rules if rules is not None else schedule.rules] *)
Definition active_rules (sched : ScheduleSettings)
    (rules : option (list ScheduleRule)) : list ScheduleRule :=
  match rules with
  | Some given => given
  | None => Models.rules sched
  end.

Definition uses_sun_events (active : list ScheduleRule) : bool :=
  existsb (fun rule => is_sun_anchor (anchor rule)) active.

Definition location_unset (sched : ScheduleSettings) : bool :=
  negb (is_Some_b (latitude sched)) || negb (is_Some_b (longitude sched)).

Section Engine.

(** [astral.sun.sun(observer, date, tzinfo)] for a date and a position:
    [None] when it raises, else the [sunrise] and [sunset] entries of its
    result. *)
Variable astral_sun : Z -> Q -> Q -> option (option datetime * option datetime).

Definition _get_sun_events (target_date : Z) (lat lon : Q)
  : option (datetime * datetime) :=
  match astral_sun target_date lat lon with
  | None => None
  | Some (Some sunrise, Some sunset) => Some (sunrise, sunset)
  | Some _ => None
  end.

(** [sun_events.get(rule.anchor)] *)
Definition sun_events_get (sun_events : datetime * datetime) (a : AnchorType)
  : option datetime :=
  match a with
  | AnchorSunrise => Some (fst sun_events)
  | AnchorSunset => Some (snd sun_events)
  | AnchorTime => None
  end.

(** One pass of the inner loop body: the point a rule yields on a day,
    or nothing when the rule is skipped. *)
Definition rule_point (target_date : Z)
    (sun_events : option (datetime * datetime)) (rule : ScheduleRule)
  : option point :=
  match anchor rule with
  | AnchorTime =>
      match _parse_time (specific_time rule) with
      | None => None
      | Some parsed_time =>
          Some (combine target_date parsed_time,
                clamp_brightness (brightness rule))
      end
  | a =>
      match sun_events with
      | None => None
      | Some events =>
          match sun_events_get events a with
          | None => None
          | Some anchor_time =>
              Some (anchor_time + timedelta_minutes (offset_minutes rule),
                    clamp_brightness (brightness rule))
          end
      end
  end.

(** One pass of the outer loop body. *)
Definition day_points (sched : ScheduleSettings)
    (active : list ScheduleRule) (current_time : datetime) (day_offset : Z)
  : list point :=
  let target_date := date_of (current_time + timedelta_days day_offset) in
  if uses_sun_events active then
    match latitude sched, longitude sched with
    | Some lat, Some lon =>
        omap (rule_point target_date (_get_sun_events target_date lat lon))
             active
    | _, _ => []
    end
  else omap (rule_point target_date None) active.

(** The two nested loops: the points of the day before, of the day and
    of the day after. *)
Definition collect_points (sched : ScheduleSettings)
    (active : list ScheduleRule) (current_time : datetime) : list point :=
  flat_map (day_points sched active current_time) [-1; 0; 1].

(** [SunScheduleEngine.target_brightness(schedule, rules, now)], with
    [now] already expressed in the schedule time zone. *)
Definition target_brightness (sched : ScheduleSettings)
    (rules : option (list ScheduleRule)) (current_time : datetime)
  : option Z :=
  if negb (enabled sched) then None
  else
    let active := active_rules sched rules in
    match active with
    | [] => None
    | _ :: _ =>
        if uses_sun_events active && location_unset sched then None
        else evaluate_points (gradual sched) current_time
               (collect_points sched active current_time)
    end.

End Engine.

End SunSchedule.

(* ===================================================================== *)
(** * config_store.py *)
(* ===================================================================== *)

Module ConfigStore.
Import Py Models.

(** A JSON document, as [json.loads] yields it and [json.dumps] takes it
    (finite numbers only). *)
#[local] Unset Elimination Schemes.
Inductive json :=
| JNull
| JBool (b : bool)
| JInt (z : Z)
| JFloat (q : Q)
| JStr (s : string)
| JList (items : list json)
| JObj (fields : list (string * json)).
#[local] Set Elimination Schemes.

(** ** Python dictionaries kept in insertion order *)

Fixpoint dict_get {V} (key : string) (d : list (string * V)) : option V :=
  match d with
  | [] => None
  | (k, v) :: d' => if String.eqb key k then Some v else dict_get key d'
  end.

(** [d[key] = value]: an existing key keeps its place. *)
Fixpoint dict_set {V} (key : string) (value : V) (d : list (string * V))
  : list (string * V) :=
  match d with
  | [] => [(key, value)]
  | (k, v) :: d' =>
      if String.eqb key k then (key, value) :: d'
      else (k, v) :: dict_set key value d'
  end.

(** [{k: v for k, v in items}] *)
Definition dict_of_items {V} (items : list (string * V)) : list (string * V) :=
  fold_left (fun d kv => dict_set (fst kv) (snd kv) d) items [].

(** ** Built-ins applied to JSON values *)

(** [bool(v)] *)
Definition py_bool (v : json) : bool :=
  match v with
  | JNull => false
  | JBool b => b
  | JInt z => negb (z =? 0)
  | JFloat q => negb (Qeq_bool q 0)
  | JStr s => negb (String.eqb s EmptyString)
  | JList items => match items with [] => false | _ => true end
  | JObj fields => match fields with [] => false | _ => true end
  end.

(** [int(v)] *)
Definition py_int (v : json) : exc Z :=
  match v with
  | JInt z => ret z
  | JBool b => ret (if b then 1 else 0)
  | JFloat q => ret (trunc q)
  | JStr s =>
      match int_of_string s with
      | Some z => ret z
      | None => raise ValueError
      end
  | JNull | JList _ | JObj _ => raise TypeError
  end.

(** The argument of [round(v)]: a number, or [TypeError]. *)
Definition py_number (v : json) : exc number :=
  match v with
  | JInt z => ret (PyInt z)
  | JBool b => ret (PyInt (if b then 1 else 0))
  | JFloat q => ret (PyFloat q)
  | JNull | JStr _ | JList _ | JObj _ => raise TypeError
  end.

(** [clamp_brightness(v)] on a value read from the document. *)
Definition clamp_json (v : json) : exc Z :=
  let* n := py_number v in ret (clamp_brightness n).

(** [x.get(key, default)] *)
Definition get_default (key : string) (default : json)
    (fields : list (string * json)) : json :=
  match dict_get key fields with
  | Some v => v
  | None => default
  end.

(** ** [ConfigStore] *)

Definition _optional_float (value : option json) : option Q :=
  match value with
  | None | Some JNull => None
  | Some (JInt z) => Some (inject_Z z)
  | Some (JBool b) => Some (if b then 1 else 0)%Q
  | Some (JFloat q) => Some q
  | Some (JStr s) => float_of_string s
  | Some (JList _) | Some (JObj _) => None
  end.

(** [re.fullmatch(r"\d{1,2}:\d{2}", text)], returning the two groups of
    digits. *)
Definition match_time_pattern (text : string) : option (string * string) :=
  match split_once ":" text with
  | None => None
  | Some (h, m) =>
      let hs := list_ascii_of_string h in
      let ms := list_ascii_of_string m in
      if forallb is_digit hs && forallb is_digit ms
         && ((Nat.eqb (List.length hs) 1) || (Nat.eqb (List.length hs) 2))
         && Nat.eqb (List.length ms) 2
      then Some (h, m)
      else None
  end.

(** [str(value or "")] matches the pattern only when [value] is a
    string: the text of [None], of a boolean, of a number, of a list or
    of a dictionary holds no colon between digits from end to end. *)
Definition _normalize_time_text (value : option json) : option string :=
  match value with
  | Some (JStr s) =>
      let text := strip s in
      match match_time_pattern text with
      | None => None
      | Some (h, m) =>
          match int_of_string h, int_of_string m with
          | Some hour, Some minute =>
              if (hour <? 0) || (23 <? hour) || (minute <? 0) || (59 <? minute)
              then None
              else Some (format_02d hour ++ ":" ++ format_02d minute)%string
          | _, _ => None
          end
      end
  | _ => None
  end.

(** [str(raw_rule.get("anchor", "")).strip().lower()] and the membership
    test that follows it: the text of a value that is not a string names
    no anchor. *)
Definition anchor_of_json (value : option json) : option AnchorType :=
  match value with
  | Some (JStr s) =>
      let a := lower (strip s) in
      if String.eqb a "sunrise" then Some AnchorSunrise
      else if String.eqb a "sunset" then Some AnchorSunset
      else if String.eqb a "time" then Some AnchorTime
      else None
  | _ => None
  end.

(** [str(raw_rule.get("target", "both")).strip().lower()], replaced by
    ["both"] when it names no target. *)
Definition target_of_json (value : option json) : RuleTarget :=
  match value with
  | Some (JStr s) =>
      let t := lower (strip s) in
      if String.eqb t "display1" then Display1
      else if String.eqb t "display2" then Display2
      else Both
  | _ => Both
  end.

(** The [try] block around [int(raw_rule.get("offset_minutes", 0))]. *)
Definition offset_of_json (value : option json) : Z :=
  match value with
  | None => 0
  | Some v =>
      match py_int v with
      | inr z => z
      | inl _ => 0
      end
  end.

(** One pass of the loop of [_parse_rules]: the rule to append, nothing
    when the entry is skipped, or the exception [clamp_brightness]
    raises. *)
Definition parse_rule (raw_rule : json) : exc (option ScheduleRule) :=
  match raw_rule with
  | JObj fields =>
      match anchor_of_json (dict_get "anchor" fields) with
      | None => ret None
      | Some a =>
          let offset :=
            Z.max (-1440)
              (Z.min 1440 (offset_of_json (dict_get "offset_minutes" fields))) in
          let tgt := target_of_json (dict_get "target" fields) in
          let level := clamp_json (get_default "brightness" (JInt 100) fields) in
          match a with
          | AnchorTime =>
              match _normalize_time_text (dict_get "specific_time" fields) with
              | None => ret None
              | Some text =>
                  let* b := level in
                  ret (Some {| anchor := a; offset_minutes := 0;
                               brightness := b; target := tgt;
                               specific_time := Some text |})
              end
          | _ =>
              let* b := level in
              ret (Some {| anchor := a; offset_minutes := offset;
                           brightness := b; target := tgt;
                           specific_time := None |})
          end
      end
  | _ => ret None
  end.

Fixpoint parse_rule_list (raw_rules : list json) : exc (list ScheduleRule) :=
  match raw_rules with
  | [] => ret []
  | raw_rule :: rest =>
      let* r := parse_rule raw_rule in
      let* parsed := parse_rule_list rest in
      ret (match r with
           | Some rule => rule :: parsed
           | None => parsed
           end)
  end.

Definition _parse_rules (raw_rules : option json) : exc (list ScheduleRule) :=
  match raw_rules with
  | Some (JList items) =>
      let* parsed := parse_rule_list items in
      ret (match parsed with
           | [] => default_schedule_rules
           | _ :: _ => parsed
           end)
  | _ => ret default_schedule_rules
  end.

(** The comprehension over [monitor_levels.items()]; the keys of a JSON
    object are strings already. *)
Fixpoint clamp_items (items : list (string * json)) : exc (list (string * Z)) :=
  match items with
  | [] => ret []
  | (key, value) :: rest =>
      let* level := clamp_json value in
      let* others := clamp_items rest in
      ret ((key, level) :: others)
  end.

Definition parse_schedule (fields : list (string * json))
  : exc ScheduleSettings :=
  let* parsed := _parse_rules (dict_get "rules" fields) in
  ret {| enabled := py_bool (get_default "enabled" (JBool false) fields);
         gradual := py_bool (get_default "gradual" (JBool true) fields);
         auto_location :=
           py_bool (get_default "auto_location" (JBool true) fields);
         latitude := _optional_float (dict_get "latitude" fields);
         longitude := _optional_float (dict_get "longitude" fields);
         rules := parsed |}.

(** [ConfigStore._parse]; [data] is the dictionary read from the file. *)
Definition _parse (data : list (string * json)) : exc AppConfig :=
  let* ver := py_int (get_default "version" (JInt 1) data) in
  let* global :=
    clamp_json (get_default "last_global_brightness" (JInt 100) data) in
  let* levels :=
    match get_default "monitor_levels" (JObj []) data with
    | JObj items =>
        let* clamped := clamp_items items in ret (dict_of_items clamped)
    | _ => ret (monitor_levels default_config)
    end in
  let* sched :=
    match get_default "schedule" (JObj []) data with
    | JObj fields => parse_schedule fields
    | _ => ret (schedule default_config)
    end in
  ret {| version := ver;
         theme := theme default_config;
         link_mode := py_bool (get_default "link_mode" (JBool true) data);
         ambient_auto_enabled :=
           py_bool (get_default "ambient_auto_enabled" (JBool false) data);
         last_global_brightness := global;
         monitor_levels := levels;
         startup_enabled :=
           py_bool (get_default "startup_enabled" (JBool true) data);
         schedule := sched |}.

Definition json_of_float (value : option Q) : json :=
  match value with
  | Some q => JFloat q
  | None => JNull
  end.

Definition json_of_text (value : option string) : json :=
  match value with
  | Some s => JStr s
  | None => JNull
  end.

Definition rule_payload (rule : ScheduleRule) : json :=
  JObj [ ("anchor", JStr (anchor_text (anchor rule)));
         ("offset_minutes", JInt (offset_minutes rule));
         ("brightness", JInt (clamp_brightness (brightness rule)));
         ("target", JStr (target_text (target rule)));
         ("specific_time", json_of_text (specific_time rule)) ]%string.

(** The [payload] dictionary built by [ConfigStore.save]. *)
Definition payload (config : AppConfig) : list (string * json) :=
  [ ("version", JInt (version config));
    ("link_mode", JBool (link_mode config));
    ("ambient_auto_enabled", JBool (ambient_auto_enabled config));
    ("last_global_brightness",
       JInt (clamp_brightness (last_global_brightness config)));
    ("monitor_levels",
       JObj (dict_of_items
               (map (fun kv : string * Z =>
                       (fst kv, JInt (clamp_brightness (snd kv))))
                    (monitor_levels config))));
    ("startup_enabled", JBool (startup_enabled config));
    ("schedule",
       JObj [ ("enabled", JBool (enabled (schedule config)));
              ("gradual", JBool (gradual (schedule config)));
              ("auto_location", JBool (auto_location (schedule config)));
              ("latitude", json_of_float (latitude (schedule config)));
              ("longitude", json_of_float (longitude (schedule config)));
              ("rules",
                 JList (map rule_payload (rules (schedule config)))) ]) ]%string.

(** The configuration file: missing, unreadable as JSON, or holding a
    document.  [json.dumps] followed by [json.loads] gives back the
    document written. *)
Inductive file :=
| Missing
| Garbled
| Document (doc : json).

Definition save (config : AppConfig) : file := Document (JObj (payload config)).

(** [ConfigStore.load]: the configuration returned (or the exception
    raised) and the file afterwards.  A document that is not an object
    makes [data.get] fail. *)
Definition load (f : file) : exc AppConfig * file :=
  match f with
  | Missing | Garbled => (ret default_config, save default_config)
  | Document (JObj data) => (_parse data, f)
  | Document _ => (raise AttributeError, f)
  end.

End ConfigStore.

(* ===================================================================== *)
(** * ambient_light.py *)
(* ===================================================================== *)

Module AmbientLight.
Import Py.

(** What [subprocess.run] did: it raised (time-out, missing program), or
    completed with a return code and the text on standard output. *)
Inductive run_result :=
| RunRaised
| RunCompleted (returncode : Z) (stdout : string).

(** The maximal run of digits at the head of a text, and what follows. *)
Fixpoint take_digits (s : list ascii) : list ascii * list ascii :=
  match s with
  | c :: s' =>
      if is_digit c
      then let '(ds, rest) := take_digits s' in (c :: ds, rest)
      else ([], s)
  | [] => ([], [])
  end.

(** The optional group [(?:\.\d+)?] *)
Definition fraction_part (s : list ascii) : list ascii :=
  match s with
  | c :: s' =>
      if Ascii.eqb c "."%char then
        match take_digits s' with
        | ([], _) => []
        | (fs, _) => c :: fs
        end
      else []
  | [] => []
  end.

(** [_FLOAT_PATTERN], that is [[-+]?\d+(?:\.\d+)?], matched at the head
    of a text. *)
Definition match_float_here (s : list ascii) : option (list ascii) :=
  match s with
  | c :: s' =>
      if Ascii.eqb c "-"%char || Ascii.eqb c "+"%char then
        match take_digits s' with
        | ([], _) => None
        | (ds, rest) => Some (c :: ds ++ fraction_part rest)
        end
      else if is_digit c then
        let '(ds, rest) := take_digits s in Some (ds ++ fraction_part rest)
      else None
  | [] => None
  end.

(** [_FLOAT_PATTERN.search(output)]: the leftmost match. *)
Fixpoint search_float (s : list ascii) : option (list ascii) :=
  match match_float_here s with
  | Some m => Some m
  | None =>
      match s with
      | _ :: s' => search_float s'
      | [] => None
      end
  end.

(** [AmbientLightService._query_lux], from what the sensor script did. *)
Definition _query_lux (run : run_result) : option Q :=
  match run with
  | RunRaised => None
  | RunCompleted returncode stdout =>
      if negb (returncode =? 0) then None
      else
        let output := strip stdout in
        match output with
        | EmptyString => None
        | _ =>
            match search_float (list_ascii_of_string output) with
            | None => None
            | Some m =>
                match float_of_string (string_of_list_ascii m) with
                | None => None
                | Some lux => if Qlt_le_dec lux 0 then Some 0%Q else Some lux
                end
            end
        end
  end.

(** The state guarded by [_lock]. *)
Record service := {
  _latest_lux : option Q;
  _last_error : option string
}.

Definition unavailable : string :=
  "Ambient light sensor reading unavailable.".

(** [AmbientLightService.__init__] *)
Definition init : service := {| _latest_lux := None; _last_error := None |}.

(** [probe_sensor]: the critical section, given the reading. *)
Definition probe_sensor (run : run_result) (s : service) : service * option Q :=
  let lux := _query_lux run in
  (match lux with
   | Some x => {| _latest_lux := Some x; _last_error := None |}
   | None => {| _latest_lux := _latest_lux s; _last_error := Some unavailable |}
   end, lux).

(** One pass of [_poll_loop]. *)
Definition poll_once (run : run_result) (s : service) : service :=
  match _query_lux run with
  | Some x => {| _latest_lux := Some x; _last_error := None |}
  | None =>
      match _latest_lux s with
      | None => {| _latest_lux := None; _last_error := Some unavailable |}
      | Some _ => s
      end
  end.

Definition latest_lux (s : service) : option Q := _latest_lux s.
Definition last_error (s : service) : option string := _last_error s.

(** What happens to the service: a probe from the window, or a pass of
    the worker's loop.  Each runs its critical section under the lock,
    so the service sees them one after the other. *)
Inductive event :=
| Probe (run : run_result)
| Poll (run : run_result).

Definition step (s : service) (e : event) : service :=
  match e with
  | Probe run => fst (probe_sensor run s)
  | Poll run => poll_once run s
  end.

Definition reading (e : event) : option Q :=
  match e with
  | Probe run | Poll run => _query_lux run
  end.

Definition run_events (s : service) (events : list event) : service :=
  fold_left step events s.

End AmbientLight.

(* ===================================================================== *)
(** * ui.py: the brightness window *)
(* ===================================================================== *)

Module Ui.
Import Py Models.

(** [brightness_service.MonitorHandle] *)
Record MonitorHandle := {
  key : string;
  name : string;
  display_index : Z;
  method_name : option string
}.

(** [MonitorSliderRow]: the monitor and the value of its slider. *)
Record MonitorSliderRow := {
  monitor : MonitorHandle;
  slider : Z
}.

(** [MonitorSliderRow.set_value] *)
Definition set_value (row : MonitorSliderRow) (value : Z) : MonitorSliderRow :=
  {| monitor := monitor row; slider := clamp_brightness value |}.

(** What the window does to the outside: a call of
    [service.set_brightness] and a call of [config_store.save]. *)
Inductive effect :=
| SetBrightness (monitor_key : string) (level : Z)
| Saved (written : ConfigStore.file).

(** The schedule status line, by its cases. *)
Inductive status :=
| StatusOff
| StatusPaused
| StatusWaitingForLocation
| StatusNoTarget
| StatusActive (summary : list (nat * Z)).

Definition _AMBIENT_APPLY_DEADBAND : Z := 2.
Definition _AMBIENT_MAX_STEP : Z := 4.
Definition _AMBIENT_SMOOTHING_ALPHA : Q := 24 # 100.
Definition _AMBIENT_PERSIST_INTERVAL_SEC : Q := 5.

(** The fields of [BrightnessControlWindow] the modelled methods touch.
    [effects] lists, oldest first, the calls made to the brightness
    service and to the configuration store. *)
Record window := {
  config : AppConfig;
  monitor_rows : list MonitorSliderRow;
  global_slider : Z;
  link_button : bool;
  _schedule_status_text : status;
  _ambient_smoothed_target : option Q;
  _last_ambient_applied : option Z;
  _last_ambient_persist_ts : Q;
  effects : list effect
}.

(** ** Field updates *)

Definition with_config (c : AppConfig) (w : window) : window :=
  {| config := c; monitor_rows := monitor_rows w;
     global_slider := global_slider w; link_button := link_button w;
     _schedule_status_text := _schedule_status_text w;
     _ambient_smoothed_target := _ambient_smoothed_target w;
     _last_ambient_applied := _last_ambient_applied w;
     _last_ambient_persist_ts := _last_ambient_persist_ts w;
     effects := effects w |}.

Definition with_rows (rows : list MonitorSliderRow) (w : window) : window :=
  {| config := config w; monitor_rows := rows;
     global_slider := global_slider w; link_button := link_button w;
     _schedule_status_text := _schedule_status_text w;
     _ambient_smoothed_target := _ambient_smoothed_target w;
     _last_ambient_applied := _last_ambient_applied w;
     _last_ambient_persist_ts := _last_ambient_persist_ts w;
     effects := effects w |}.

Definition with_global_slider (v : Z) (w : window) : window :=
  {| config := config w; monitor_rows := monitor_rows w;
     global_slider := v; link_button := link_button w;
     _schedule_status_text := _schedule_status_text w;
     _ambient_smoothed_target := _ambient_smoothed_target w;
     _last_ambient_applied := _last_ambient_applied w;
     _last_ambient_persist_ts := _last_ambient_persist_ts w;
     effects := effects w |}.

Definition with_link_button (b : bool) (w : window) : window :=
  {| config := config w; monitor_rows := monitor_rows w;
     global_slider := global_slider w; link_button := b;
     _schedule_status_text := _schedule_status_text w;
     _ambient_smoothed_target := _ambient_smoothed_target w;
     _last_ambient_applied := _last_ambient_applied w;
     _last_ambient_persist_ts := _last_ambient_persist_ts w;
     effects := effects w |}.

Definition with_status (s : status) (w : window) : window :=
  {| config := config w; monitor_rows := monitor_rows w;
     global_slider := global_slider w; link_button := link_button w;
     _schedule_status_text := s;
     _ambient_smoothed_target := _ambient_smoothed_target w;
     _last_ambient_applied := _last_ambient_applied w;
     _last_ambient_persist_ts := _last_ambient_persist_ts w;
     effects := effects w |}.

Definition with_smoothed (t : option Q) (w : window) : window :=
  {| config := config w; monitor_rows := monitor_rows w;
     global_slider := global_slider w; link_button := link_button w;
     _schedule_status_text := _schedule_status_text w;
     _ambient_smoothed_target := t;
     _last_ambient_applied := _last_ambient_applied w;
     _last_ambient_persist_ts := _last_ambient_persist_ts w;
     effects := effects w |}.

Definition with_last_applied (l : option Z) (w : window) : window :=
  {| config := config w; monitor_rows := monitor_rows w;
     global_slider := global_slider w; link_button := link_button w;
     _schedule_status_text := _schedule_status_text w;
     _ambient_smoothed_target := _ambient_smoothed_target w;
     _last_ambient_applied := l;
     _last_ambient_persist_ts := _last_ambient_persist_ts w;
     effects := effects w |}.

Definition with_persist_ts (t : Q) (w : window) : window :=
  {| config := config w; monitor_rows := monitor_rows w;
     global_slider := global_slider w; link_button := link_button w;
     _schedule_status_text := _schedule_status_text w;
     _ambient_smoothed_target := _ambient_smoothed_target w;
     _last_ambient_applied := _last_ambient_applied w;
     _last_ambient_persist_ts := t;
     effects := effects w |}.

Definition with_effects (log : list effect) (w : window) : window :=
  {| config := config w; monitor_rows := monitor_rows w;
     global_slider := global_slider w; link_button := link_button w;
     _schedule_status_text := _schedule_status_text w;
     _ambient_smoothed_target := _ambient_smoothed_target w;
     _last_ambient_applied := _last_ambient_applied w;
     _last_ambient_persist_ts := _last_ambient_persist_ts w;
     effects := log |}.

Definition emit (e : effect) (w : window) : window :=
  {| config := config w; monitor_rows := monitor_rows w;
     global_slider := global_slider w; link_button := link_button w;
     _schedule_status_text := _schedule_status_text w;
     _ambient_smoothed_target := _ambient_smoothed_target w;
     _last_ambient_applied := _last_ambient_applied w;
     _last_ambient_persist_ts := _last_ambient_persist_ts w;
     effects := effects w ++ [e] |}.

Definition with_link_mode (linked : bool) (c : AppConfig) : AppConfig :=
  {| version := version c; theme := theme c; link_mode := linked;
     ambient_auto_enabled := ambient_auto_enabled c;
     last_global_brightness := last_global_brightness c;
     monitor_levels := monitor_levels c;
     startup_enabled := startup_enabled c; schedule := schedule c |}.

Definition with_last_global (v : Z) (c : AppConfig) : AppConfig :=
  {| version := version c; theme := theme c; link_mode := link_mode c;
     ambient_auto_enabled := ambient_auto_enabled c;
     last_global_brightness := v;
     monitor_levels := monitor_levels c;
     startup_enabled := startup_enabled c; schedule := schedule c |}.

Definition with_monitor_levels (levels : list (string * Z)) (c : AppConfig)
  : AppConfig :=
  {| version := version c; theme := theme c; link_mode := link_mode c;
     ambient_auto_enabled := ambient_auto_enabled c;
     last_global_brightness := last_global_brightness c;
     monitor_levels := levels;
     startup_enabled := startup_enabled c; schedule := schedule c |}.

(** ** Methods *)

Definition is_ambient_auto_enabled (w : window) : bool :=
  ambient_auto_enabled (config w).

Definition _persist_config (w : window) : window :=
  emit (Saved (ConfigStore.save (config w))) w.

Definition _set_global_slider_value (value : Z) (w : window) : window :=
  with_global_slider (clamp_brightness value) w.

Definition set_schedule_status (text : status) (w : window) : window :=
  with_status text w.

(** [round(sum(levels) / len(levels))] for a non-empty list. *)
Definition rounded_average (levels : list Z) : Z :=
  round_half_even
    (fold_right Z.add 0 levels # Pos.of_nat (List.length levels)).

Definition _sync_global_slider_to_average (w : window) : window :=
  match monitor_rows w with
  | [] => w
  | _ :: _ =>
      let average_level := rounded_average (map slider (monitor_rows w)) in
      _set_global_slider_value average_level
        (with_config
           (with_last_global (clamp_brightness average_level) (config w)) w)
  end.

(** The body shared by the loops that set a display: the service call,
    the slider, the saved level. *)
Definition set_row (row : MonitorSliderRow) (level : Z)
    (levels : list (string * Z)) (log : list effect)
  : MonitorSliderRow * list (string * Z) * list effect :=
  (set_value row level,
   ConfigStore.dict_set (key (monitor row)) level levels,
   log ++ [SetBrightness (key (monitor row)) level]).

(** The loop of [apply_brightness_map]: the rows, the saved levels and
    the effects afterwards, and the list [applied]. *)
Fixpoint map_loop (values : gmap string Z) (rows : list MonitorSliderRow)
    (levels : list (string * Z)) (log : list effect)
  : list MonitorSliderRow * list (string * Z) * list effect * list Z :=
  match rows with
  | [] => ([], levels, log, [])
  | row :: rest =>
      match values !! key (monitor row) with
      | None =>
          let '(rest', levels', log', applied) :=
            map_loop values rest levels log in
          (row :: rest', levels', log', applied)
      | Some v =>
          let level := clamp_brightness (PyInt v) in
          let '(row', levels1, log1) := set_row row level levels log in
          let '(rest', levels', log', applied) :=
            map_loop values rest levels1 log1 in
          (row' :: rest', levels', log', level :: applied)
      end
  end.

Definition apply_brightness_map (values : gmap string Z) (persist : bool)
    (w : window) : window :=
  let '(rows', levels', log', applied) :=
    map_loop values (monitor_rows w) (monitor_levels (config w)) (effects w) in
  let w1 :=
    with_effects log'
      (with_rows rows' (with_config (with_monitor_levels levels' (config w)) w)) in
  match applied with
  | [] => w1
  | _ :: _ =>
      let average_level := rounded_average applied in
      let w2 :=
        _set_global_slider_value average_level
          (with_config
             (with_last_global (clamp_brightness average_level) (config w1))
             w1) in
      if persist then _persist_config w2 else w2
  end.

Definition apply_schedule_targets (targets : gmap string Z) (persist : bool)
    (w : window) : window :=
  apply_brightness_map targets persist w.

(** The first loop of [apply_brightness_to_all]. *)
Fixpoint all_loop (bounded : Z) (rows : list MonitorSliderRow)
    (log : list effect) : list MonitorSliderRow * list effect :=
  match rows with
  | [] => ([], log)
  | row :: rest =>
      let '(rest', log') :=
        all_loop bounded rest
          (log ++ [SetBrightness (key (monitor row)) bounded]) in
      (set_value row bounded :: rest', log')
  end.

Definition apply_brightness_to_all (value : Z) (persist : bool) (w : window)
  : window :=
  let bounded := clamp_brightness value in
  let '(rows', log') := all_loop bounded (monitor_rows w) (effects w) in
  let w1 := _set_global_slider_value bounded
              (with_effects log' (with_rows rows' w)) in
  if persist then
    let levels :=
      fold_left (fun d row => ConfigStore.dict_set (key (monitor row)) bounded d)
                (monitor_rows w1)
                (monitor_levels (config w1)) in
    _persist_config
      (with_config
         (with_monitor_levels levels (with_last_global bounded (config w1)))
         w1)
  else w1.

Definition set_link_mode (linked persist apply_link_brightness : bool)
    (w : window) : window :=
  let w1 := with_config (with_link_mode linked (config w)) w in
  let w2 := if Bool.eqb (link_button w1) linked then w1
            else with_link_button linked w1 in
  if linked && apply_link_brightness
  then apply_brightness_to_all (global_slider w2) persist w2
  else if persist then _persist_config w2 else w2.

(** ** The ambient tick *)

(** [needle in text] *)
Fixpoint contains (needle text : string) : bool :=
  String.prefix needle text
  || match text with
     | EmptyString => false
     | String _ rest => contains needle rest
     end.

Definition is_wmi (row : MonitorSliderRow) : bool :=
  let method :=
    match method_name (monitor row) with
    | Some m => m
    | None => EmptyString
    end in
  contains "wmi" (lower (strip method)).

Fixpoint first_wmi (rows : list MonitorSliderRow) (i : nat) : option nat :=
  match rows with
  | [] => None
  | row :: rest => if is_wmi row then Some i else first_wmi rest (S i)
  end.

(** [_ambient_target_rows], as positions in [monitor_rows]. *)
Definition _ambient_target_rows (w : window) : list nat :=
  match monitor_rows w with
  | [] => []
  | _ :: _ =>
      if link_mode (config w) then seq 0 (List.length (monitor_rows w))
      else match first_wmi (monitor_rows w) 0 with
           | Some i => [i]
           | None => [0%nat]
           end
  end.

Definition _map_lux_to_brightness (lux : R) : Z :=
  let safe_lux := Rmax 0 lux in
  let normalized := (log10 (safe_lux + 1) / log10 801)%R in
  let normalized := Rmax 0 (Rmin 1 normalized) in
  let minimum_brightness := 6%R in
  let maximum_brightness := 100%R in
  let target :=
    (minimum_brightness
     + normalized * (maximum_brightness - minimum_brightness))%R in
  clamp_brightness (PyReal target).

(** Lines 1675-1681: the moving average of the raw targets. *)
Definition smooth (raw_target : Z) (smoothed : option Q) : Q :=
  match smoothed with
  | None => inject_Z raw_target
  | Some s => (s + _AMBIENT_SMOOTHING_ALPHA * (inject_Z raw_target - s))%Q
  end.

(** Lines 1683-1691: the level to apply, or nothing inside the
    dead band. *)
Definition next_level (last_applied : option Z) (desired_level : Z)
  : option Z :=
  match last_applied with
  | None => Some desired_level
  | Some last =>
      let delta := desired_level - last in
      if Z.abs delta <? _AMBIENT_APPLY_DEADBAND then None
      else
        let step :=
          Z.max (- _AMBIENT_MAX_STEP) (Z.min _AMBIENT_MAX_STEP delta) in
        Some (clamp_brightness (PyInt (last + step)))
  end.

(** The loop over the target rows. *)
Fixpoint ambient_loop (level : Z) (targets : list nat) (i : nat)
    (rows : list MonitorSliderRow) (levels : list (string * Z))
    (log : list effect)
  : list MonitorSliderRow * list (string * Z) * list effect * bool :=
  match rows with
  | [] => ([], levels, log, false)
  | row :: rest =>
      if existsb (Nat.eqb i) targets && negb (slider row =? level) then
        let '(row', levels1, log1) := set_row row level levels log in
        let '(rest', levels', log', _) :=
          ambient_loop level targets (S i) rest levels1 log1 in
        (row' :: rest', levels', log', true)
      else
        let '(rest', levels', log', applied_any) :=
          ambient_loop level targets (S i) rest levels log in
        (row :: rest', levels', log', applied_any)
  end.

(** Lines 1683-1722: from the desired level to the displays. *)
Definition ambient_dispatch (desired_level : Z) (now_seconds : Q) (w : window)
  : window :=
  match next_level (_last_ambient_applied w) desired_level with
  | None => w
  | Some level =>
      match _ambient_target_rows w with
      | [] => w
      | targets =>
          let '(rows', levels', log', applied_any) :=
            ambient_loop level targets 0 (monitor_rows w)
              (monitor_levels (config w)) (effects w) in
          let w1 :=
            with_effects log'
              (with_rows rows'
                 (with_config (with_monitor_levels levels' (config w)) w)) in
          if negb applied_any && is_Some_b (_last_ambient_applied w) then w1
          else
            let w2 := with_last_applied (Some level) w1 in
            let w3 :=
              if link_mode (config w2) then
                _set_global_slider_value level
                  (with_config (with_last_global level (config w2)) w2)
              else _sync_global_slider_to_average w2 in
            if Qle_bool (_last_ambient_persist_ts w3) 0
               || Qle_bool _AMBIENT_PERSIST_INTERVAL_SEC
                    (now_seconds - _last_ambient_persist_ts w3)
            then with_persist_ts now_seconds (_persist_config w3)
            else w3
      end
  end.

(** [_handle_ambient_timer_tick]; [lux] is what
    [_ambient_service.latest_lux()] returns and [now_seconds] the
    monotonic clock. *)
Definition _handle_ambient_timer_tick (lux : option Q) (now_seconds : Q)
    (w : window) : window :=
  if negb (ambient_auto_enabled (config w)) then w
  else
    match monitor_rows w, lux with
    | [], _ => w
    | _ :: _, None => w
    | _ :: _, Some l =>
        let raw_target := _map_lux_to_brightness (Q2R l) in
        let smoothed := smooth raw_target (_ambient_smoothed_target w) in
        let desired_level :=
          clamp_brightness (PyInt (round_half_even smoothed)) in
        ambient_dispatch desired_level now_seconds
          (with_smoothed (Some smoothed) w)
    end.

End Ui.

(* ===================================================================== *)
(** * app.py: the tray controller *)
(* ===================================================================== *)

Module App.
Import Py Models.

(** [TrayController].  [self.config] and [self.window.config] name one
    object, held here by the window. *)
Record controller := {
  window : Ui.window;
  _expected_auto_targets : gmap string Z
}.

Definition with_window (w : Ui.window) (c : controller) : controller :=
  {| window := w; _expected_auto_targets := _expected_auto_targets c |}.

Definition with_expected (t : gmap string Z) (c : controller) : controller :=
  {| window := window c; _expected_auto_targets := t |}.

Definition config (c : controller) : AppConfig := Ui.config (window c).

Definition _schedule_has_sun_rules (c : controller) : bool :=
  existsb (fun rule => SunSchedule.is_sun_anchor (anchor rule))
          (rules (schedule (config c))).

Definition with_location (lat lon : Q) (cfg : AppConfig) : AppConfig :=
  {| version := version cfg; theme := theme cfg; link_mode := link_mode cfg;
     ambient_auto_enabled := ambient_auto_enabled cfg;
     last_global_brightness := last_global_brightness cfg;
     monitor_levels := monitor_levels cfg;
     startup_enabled := startup_enabled cfg;
     schedule :=
       {| enabled := enabled (schedule cfg);
          gradual := gradual (schedule cfg);
          auto_location := auto_location (schedule cfg);
          latitude := Some lat; longitude := Some lon;
          rules := rules (schedule cfg) |} |}.

Definition location_missing (c : controller) : bool :=
  SunSchedule.location_unset (schedule (config c)).

(** [_resolve_location_if_needed]; [detected] is what
    [detect_location_from_ip()] returns. *)
Definition _resolve_location_if_needed (detected : option (Q * Q))
    (c : controller) : controller :=
  if negb (enabled (schedule (config c))) then c
  else if negb (_schedule_has_sun_rules c) then c
  else
    match detected with
    | None => c
    | Some (lat, lon) =>
        let unchanged :=
          match latitude (schedule (config c)),
                longitude (schedule (config c)) with
          | Some old_lat, Some old_lon =>
              Qlt_b (Qabs (old_lat - lat)) (1 # 10000)
              && Qlt_b (Qabs (old_lon - lon)) (1 # 10000)
          | _, _ => false
          end in
        if unchanged then c
        else
          let w := Ui.with_config (with_location lat lon (config c)) (window c) in
          with_window (Ui._persist_config w) c
    end.

(** Lines 219-222 of [_update_schedule_now]. *)
Definition located (detected : option (Q * Q)) (c : controller) : controller :=
  if _schedule_has_sun_rules c && location_missing c
  then _resolve_location_if_needed detected c
  else c.

Definition allowed_target (display_index : nat) (t : RuleTarget) : bool :=
  match display_index, t with
  | O, (Display1 | Both) => true
  | S O, (Display2 | Both) => true
  | _, Both => true
  | _, _ => false
  end.

Definition _rules_for_display_index (display_index : nat) (c : controller)
  : list ScheduleRule :=
  List.filter (fun rule => allowed_target display_index (target rule))
              (rules (schedule (config c))).

Definition _has_link_mode_conflict (targets : gmap string Z) (c : controller)
  : bool :=
  let active_values : list Z :=
    omap (fun row => targets !! Ui.key (Ui.monitor row))
         (Ui.monitor_rows (window c)) in
  (2 <=? List.length active_values)%nat
  && (1 <? size (list_to_set active_values : gset Z))%nat.

(** [_format_target_summary], as the pairs it prints. *)
Fixpoint target_summary (targets : gmap string Z) (display_index : nat)
    (rows : list Ui.MonitorSliderRow) : list (nat * Z) :=
  match rows with
  | [] => []
  | row :: rest =>
      match targets !! Ui.key (Ui.monitor row) with
      | Some value =>
          (S display_index, value)
            :: target_summary targets (S display_index) rest
      | None => target_summary targets (S display_index) rest
      end
  end.

Section Controller.

Variable astral_sun :
  Z -> Q -> Q -> option (option SunSchedule.datetime * option SunSchedule.datetime).

(** The loop of [_calculate_schedule_targets]. *)
Fixpoint targets_loop (c : controller) (now : SunSchedule.datetime)
    (display_index : nat) (rows : list Ui.MonitorSliderRow)
    (targets : gmap string Z) : gmap string Z :=
  match rows with
  | [] => targets
  | row :: rest =>
      let scoped_rules := _rules_for_display_index display_index c in
      let targets' :=
        match scoped_rules with
        | [] => targets
        | _ :: _ =>
            match SunSchedule.target_brightness astral_sun
                    (schedule (config c)) (Some scoped_rules) now with
            | None => targets
            | Some value => <[Ui.key (Ui.monitor row) := value]> targets
            end
        end in
      targets_loop c now (S display_index) rest targets'
  end.

Definition _calculate_schedule_targets (now : SunSchedule.datetime)
    (c : controller) : gmap string Z :=
  targets_loop c now 0 (Ui.monitor_rows (window c)) ∅.

(** Lines 238-250 of [_update_schedule_now]: what is done with targets
    that are not empty. *)
Definition dispatch_targets (force_apply : bool) (targets : gmap string Z)
    (c : controller) : controller :=
  let target_text := target_summary targets 0 (Ui.monitor_rows (window c)) in
  let c1 :=
    if link_mode (config c) && _has_link_mode_conflict targets c
    then with_window (Ui.set_link_mode false true false (window c)) c
    else c in
  if negb force_apply && bool_decide (targets = _expected_auto_targets c1)
  then
    with_window (Ui.set_schedule_status (Ui.StatusActive target_text) (window c1))
                c1
  else
    let w := Ui.apply_schedule_targets targets true (window c1) in
    with_window (Ui.set_schedule_status (Ui.StatusActive target_text) w)
                (with_expected targets c1).

(** [_update_schedule_now(force_apply)]; [now] is the clock and
    [detected] what the location look-up would return. *)
Definition _update_schedule_now (force_apply : bool)
    (now : SunSchedule.datetime) (detected : option (Q * Q))
    (c : controller) : controller :=
  if Ui.is_ambient_auto_enabled (window c) then
    let w := if enabled (schedule (config c))
             then Ui.set_schedule_status Ui.StatusPaused (window c)
             else window c in
    with_expected ∅ (with_window w c)
  else if negb (enabled (schedule (config c))) then
    with_expected ∅
      (with_window (Ui.set_schedule_status Ui.StatusOff (window c)) c)
  else
    let c1 := located detected c in
    let targets := _calculate_schedule_targets now c1 in
    if bool_decide (targets = ∅) then
      let text :=
        if _schedule_has_sun_rules c1 && location_missing c1
        then Ui.StatusWaitingForLocation
        else Ui.StatusNoTarget in
      with_window (Ui.set_schedule_status text (window c1)) c1
    else dispatch_targets force_apply targets c1.

End Controller.

End App.

(* ===================================================================== *)
(** * ui.py: the handlers of the brightness window *)
(* ===================================================================== *)

Module UiHandlers.
Import Py Models Ui.

(** The loop of [apply_saved_profile] over displays that are not
    linked: a display with a saved level is set to it. *)
Fixpoint saved_loop (levels : list (string * Z)) (rows : list MonitorSliderRow)
    (log : list effect) : list MonitorSliderRow * list effect :=
  match rows with
  | [] => ([], log)
  | row :: rest =>
      match ConfigStore.dict_get (key (monitor row)) levels with
      | None =>
          let '(rest', log') := saved_loop levels rest log in
          (row :: rest', log')
      | Some level =>
          let '(rest', log') :=
            saved_loop levels rest
              (log ++ [SetBrightness (key (monitor row)) level]) in
          (set_value row level :: rest', log')
      end
  end.

Definition apply_saved_profile (w : window) : window :=
  match monitor_rows w with
  | [] => w
  | _ :: _ =>
      if link_mode (config w)
      then apply_brightness_to_all (last_global_brightness (config w)) false w
      else
        let '(rows', log') :=
          saved_loop (monitor_levels (config w)) (monitor_rows w) (effects w) in
        _sync_global_slider_to_average (with_effects log' (with_rows rows' w))
  end.

(** The handlers below are the ones run for a change made by the user:
    [_internal_ui_update] is false.  The widget that was changed already
    shows its new state. *)

Definition _handle_global_slider_change (value : Z) (w : window) : window :=
  let bounded := clamp_brightness value in
  if negb (link_mode (config w)) then w
  else apply_brightness_to_all bounded true w.

Definition _handle_link_toggle (checked : bool) (w : window) : window :=
  set_link_mode checked true checked w.

(** [next((row for row in self.monitor_rows if row.monitor.key ==
    monitor_key), None)] *)
Definition find_row (monitor_key : string) (rows : list MonitorSliderRow)
  : option MonitorSliderRow :=
  List.find (fun row => String.eqb (key (monitor row)) monitor_key) rows.

Definition _handle_monitor_slider_change (monitor_key : string) (value : Z)
    (w : window) : window :=
  if link_mode (config w) then apply_brightness_to_all value true w
  else
    match find_row monitor_key (monitor_rows w) with
    | None => w
    | Some target_row =>
        let w1 := emit (SetBrightness (key (monitor target_row)) value) w in
        let levels :=
          ConfigStore.dict_set monitor_key (clamp_brightness value)
            (monitor_levels (config w1)) in
        let w2 := with_config (with_monitor_levels levels (config w1)) w1 in
        _persist_config (_sync_global_slider_to_average w2)
    end.

End UiHandlers.

Module UiAmbient.
Import Py Models Ui.

Definition with_ambient_auto (on : bool) (c : AppConfig) : AppConfig :=
  {| version := version c; theme := theme c; link_mode := link_mode c;
     ambient_auto_enabled := on;
     last_global_brightness := last_global_brightness c;
     monitor_levels := monitor_levels c;
     startup_enabled := startup_enabled c; schedule := schedule c |}.

(** The window together with its [_ambient_service]. *)
Record auto_light := {
  shown : window;
  _ambient_service : AmbientLight.service
}.

(** The three fields of the ambient engine, as [_set_ambient_enabled]
    resets them. *)
Definition reset_ambient (w : window) : window :=
  with_persist_ts 0 (with_last_applied None (with_smoothed None w)).

(** [_set_ambient_enabled(enabled, persist)].  [run] is what the sensor
    script does for the probe, [polls] what it does for the passes the
    worker completes before the window reads the service again, and
    [now_seconds] the monotonic clock of the tick. *)
Definition _set_ambient_enabled (enabled persist : bool)
    (run : AmbientLight.run_result) (polls : list AmbientLight.run_result)
    (now_seconds : Q) (a : auto_light) : auto_light :=
  if enabled then
    let '(probed, detected_lux) :=
      AmbientLight.probe_sensor run (_ambient_service a) in
    match detected_lux with
    | None =>
        let w1 :=
          with_config (with_ambient_auto false (config (shown a))) (shown a) in
        {| shown := if persist then _persist_config w1 else w1;
           _ambient_service := probed |}
    | Some _ =>
        let w1 :=
          reset_ambient
            (with_config (with_ambient_auto true (config (shown a))) (shown a)) in
        let polled :=
          fold_left (fun s r => AmbientLight.poll_once r s) polls probed in
        let w2 :=
          _handle_ambient_timer_tick (AmbientLight.latest_lux polled)
            now_seconds w1 in
        {| shown := if persist then _persist_config w2 else w2;
           _ambient_service := polled |}
    end
  else
    let w1 :=
      reset_ambient
        (with_config (with_ambient_auto false (config (shown a))) (shown a)) in
    {| shown := if persist then _persist_config w1 else w1;
       _ambient_service :=
         fold_left (fun s r => AmbientLight.poll_once r s) polls
                   (_ambient_service a) |}.

End UiAmbient.

Module UiRefresh.
Import Py Models Ui UiHandlers.

(** The level a new row starts from: the saved one first when the
    profile is to be applied, the current one first otherwise, and the
    saved global level when there is neither. *)
Definition initial_level (apply_saved : bool)
    (saved_level current_level : option Z) (last_global_brightness : Z) : Z :=
  if apply_saved then
    match saved_level with
    | Some level => level
    | None =>
        match current_level with
        | Some level => level
        | None => last_global_brightness
        end
    end
  else
    match current_level with
    | Some level => level
    | None =>
        match saved_level with
        | Some level => level
        | None => last_global_brightness
        end
    end.

(** One pass of the loop of [refresh_monitors]; [found] is a monitor
    and what [service.get_brightness] returns for it. *)
Definition new_row (apply_saved : bool) (cfg : AppConfig)
    (found : MonitorHandle * option Z) : MonitorSliderRow :=
  let saved_level :=
    ConfigStore.dict_get (key (fst found)) (monitor_levels cfg) in
  {| monitor := fst found;
     slider :=
       clamp_brightness
         (PyInt (initial_level apply_saved saved_level (snd found)
                   (last_global_brightness cfg))) |}.

(** [refresh_monitors(apply_saved)]; [listed] is what
    [service.refresh_monitors] returns, or nothing when it raises;
    [lux] and [now_seconds] are what the ambient tick reads. *)
Definition refresh_monitors (apply_saved : bool)
    (listed : option (list (MonitorHandle * option Z)))
    (lux : option Q) (now_seconds : Q) (w : window) : window :=
  let monitors := match listed with Some found => found | None => [] end in
  let cleared := with_rows [] w in
  match monitors with
  | [] => cleared
  | _ :: _ =>
      let filled :=
        with_rows (map (new_row apply_saved (config w)) monitors) cleared in
      let levelled :=
        if apply_saved then apply_saved_profile filled
        else _sync_global_slider_to_average filled in
      if ambient_auto_enabled (config levelled)
      then _handle_ambient_timer_tick lux now_seconds levelled
      else levelled
  end.

End UiRefresh.

(* ===================================================================== *)
(** * brightness_service.py: picture controls *)
(* ===================================================================== *)

Module BrightnessService.
Import Py Models.

(** [f"{n:02X}"] *)
Definition hex_char (d : Z) : ascii :=
  if d <? 10 then ascii_of_nat (Z.to_nat (48 + d))
  else ascii_of_nat (Z.to_nat (55 + d)).

Fixpoint hex_digits (fuel : nat) (n : Z) (acc : string) : string :=
  match fuel with
  | O => acc
  | S fuel' =>
      let acc' := String (hex_char (n mod 16)) acc in
      if n / 16 =? 0 then acc' else hex_digits fuel' (n / 16) acc'
  end.

Definition hex_of_nonneg (n : Z) : string :=
  hex_digits (S (Z.to_nat (Z.log2 n))) n EmptyString.

Definition format_02X (n : Z) : string :=
  if n <? 0 then String "-"%char (hex_of_nonneg (- n))
  else if n <? 16 then String "0"%char (hex_of_nonneg n)
  else hex_of_nonneg n.

Record PictureControl := {
  code : Z;
  name : string;
  minimum : Z;
  maximum : Z;
  value : Z
}.

Definition _PICTURE_CODE_ORDER : list Z :=
  [16; 18; 22; 24; 26; 108; 110; 112; 114; 135].

Definition _PICTURE_CODE_NAMES : list (Z * string) :=
  [ (16, "Brightness"); (18, "Contrast"); (19, "Backlight");
    (22, "Red Gain"); (24, "Green Gain"); (26, "Blue Gain");
    (108, "Black Level"); (110, "Red Black Level");
    (112, "Green Black Level"); (114, "Blue Black Level");
    (135, "Sharpness"); (139, "Saturation"); (140, "Hue") ]%string.

Fixpoint names_get (code : Z) (names : list (Z * string)) : option string :=
  match names with
  | [] => None
  | (k, v) :: rest => if code =? k then Some v else names_get code rest
  end.

Definition _picture_control_name (code : Z) : string :=
  match names_get code _PICTURE_CODE_NAMES with
  | Some text => text
  | None => ("VCP 0x" ++ format_02X code)%string
  end.

Definition _looks_like_picture_code (code : Z) : bool :=
  is_Some_b (names_get code _PICTURE_CODE_NAMES)
  || (code =? 134) || (code =? 136).

(** [code in codes] *)
Definition code_in (code : Z) (codes : list Z) : bool :=
  existsb (Z.eqb code) codes.

(** The loop of [_candidate_picture_codes] over the codes the monitor
    announces. *)
Fixpoint extend_candidates (capabilities_codes candidates : list Z) : list Z :=
  match capabilities_codes with
  | [] => candidates
  | code :: rest =>
      if code_in code candidates then extend_candidates rest candidates
      else if negb (_looks_like_picture_code code)
      then extend_candidates rest candidates
      else extend_candidates rest (candidates ++ [code])
  end.

(** [_candidate_picture_codes]; [announced] is what
    [_read_vcp_codes_from_capabilities] returns for the monitor. *)
Definition _candidate_picture_codes (announced : list Z)
    (include_capabilities : bool) : list Z :=
  let capabilities_codes := if include_capabilities then announced else [] in
  match capabilities_codes with
  | [] => _PICTURE_CODE_ORDER
  | _ :: _ =>
      let candidates :=
        List.filter (fun code => code_in code capabilities_codes)
                    _PICTURE_CODE_ORDER in
      match extend_candidates capabilities_codes candidates with
      | [] => _PICTURE_CODE_ORDER
      | found => found
      end
  end.

(** The loop of [list_picture_controls]; [read] is what
    [_read_vcp_feature] answers for a code: nothing, or the current
    value and the maximum. *)
Fixpoint read_controls (read : Z -> option (Z * Z)) (candidate_codes : list Z)
    (seen_codes : list Z) : list PictureControl :=
  match candidate_codes with
  | [] => []
  | code :: rest =>
      if code_in code seen_codes then read_controls read rest seen_codes
      else
        let seen := code :: seen_codes in
        match read code with
        | None => read_controls read rest seen
        | Some (current, maximum) =>
            if maximum <=? 0 then read_controls read rest seen
            else
              let minimum := 0 in
              let upper_bound := Z.max maximum current in
              let bounded_value := Z.max minimum (Z.min current upper_bound) in
              {| code := code; name := _picture_control_name code;
                 minimum := minimum; maximum := upper_bound;
                 value := bounded_value |}
                :: read_controls read rest seen
        end
  end.

Definition _normalize_method (method_name : option string) : option string :=
  match method_name with
  | None => None
  | Some EmptyString => None
  | Some text =>
      let lower_name := lower text in
      if Ui.contains "wmi" lower_name then Some "wmi"%string
      else if Ui.contains "vcp" lower_name then Some "vcp"%string
      else None
  end.

Definition is_vcp (monitor : Ui.MonitorHandle) : bool :=
  match _normalize_method (Ui.method_name monitor) with
  | Some text => String.eqb text "vcp"
  | None => false
  end.

(** [_picture_controls_cache]: the controls listed last, by monitor
    key. *)
Definition cache := list (string * list PictureControl).

(** [list_picture_controls]; [has_handle] tells whether the physical
    monitor could be opened.  The lists handed out and the lists cached
    are copies of each other. *)
Definition list_picture_controls (monitor : Ui.MonitorHandle)
    (use_cache include_capabilities : bool) (has_handle : bool)
    (announced : list Z) (read : Z -> option (Z * Z))
    (_picture_controls_cache : cache) : list PictureControl * cache :=
  if negb (is_vcp monitor) then ([], _picture_controls_cache)
  else
    match (if use_cache
           then ConfigStore.dict_get (Ui.key monitor) _picture_controls_cache
           else None) with
    | Some cached_controls => (cached_controls, _picture_controls_cache)
    | None =>
        if negb has_handle then ([], _picture_controls_cache)
        else
          let controls :=
            read_controls read
              (_candidate_picture_codes announced include_capabilities) [] in
          (controls,
           ConfigStore.dict_set (Ui.key monitor) controls
             _picture_controls_cache)
    end.

(** The loop of [set_picture_control] over the cached controls: the
    first control with the code takes the value, kept within its
    bounds. *)
Fixpoint update_cached (cached_controls : list PictureControl)
    (normalized_code target_value : Z) : list PictureControl :=
  match cached_controls with
  | [] => []
  | control :: rest =>
      if negb (code control =? normalized_code)
      then control :: update_cached rest normalized_code target_value
      else {| code := code control; name := name control;
              minimum := minimum control; maximum := maximum control;
              value := Z.max (minimum control)
                         (Z.min (maximum control) target_value) |}
             :: rest
  end.

(** [set_picture_control]; [written] tells whether [_write_vcp_feature]
    succeeded. *)
Definition set_picture_control (monitor : Ui.MonitorHandle) (code value : Z)
    (has_handle written : bool) (_picture_controls_cache : cache)
  : bool * cache :=
  if negb (is_vcp monitor) then (false, _picture_controls_cache)
  else
    let normalized_code := Z.max 0 (Z.min 255 code) in
    let target_value := Z.max 0 (Z.min 10000 value) in
    if negb has_handle then (false, _picture_controls_cache)
    else if negb written then (false, _picture_controls_cache)
    else
      match ConfigStore.dict_get (Ui.key monitor) _picture_controls_cache with
      | None => (true, _picture_controls_cache)
      | Some cached_controls =>
          (true,
           ConfigStore.dict_set (Ui.key monitor)
             (update_cached cached_controls normalized_code target_value)
             _picture_controls_cache)
      end.

End BrightnessService.

(* ===================================================================== *)
(** * themes.py, and the theme the controller applies *)
(* ===================================================================== *)

Module Themes.
Import Py.

Definition THEME_LIGHT : string := "light".
Definition THEME_DARK : string := "dark".
Definition THEME_GRAY : string := "gray".
Definition THEME_SAND : string := "sand".

Definition THEME_OPTIONS : list string :=
  [THEME_LIGHT; THEME_DARK; THEME_GRAY; THEME_SAND].

(** [str(value or "")] is the empty text for [None]. *)
Definition normalize_theme_name (value : option string) : string :=
  let theme :=
    lower (strip (match value with
                  | Some text => text
                  | None => EmptyString
                  end)) in
  if existsb (String.eqb theme) THEME_OPTIONS then theme else THEME_DARK.

End Themes.

Module AppTheme.
Import Py Models App Themes.

Definition with_theme (theme_name : string) (cfg : AppConfig) : AppConfig :=
  {| version := version cfg; theme := theme_name; link_mode := link_mode cfg;
     ambient_auto_enabled := ambient_auto_enabled cfg;
     last_global_brightness := last_global_brightness cfg;
     monitor_levels := monitor_levels cfg;
     startup_enabled := startup_enabled cfg; schedule := schedule cfg |}.

(** [TrayController._apply_theme], as far as the configuration goes;
    the style sheet built from the name is handed to Qt. *)
Definition _apply_theme (c : controller) : controller :=
  let theme_name := normalize_theme_name (Some (theme (config c))) in
  with_window (Ui.with_config (with_theme theme_name (config c)) (window c)) c.

End AppTheme.

(* ===================================================================== *)
(** * The specification's wording, and sample inputs *)
(* ===================================================================== *)

Module ScheduleSpec.
Import Py Models SunSchedule.

(** Ascending by instant. *)
Definition by_instant (p q : point) : Prop := fst p <= fst q.

(** The spec's wording of the window around [now], on the sorted points:
    [previous] is the last point with [instant <= now], the first point
    when there is none; [following] is the first point with
    [instant > now], the last point when there is none. *)
Definition spec_previous (now : datetime) (sorted : list point) (first : point)
  : point :=
  List.last (List.filter (fun p => fst p <=? now) sorted) first.

Definition spec_following (now : datetime) (sorted : list point)
    (final : point) : point :=
  List.hd final (List.filter (fun p => now <? fst p) sorted).

Definition spec_window (now : datetime) (sorted : list point)
  : option (point * point) :=
  match sorted with
  | [] => None
  | first :: _ =>
      Some (spec_previous now sorted first,
            spec_following now sorted (List.last sorted first))
  end.

(** The window the code computes. *)
Definition code_window (now : datetime) (sorted : list point)
  : option (point * point) :=
  match sorted with
  | [] => None
  | first :: _ =>
      Some (scan_points now sorted first (List.last sorted first))
  end.


Definition level_in_range (p : point) : Prop := 0 <= snd p <= 100.

(** The sorted point list of one evaluation. *)
Definition evaluator_points
    (astral_sun : Z -> Q -> Q -> option (option datetime * option datetime))
    (sched : ScheduleSettings) (rules : option (list ScheduleRule))
    (now : datetime) : list point :=
  sort_points (collect_points astral_sun sched (active_rules sched rules) now).

(** A schedule of two fixed times: 06:00 at 30 and 18:00 at 70. *)
Definition two_times (is_gradual : bool) : ScheduleSettings :=
  {| enabled := true; gradual := is_gradual; auto_location := true;
     latitude := None; longitude := None;
     rules :=
       [ {| anchor := AnchorTime; offset_minutes := 0; brightness := 30;
            target := Both; specific_time := Some "06:00"%string |};
         {| anchor := AnchorTime; offset_minutes := 0; brightness := 70;
            target := Both; specific_time := Some "18:00"%string |} ] |}.

Definition no_sun : Z -> Q -> Q -> option (option datetime * option datetime) :=
  fun _ _ _ => None.

(** Noon of day 0. *)
Definition noon : datetime := 43200000000.

(** Sunrise at 06:00 and sunset at 18:00 on every day. *)
Definition even_days
  : Z -> Q -> Q -> option (option datetime * option datetime) :=
  fun date _ _ =>
    Some (Some (combine date (6, 0)), Some (combine date (18, 0))).

(** The default rules, enabled, at a known position. *)
Definition default_rules_at_home (is_gradual : bool) : ScheduleSettings :=
  {| enabled := true; gradual := is_gradual; auto_location := true;
     latitude := Some (4852 # 100)%Q; longitude := Some (235 # 100)%Q;
     rules := default_schedule_rules |}.

End ScheduleSpec.

Module AmbientSpec.
Import Py AmbientLight.

(** The most recent successful sample among some events, if any. *)
Definition last_success (events : list event) : option Q :=
  last (omap reading events).

(** A success, a failure, a negative reading, two failures. *)
Definition sample_events : list event :=
  [ Poll (RunCompleted 0 "312.5");
    Poll RunRaised;
    Probe (RunCompleted 0 "-4.0");
    Poll (RunCompleted 1 "88");
    Poll (RunCompleted 0 "") ]%string.

End AmbientSpec.

Module LuxSpec.
Import Py.

(** The spec's formula for the lux curve. *)
Definition spec_lux_curve (lux : R) : Z :=
  Z.max 0
    (Z.min 100
       (round_half_even_R
          (6 + Rmax 0 (Rmin 1 (log10 (Rmax 0 lux + 1) / log10 801))
               * (100 - 6))%R)).

(** The share of the brightness range a lux value maps to. *)
Definition share (lux : R) : R :=
  Rmax 0 (Rmin 1 (log10 (Rmax 0 lux + 1) / log10 801))%R.

End LuxSpec.

Module AmbientTickSpec.
Import Py Models Ui.

(** Ticks of the step limiter for one desired level, at the given
    readings of the clock. *)
Definition ambient_run (desired_level : Z) (nows : list Q) (w : window)
  : window :=
  fold_left (fun w now => ambient_dispatch desired_level now w) nows w.

(** The displays the ambient engine drives all show the level [l] it
    last applied. *)
Definition in_sync (w : window) (l : Z) : Prop :=
  monitor_rows w <> []
  /\ _last_ambient_applied w = Some l
  /\ forall (k : nat) (row : MonitorSliderRow),
       In k (_ambient_target_rows w) -> monitor_rows w !! k = Some row ->
       slider row = l.

(** The limiter on its own: the level it holds after a tick, and after
    [n] ticks, when every level it computes becomes the last applied
    one. *)
Definition limiter_tick (desired last : Z) : Z :=
  match next_level (Some last) desired with
  | Some level => level
  | None => last
  end.

Definition limiter_run (desired : Z) (n : nat) (last : Z) : Z :=
  Nat.iter n (limiter_tick desired) last.

(** The step the limiter takes toward [desired] from [last]. *)
Definition limited_step (last desired : Z) : Z :=
  Z.max (- 4) (Z.min 4 (desired - last)).

(** Two linked displays showing 50, the level last applied. *)
Definition sample_row (k : string) (v : Z) : MonitorSliderRow :=
  {| monitor := {| key := k; name := k; display_index := 0;
                   method_name := Some "vcp"%string |};
     slider := v |}.

Definition ambient_window : window :=
  {| config :=
       {| version := 1; theme := "dark"; link_mode := true;
          ambient_auto_enabled := true; last_global_brightness := 50;
          monitor_levels := [];
          startup_enabled := true; schedule := default_schedule |};
     monitor_rows := [sample_row "A" 50; sample_row "B" 50];
     global_slider := 50; link_button := true;
     _schedule_status_text := StatusOff;
     _ambient_smoothed_target := Some (inject_Z 80);
     _last_ambient_applied := Some 50;
     _last_ambient_persist_ts := 0;
     effects := [] |}.

(** The rows the loop leaves, and whether it set any. *)
Fixpoint loop_rows (level : Z) (targets : list nat) (i : nat)
    (rows : list MonitorSliderRow) : list MonitorSliderRow :=
  match rows with
  | [] => []
  | row :: rest =>
      (if existsb (Nat.eqb i) targets && negb (slider row =? level)
       then set_value row level else row)
        :: loop_rows level targets (S i) rest
  end.

Fixpoint loop_any (level : Z) (targets : list nat) (i : nat)
    (rows : list MonitorSliderRow) : bool :=
  match rows with
  | [] => false
  | row :: rest =>
      existsb (Nat.eqb i) targets && negb (slider row =? level)
      || loop_any level targets (S i) rest
  end.

End AmbientTickSpec.

Module ConfigSpec.
Import Py Models ConfigStore.

(** [save(load(save(cfg)))]: the file after saving, loading what was
    saved and saving what was loaded. *)
Definition resave (cfg : AppConfig) : exc file :=
  let* loaded := fst (load (save cfg)) in ret (save loaded).

(** A clock time as the settings dialog writes it: ["HH:MM"]. *)
Definition clock_text (hour minute : Z) : string :=
  (format_02d hour ++ ":" ++ format_02d minute)%string.

(** The fields of a rule are within their declared ranges, and the rule
    carries a clock time exactly when it is anchored to one. *)
Definition rule_in_range (rule : ScheduleRule) : Prop :=
  -1440 <= offset_minutes rule <= 1440
  /\ 0 <= brightness rule <= 100
  /\ match anchor rule with
     | AnchorTime =>
         exists hour minute,
           0 <= hour <= 23 /\ 0 <= minute <= 59
           /\ specific_time rule = Some (clock_text hour minute)
     | AnchorSunrise | AnchorSunset => specific_time rule = None
     end.

(** Well-formed as the round-trip property words it. *)
Definition in_declared_ranges (cfg : AppConfig) : Prop :=
  0 <= last_global_brightness cfg <= 100
  /\ List.NoDup (map fst (monitor_levels cfg))
  /\ List.Forall (fun kv : string * Z => 0 <= snd kv <= 100) (monitor_levels cfg)
  /\ List.Forall rule_in_range (rules (schedule cfg)).

(** What the store needs on top of that: some rule, and offset 0 on the
    rules anchored to a clock time. *)
Definition storable (cfg : AppConfig) : Prop :=
  in_declared_ranges cfg
  /\ rules (schedule cfg) <> []
  /\ List.Forall (fun rule => anchor rule = AnchorTime -> offset_minutes rule = 0)
       (rules (schedule cfg)).

Definition with_rules (new_rules : list ScheduleRule) (cfg : AppConfig)
  : AppConfig :=
  {| version := version cfg; theme := theme cfg; link_mode := link_mode cfg;
     ambient_auto_enabled := ambient_auto_enabled cfg;
     last_global_brightness := last_global_brightness cfg;
     monitor_levels := monitor_levels cfg;
     startup_enabled := startup_enabled cfg;
     schedule :=
       {| enabled := enabled (schedule cfg);
          gradual := gradual (schedule cfg);
          auto_location := auto_location (schedule cfg);
          latitude := latitude (schedule cfg);
          longitude := longitude (schedule cfg);
          rules := new_rules |} |}.

(** No rule at all. *)
Definition config_without_rules : AppConfig := with_rules [] default_config.

(** One rule at 07:30 that carries an offset of 30 minutes. *)
Definition config_time_offset : AppConfig :=
  with_rules
    [ {| anchor := AnchorTime; offset_minutes := 30; brightness := 40;
         target := Both; specific_time := Some "07:30"%string |} ]
    default_config.

(** A configuration with two saved levels, a position, a sunrise rule
    and a clock rule. *)
Definition sample_config : AppConfig :=
  {| version := 1; theme := "light"; link_mode := false;
     ambient_auto_enabled := false; last_global_brightness := 55;
     monitor_levels := [("VCP:Dell:1", 40); ("WMI:Panel:0", 70)]%string;
     startup_enabled := true;
     schedule :=
       {| enabled := true; gradual := false; auto_location := true;
          latitude := Some (4852 # 100)%Q; longitude := Some (235 # 100)%Q;
          rules :=
            [ {| anchor := AnchorSunrise; offset_minutes := -30;
                 brightness := 60; target := Display1; specific_time := None |};
              {| anchor := AnchorTime; offset_minutes := 0;
                 brightness := 20; target := Both;
                 specific_time := Some "22:15"%string |} ] |} |}.

(** What the parser makes of a rule it wrote. *)
Definition reread (rule : ScheduleRule) : ScheduleRule :=
  {| anchor := anchor rule;
     offset_minutes := offset_minutes rule;
     brightness := clamp_brightness (brightness rule);
     target := target rule;
     specific_time := specific_time rule |}.

(** What [_parse] reads from the payload of a storable configuration. *)
Definition reloaded (cfg : AppConfig) : AppConfig :=
  {| version := version cfg;
     theme := theme default_config;
     link_mode := link_mode cfg;
     ambient_auto_enabled := ambient_auto_enabled cfg;
     last_global_brightness := clamp_brightness (last_global_brightness cfg);
     monitor_levels :=
       map (fun kv : string * Z => (fst kv, clamp_brightness (snd kv)))
           (monitor_levels cfg);
     startup_enabled := startup_enabled cfg;
     schedule :=
       {| enabled := enabled (schedule cfg);
          gradual := gradual (schedule cfg);
          auto_location := auto_location (schedule cfg);
          latitude := latitude (schedule cfg);
          longitude := longitude (schedule cfg);
          rules := map reread (rules (schedule cfg)) |} |}.

End ConfigSpec.

Module DispatchSpec.
Import Py Models Ui.

(** The level a mapping holds for a row, kept in [0,100]. *)
Definition mapped_level (values : gmap string Z) (row : MonitorSliderRow)
  : option Z :=
  match values !! key (monitor row) with
  | Some v => Some (clamp_brightness (PyInt v))
  | None => None
  end.

(** A row after the mapping was applied: the mapped level, or the level
    it showed. *)
Definition mapped_row (values : gmap string Z) (row : MonitorSliderRow)
  : MonitorSliderRow :=
  match mapped_level values row with
  | Some level => set_value row level
  | None => row
  end.

(** The service call made for a row. *)
Definition mapped_call (values : gmap string Z) (row : MonitorSliderRow)
  : option effect :=
  match mapped_level values row with
  | Some level => Some (SetBrightness (key (monitor row)) level)
  | None => None
  end.

(** Two displays showing 20 and 80, not linked. *)
Definition row_of (k : string) (v : Z) : MonitorSliderRow :=
  {| monitor := {| key := k; name := k; display_index := 0;
                   method_name := Some "vcp"%string |};
     slider := v |}.

Definition two_displays : window :=
  {| config :=
       {| version := 1; theme := "dark"; link_mode := false;
          ambient_auto_enabled := false; last_global_brightness := 50;
          monitor_levels := [("A", 20); ("B", 80)]%string;
          startup_enabled := true; schedule := default_schedule |};
     monitor_rows := [row_of "A" 20; row_of "B" 80];
     global_slider := 50; link_button := false;
     _schedule_status_text := StatusOff;
     _ambient_smoothed_target := None;
     _last_ambient_applied := None;
     _last_ambient_persist_ts := 0;
     effects := [] |}.

(** A mapping for the first display only. *)
Definition only_first : gmap string Z := {[ "A"%string := 40 ]}.

End DispatchSpec.

Module AppSpec.
Import Py Models Ui App DispatchSpec.

(** The targets a tick computes, after the location look-up. *)
Definition tick_targets
    (astral_sun : Z -> Q -> Q -> option (option Z * option Z))
    (now : Z) (detected : option (Q * Q)) (c : controller) : gmap string Z :=
  _calculate_schedule_targets astral_sun now (located detected c).

(** A schedule that sets the first display to 40 and the second to 60
    from midnight on. *)
Definition split_schedule : ScheduleSettings :=
  {| enabled := true; gradual := false; auto_location := true;
     latitude := None; longitude := None;
     rules :=
       [ {| anchor := AnchorTime; offset_minutes := 0; brightness := 40;
            target := Display1; specific_time := Some "00:00"%string |};
         {| anchor := AnchorTime; offset_minutes := 0; brightness := 60;
            target := Display2; specific_time := Some "00:00"%string |} ] |}.

(** Two linked displays showing 50. *)
Definition linked_window : Ui.window :=
  {| Ui.config :=
       {| version := 1; theme := "dark"; link_mode := true;
          ambient_auto_enabled := false; last_global_brightness := 50;
          monitor_levels := [("A", 50); ("B", 50)]%string;
          startup_enabled := true; schedule := split_schedule |};
     monitor_rows := [row_of "A" 50; row_of "B" 50];
     global_slider := 50; link_button := true;
     _schedule_status_text := StatusOff;
     _ambient_smoothed_target := None;
     _last_ambient_applied := None;
     _last_ambient_persist_ts := 0;
     effects := [] |}.


(** The controller before its first application of the schedule. *)
Definition fresh_controller : controller :=
  {| window := linked_window; _expected_auto_targets := ∅ |}.





End AppSpec.

(* ===================================================================== *)
(** * Further wording and sample inputs *)
(* ===================================================================== *)

Module EvaluatorSpec.
Import Py Models SunSchedule.

(** A point moved in time. *)
Definition shift (d : Z) (p : point) : point := (fst p + d, snd p).

Definition is_clock_rule (rule : ScheduleRule) : bool :=
  match anchor rule with
  | AnchorTime => true
  | AnchorSunrise | AnchorSunset => false
  end.

(** A position on the map. *)
Definition at_home (sched : ScheduleSettings) : ScheduleSettings :=
  {| enabled := enabled sched; gradual := gradual sched;
     auto_location := auto_location sched;
     latitude := Some (4852 # 100)%Q; longitude := Some (235 # 100)%Q;
     rules := rules sched |}.

(** A sunrise rule next to the two clock rules of [two_times]. *)
Definition mixed_rules : list ScheduleRule :=
  {| anchor := AnchorSunrise; offset_minutes := 15; brightness := 90;
     target := Both; specific_time := None |}
    :: rules (ScheduleSpec.two_times true).

End EvaluatorSpec.

Module DocumentSpec.
Import Py Models ConfigStore ConfigSpec.

(** The keys [_parse] looks up. *)
Definition known_keys : list string :=
  [ "version"; "link_mode"; "ambient_auto_enabled"; "last_global_brightness";
    "startup_enabled"; "monitor_levels"; "schedule" ]%string.

(** A document written by hand: a clock rule with blanks, capitals, a
    short hour, an offset and a brightness out of range; a level out of
    range; a field the store does not know. *)
Definition untidy_document : list (string * json) :=
  [ ("theme", JStr "light");
    ("version", JStr "2");
    ("monitor_levels", JObj [("A", JInt 140); ("B", JFloat (5 # 2))]);
    ("schedule",
       JObj [ ("enabled", JInt 1);
              ("latitude", JStr "48.5");
              ("rules",
                 JList [ JObj [ ("anchor", JStr " TIME ");
                                ("specific_time", JStr " 7:05");
                                ("offset_minutes", JInt 90);
                                ("brightness", JFloat (2505 # 10)) ];
                         JStr "noise";
                         JObj [ ("anchor", JStr "noon") ];
                         JObj [ ("anchor", JStr "Sunset");
                                ("offset_minutes", JInt 5000);
                                ("target", JStr "DISPLAY2") ] ]) ]) ]%string.

(** What every rule kept by [_parse_rules] satisfies. *)
Definition kept_rule (rule : ScheduleRule) : Prop :=
  rule_in_range rule /\ (anchor rule = AnchorTime -> offset_minutes rule = 0).

(** What [load] makes of the document written by hand, and its first
    rule. *)
Definition untidy_loaded : AppConfig :=
  match fst (load (Document (JObj untidy_document))) with
  | inr cfg => cfg
  | inl _ => default_config
  end.

Definition untidy_rule : ScheduleRule :=
  {| anchor := AnchorTime; offset_minutes := 0; brightness := 100;
     target := Both; specific_time := Some "07:05"%string |}.

End DocumentSpec.

Module LoadSpec.
Import Py Models ConfigStore ConfigSpec DocumentSpec.

(** The same document without the field the store does not know. *)
Definition tidy_document : list (string * json) := List.tl untidy_document.

(** A document whose global level is written as text. *)
Definition text_level_document : list (string * json) :=
  [ ("version", JInt 1); ("last_global_brightness", JStr "50") ]%string.

End LoadSpec.

Module SensorSpec.
Import Py.

(** The value of a run of digits. *)
Definition digits_value (acc : Z) (ds : list ascii) : Z :=
  fold_left (fun a c => 10 * a + digit_val c) ds acc.

(** What may follow a run of digits in a match of the pattern: the end
    of the text or a point. *)
Definition ends_run (rest : list ascii) : Prop :=
  rest = [] \/ exists r, rest = "."%char :: r.

(** The characters a match of the pattern is made of. *)
Definition number_char (c : ascii) : bool :=
  is_digit c || Ascii.eqb c "-"%char || Ascii.eqb c "+"%char
  || Ascii.eqb c "."%char.

End SensorSpec.

Module HandlerSpec.
Import Py Models Ui UiHandlers.

(** A row after its saved level, if it has one, was restored. *)
Definition restored_row (levels : list (string * Z)) (row : MonitorSliderRow)
  : MonitorSliderRow :=
  match ConfigStore.dict_get (key (monitor row)) levels with
  | Some level => set_value row level
  | None => row
  end.

Definition restored_call (levels : list (string * Z)) (row : MonitorSliderRow)
  : option effect :=
  match ConfigStore.dict_get (key (monitor row)) levels with
  | Some level => Some (SetBrightness (key (monitor row)) level)
  | None => None
  end.

Definition is_service_call (e : effect) : Prop :=
  exists monitor_key level, e = SetBrightness monitor_key level.

(** Three displays showing 10, 55 and 90, not linked, with saved levels
    for the first and the third. *)
Definition three_displays : window :=
  {| config :=
       {| version := 1; theme := "dark"; link_mode := false;
          ambient_auto_enabled := false; last_global_brightness := 50;
          monitor_levels := [("A", 30); ("C", 70)]%string;
          startup_enabled := true; schedule := default_schedule |};
     monitor_rows :=
       [ DispatchSpec.row_of "A" 10; DispatchSpec.row_of "B" 55;
         DispatchSpec.row_of "C" 90 ];
     global_slider := 50; link_button := false;
     _schedule_status_text := StatusOff;
     _ambient_smoothed_target := None;
     _last_ambient_applied := None;
     _last_ambient_persist_ts := 0;
     effects := [] |}.

End HandlerSpec.

Module EngineSpec.
Import Py Models Ui UiAmbient AmbientTickSpec HandlerSpec.

(** The service calls of the loop over the target rows. *)
Fixpoint loop_calls (level : Z) (targets : list nat) (i : nat)
    (rows : list MonitorSliderRow) : list effect :=
  match rows with
  | [] => []
  | row :: rest =>
      if existsb (Nat.eqb i) targets && negb (slider row =? level)
      then SetBrightness (key (monitor row)) level
             :: loop_calls level targets (S i) rest
      else loop_calls level targets (S i) rest
  end.

End EngineSpec.

Module WindowSpec.
Import Py Models Ui UiHandlers.

(** The methods of the window that set levels, as the events that reach
    it. *)
Inductive action :=
| ApplyToAll (value : Z) (persist : bool)
| ApplyMap (values : gmap string Z) (persist : bool)
| SetLinkMode (linked persist apply_link_brightness : bool)
| AmbientTick (lux : option Q) (now_seconds : Q)
| ApplySavedProfile
| GlobalSliderChange (value : Z)
| LinkToggle (checked : bool)
| MonitorSliderChange (monitor_key : string) (value : Z).

Definition perform (a : action) (w : window) : window :=
  match a with
  | ApplyToAll value persist => apply_brightness_to_all value persist w
  | ApplyMap values persist => apply_brightness_map values persist w
  | SetLinkMode linked persist apply_link_brightness =>
      set_link_mode linked persist apply_link_brightness w
  | AmbientTick lux now_seconds => _handle_ambient_timer_tick lux now_seconds w
  | ApplySavedProfile => apply_saved_profile w
  | GlobalSliderChange value => _handle_global_slider_change value w
  | LinkToggle checked => _handle_link_toggle checked w
  | MonitorSliderChange monitor_key value =>
      _handle_monitor_slider_change monitor_key value w
  end.

Definition perform_all (actions : list action) (w : window) : window :=
  fold_left (fun w a => perform a w) actions w.

(** Every slider of the window is within its range. *)
Definition sliders_in_range (w : window) : Prop :=
  List.Forall (fun row => 0 <= slider row <= 100) (monitor_rows w)
  /\ 0 <= global_slider w <= 100.

(** [w'] shows the monitors of [w], and its sliders are within their
    range if those of [w] are. *)
Definition tidy (w w' : window) : Prop :=
  map monitor (monitor_rows w') = map monitor (monitor_rows w)
  /\ (sliders_in_range w -> sliders_in_range w').

End WindowSpec.

Module TargetSpec.
Import Py Models Ui App ScheduleSpec DispatchSpec AppSpec.

(** The value the evaluator gives for the display at a position. *)
Definition display_target
    (astral_sun : Z -> Q -> Q -> option (option Z * option Z))
    (c : controller) (now : Z) (display_index : nat) : option Z :=
  match _rules_for_display_index display_index c with
  | [] => None
  | scoped_rules =>
      SunSchedule.target_brightness astral_sun (schedule (config c))
        (Some scoped_rules) now
  end.

(** The location look-up would change the configuration. *)
Definition needs_fix (detected : option (Q * Q)) (sched : ScheduleSettings)
  : bool :=
  existsb (fun rule => SunSchedule.is_sun_anchor (anchor rule)) (rules sched)
  && SunSchedule.location_unset sched
  && enabled sched && is_Some_b detected.

(** The controller of [fresh_controller] with the default rules, which
    are all for both displays, at a known position. *)
Definition both_controller : controller :=
  {| window :=
       Ui.with_config
         (ConfigSpec.with_rules default_schedule_rules
            (App.with_location (4852 # 100) (235 # 100)
               (Ui.config linked_window)))
         linked_window;
     _expected_auto_targets := ∅ |}.

End TargetSpec.

Module ServiceSpec.
Import Py Models BrightnessService.

(** A control as the dialog needs it: from 0 to a positive maximum,
    with its value in between. *)
Definition control_ok (control : PictureControl) : Prop :=
  minimum control = 0 /\ 0 < maximum control
  /\ 0 <= value control <= maximum control.

Definition controls_ok (controls : list PictureControl) : Prop :=
  List.NoDup (map code controls) /\ List.Forall control_ok controls.

Definition cache_ok (c : cache) : Prop :=
  List.Forall (fun kv => controls_ok (snd kv)) c.

(** A monitor reached through DDC/CI. *)
Definition vcp_monitor : Ui.MonitorHandle :=
  {| Ui.key := "vcp|Dell|1"; Ui.name := "Dell"; Ui.display_index := 0;
     Ui.method_name := Some "VCP" |}%string.

(** It answers for brightness, with a value above the maximum it
    reports, and for contrast. *)
Definition answers (code : Z) : option (Z * Z) :=
  if code =? 16 then Some (120, 100)
  else if code =? 18 then Some (40, 100)
  else None.

End ServiceSpec.

Module WmiSpec.
Import Py.

(** Text made of blanks. *)
Definition blank (s : string) : Prop :=
  forallb is_space (list_ascii_of_string s) = true.

(** Text without blanks. *)
Definition solid (s : string) : Prop :=
  forallb (fun c => negb (is_space c)) (list_ascii_of_string s) = true.

End WmiSpec.

Module RefreshSpec.
Import Py Models Ui.

(** Two monitors: the level of the first can be read, that of the
    second cannot. *)
Definition two_listed : list (MonitorHandle * option Z) :=
  [ (monitor (DispatchSpec.row_of "A" 0), Some 35);
    (monitor (DispatchSpec.row_of "B" 0), None) ].

End RefreshSpec.

(* ===================================================================== *)
(** * Facts about the built-ins *)
(* ===================================================================== *)

Module PyFacts.
Import Py Models.

Lemma clamp_brightness_range (value : number) :
  0 <= clamp_brightness value <= 100.
Proof. unfold clamp_brightness. lia. Qed.

Lemma clamp_brightness_fixed (v : Z) :
  0 <= v <= 100 -> clamp_brightness (PyInt v) = v.
Proof. unfold clamp_brightness. simpl. lia. Qed.

Lemma clamp_brightness_idempotent (value : number) :
  clamp_brightness (PyInt (clamp_brightness value)) = clamp_brightness value.
Proof. apply clamp_brightness_fixed, clamp_brightness_range. Qed.

(** The tie-breaking test of [round_half_even] compares the fractional
    part with one half. *)
Lemma half_compare (q : Q) :
  (2 * (Qnum q mod Zpos (Qden q)) ?= Zpos (Qden q))
  = (q - inject_Z (Qfloor q) ?= 1 # 2)%Q.
Proof.
  destruct q as [n d]. unfold Qfloor, Qcompare, Qminus, Qplus, Qopp, inject_Z.
  cbn [Qnum Qden].
  pose proof (Z.div_mod n (Zpos d) ltac:(lia)) as E.
  rewrite Pos.mul_1_r.
  replace ((n * 1 + - (n / Z.pos d) * Z.pos d) * 2)
    with (2 * (n mod Z.pos d)) by lia.
  rewrite Z.mul_1_l. reflexivity.
Qed.

Lemma round_half_even_comp (p q : Q) :
  (p == q)%Q -> round_half_even p = round_half_even q.
Proof.
  intros E. unfold round_half_even. rewrite !half_compare.
  rewrite (Qfloor_comp _ _ E).
  assert (H : (p - inject_Z (Qfloor q) == q - inject_Z (Qfloor q))%Q)
    by (rewrite E; reflexivity).
  rewrite (Qcompare_comp _ _ H _ _ (Qeq_refl _)). reflexivity.
Qed.

Lemma round_half_even_Z (z : Z) : round_half_even (inject_Z z) = z.
Proof.
  unfold round_half_even, inject_Z, Qfloor. cbn [Qnum Qden].
  rewrite Z.mod_1_r, Z.div_1_r. reflexivity.
Qed.

(** The two renderings of [round] agree on the rationals. *)
Lemma round_half_even_R_Q (q : Q) :
  round_half_even_R (Q2R q) = round_half_even q.
Proof.
  destruct q as [n d]. unfold round_half_even, Qfloor. cbn [Qnum Qden].
  pose proof (Z.div_mod n (Zpos d) ltac:(lia)) as E.
  pose proof (Z.mod_pos_bound n (Zpos d) ltac:(lia)) as Hr.
  set (f := n / Zpos d) in *. set (r := n mod Zpos d) in *.
  assert (Hd : (0 < IZR (Zpos d))%R) by (apply IZR_lt; lia).
  assert (Hq : (Q2R (n # d) = IZR f + IZR r / IZR (Zpos d))%R).
  { unfold Q2R. cbn [Qnum Qden]. rewrite E, plus_IZR, mult_IZR. field. lra. }
  assert (Hfr : (0 <= IZR r / IZR (Zpos d) < 1)%R).
  { split.
    - apply Rmult_le_pos; [apply IZR_le; lia|].
      left. apply Rinv_0_lt_compat, Hd.
    - apply (Rmult_lt_reg_r (IZR (Zpos d))); [exact Hd|].
      unfold Rdiv. rewrite Rmult_assoc, Rinv_l, Rmult_1_r, Rmult_1_l by lra.
      apply IZR_lt. lia. }
  destruct (Int_part_frac_part_spec _ f _ Hfr Hq) as [Hi Hf].
  unfold round_half_even_R. rewrite <- Hi, <- Hf.
  assert (Hhalf : forall c : comparison,
             (2 * r ?= Zpos d) = c ->
             match c with
             | Lt => (IZR r / IZR (Zpos d) < 1 / 2)%R
             | Eq => (IZR r / IZR (Zpos d) = 1 / 2)%R
             | Gt => (1 / 2 < IZR r / IZR (Zpos d))%R
             end).
  { intros c Hc.
    assert (Hm : (IZR r / IZR (Zpos d) * (2 * IZR (Zpos d)) = IZR (2 * r))%R).
    { rewrite mult_IZR. field. lra. }
    assert (Hh : (1 / 2 * (2 * IZR (Zpos d)) = IZR (Zpos d))%R) by (field; lra).
    destruct c.
    - apply Z.compare_eq in Hc.
      apply (Rmult_eq_reg_r (2 * IZR (Zpos d))); [|lra].
      rewrite Hm, Hh, Hc. reflexivity.
    - rewrite Z.compare_lt_iff in Hc.
      apply (Rmult_lt_reg_r (2 * IZR (Zpos d))); [lra|].
      rewrite Hm, Hh. apply IZR_lt, Hc.
    - rewrite Z.compare_gt_iff in Hc.
      apply (Rmult_lt_reg_r (2 * IZR (Zpos d))); [lra|].
      rewrite Hm, Hh. apply IZR_lt, Hc. }
  specialize (Hhalf _ eq_refl).
  destruct (2 * r ?= Zpos d);
    destruct (Rlt_dec (IZR r / IZR (Zpos d)) (1 / 2));
    destruct (Rlt_dec (1 / 2) (IZR r / IZR (Zpos d)));
    try reflexivity; lra.
Qed.

(** Ties go to the even neighbour, on both sides of zero. *)
Example round_half_even_ties :
  round_half_even (5 # 2) = 2 /\ round_half_even (7 # 2) = 4
  /\ round_half_even (-5 # 2) = -2 /\ round_half_even (-7 # 3) = -2.
Proof. repeat split. Qed.

Example int_of_string_samples :
  int_of_string " 07 " = Some 7 /\ int_of_string "+1_2" = Some 12
  /\ int_of_string "-3" = Some (-3) /\ int_of_string "1__2" = None
  /\ int_of_string "" = None /\ int_of_string "7a" = None.
Proof. repeat split. Qed.

Example float_of_string_samples :
  float_of_string "12.5e-1" = Some (125 # 100)%Q
  /\ float_of_string "-4.0" = Some (- (40 # 10))%Q
  /\ float_of_string ".5" = Some (5 # 10)%Q
  /\ float_of_string "lux" = None.
Proof. repeat split. Qed.

End PyFacts.

(* ===================================================================== *)
(** * The schedule evaluator *)
(* ===================================================================== *)

Module SunScheduleFacts.
Import Py Models SunSchedule ScheduleSpec PyFacts.

Lemma insert_point_perm (p : point) (l : list point) :
  Permutation (p :: l) (insert_point p l).
Proof.
  induction l as [|q l IH]; simpl.
  - reflexivity.
  - destruct (fst p <=? fst q).
    + reflexivity.
    + rewrite perm_swap. constructor. exact IH.
Qed.

Lemma sort_points_perm (l : list point) : Permutation l (sort_points l).
Proof.
  induction l as [|p l IH]; simpl.
  - constructor.
  - rewrite <- insert_point_perm. constructor. exact IH.
Qed.

Lemma insert_point_sorted (p : point) (l : list point) :
  StronglySorted by_instant l -> StronglySorted by_instant (insert_point p l).
Proof.
  induction 1 as [|q l Hs IH Hq]; simpl.
  - repeat constructor.
  - destruct (Z.leb_spec (fst p) (fst q)) as [Hle|Hgt].
    + constructor.
      * constructor; assumption.
      * constructor; [exact Hle|].
        eapply List.Forall_impl; [|exact Hq].
        unfold by_instant. intros a Ha. lia.
    + constructor; [exact IH|].
      rewrite <- insert_point_perm. constructor; [|exact Hq].
      unfold by_instant. lia.
Qed.

Lemma sort_points_sorted (l : list point) :
  StronglySorted by_instant (sort_points l).
Proof.
  induction l as [|p l IH]; simpl.
  - constructor.
  - apply insert_point_sorted, IH.
Qed.

Lemma insert_point_cons (p : point) (l : list point) : insert_point p l <> [].
Proof. destruct l as [|q l]; simpl; [|destruct (_ <=? _)]; discriminate. Qed.

Lemma sort_points_nil (l : list point) : sort_points l = [] -> l = [].
Proof.
  destruct l as [|p l]; simpl; [reflexivity|].
  intros H. destruct (insert_point_cons _ _ H).
Qed.

Lemma last_cons {A} (a d : A) (l : list A) : List.last (a :: l) d = List.last l a.
Proof.
  revert a d. induction l as [|b l IH]; intros a d; [reflexivity|].
  change (List.last (a :: b :: l) d) with (List.last (b :: l) d).
  rewrite (IH b d), (IH b a). reflexivity.
Qed.

(** On points sorted by instant the loop selects what the spec says. *)
Lemma scan_points_spec (now : datetime) (l : list point) :
  StronglySorted by_instant l ->
  forall previous following,
    scan_points now l previous following
    = (spec_previous now l previous, spec_following now l following).
Proof.
  unfold spec_previous, spec_following.
  induction 1 as [|p l Hs IH Hp]; intros previous following.
  - reflexivity.
  - cbn [scan_points List.filter].
    destruct (fst p <=? now) eqn:Hle.
    + assert (Hlt : (now <? fst p) = false) by lia.
      rewrite Hlt, IH, last_cons. reflexivity.
    + assert (Hlt : (now <? fst p) = true) by lia.
      rewrite Hlt. cbn [hd].
      replace (List.filter (fun q : point => fst q <=? now) l) with (@nil point);
        [reflexivity|].
      symmetry. clear IH Hs. induction Hp as [|q l Hq Hl IHl]; [reflexivity|].
      cbn [List.filter].
      assert (Hq' : (fst q <=? now) = false) by (unfold by_instant in Hq; lia).
      rewrite Hq'. exact IHl.
Qed.

Lemma code_window_spec (now : datetime) (l : list point) :
  StronglySorted by_instant l -> code_window now l = spec_window now l.
Proof.
  intros Hs. destruct l as [|first l]; [reflexivity|].
  unfold code_window, spec_window. rewrite scan_points_spec by exact Hs.
  reflexivity.
Qed.

Lemma evaluate_points_window (is_gradual : bool) (now : datetime)
    (points : list point) :
  evaluate_points is_gradual now points
  = option_map
      (fun w : point * point =>
         if negb is_gradual then snd (fst w)
         else _interpolate now (fst w) (snd w))
      (code_window now (sort_points points)).
Proof.
  unfold evaluate_points, code_window.
  destruct points as [|p points]; [reflexivity|].
  destruct (sort_points (p :: points)) as [|first rest] eqn:E.
  - apply sort_points_nil in E. discriminate.
  - cbn [option_map]. destruct (scan_points _ _ _ _) as [previous following].
    destruct is_gradual; reflexivity.
Qed.



Lemma rule_point_level (date : Z) (events : option (datetime * datetime))
    (rule : ScheduleRule) (p : point) :
  rule_point date events rule = Some p -> level_in_range p.
Proof.
  unfold rule_point, level_in_range. intros H.
  destruct (anchor rule), events as [ev|]; cbn in H;
    try destruct (_parse_time _); try discriminate;
    injection H as <-; apply clamp_brightness_range.
Qed.

Section Engine.
Variable astral_sun : Z -> Q -> Q -> option (option datetime * option datetime).

Lemma collect_points_levels (sched : ScheduleSettings)
    (active : list ScheduleRule) (now : datetime) :
  List.Forall level_in_range (collect_points astral_sun sched active now).
Proof.
  apply List.Forall_forall. intros p Hp.
  unfold collect_points in Hp. apply List.in_flat_map in Hp.
  destruct Hp as (d & _ & Hp). unfold day_points in Hp.
  destruct (uses_sun_events active);
    [destruct (latitude sched), (longitude sched); try solve [destruct Hp]|];
    apply list_elem_of_In, list_elem_of_omap in Hp;
    destruct Hp as (rule & _ & Hp); eapply rule_point_level, Hp.
Qed.

End Engine.

Lemma sorted_levels (l : list point) :
  List.Forall level_in_range l -> List.Forall level_in_range (sort_points l).
Proof.
  intros H. eapply Permutation_Forall; [apply sort_points_perm|exact H].
Qed.

Lemma last_in {A} (l : list A) (d : A) : List.last l d = d \/ In (List.last l d) l.
Proof.
  revert d. induction l as [|a l IH]; intros d; [left; reflexivity|].
  rewrite last_cons. destruct (IH a) as [->|H]; right; simpl; auto.
Qed.

Lemma spec_window_levels (now : datetime) (l : list point) (w : point * point) :
  List.Forall level_in_range l -> spec_window now l = Some w ->
  level_in_range (fst w) /\ level_in_range (snd w).
Proof.
  intros Hl. rewrite List.Forall_forall in Hl.
  destruct l as [|first l]; [discriminate|].
  assert (Hfinal : level_in_range (List.last (first :: l) first)).
  { destruct (last_in (first :: l) first) as [->|H]; apply Hl;
      [left; reflexivity|exact H]. }
  unfold spec_window. revert Hfinal.
  generalize (List.last (first :: l) first). intros final Hfinal.
  intros [= <-]. cbn [fst snd].
  unfold spec_previous, spec_following. split.
  - destruct (last_in (List.filter (fun p : point => fst p <=? now) (first :: l)) first)
      as [->|H].
    + apply Hl. left. reflexivity.
    + apply List.filter_In in H. apply Hl, H.
  - destruct (List.filter (fun p : point => now <? fst p) (first :: l))
      as [|q qs] eqn:E; cbn [hd].
    + exact Hfinal.
    + assert (H : In q (List.filter (fun p : point => now <? fst p) (first :: l)))
        by (rewrite E; left; reflexivity).
      apply List.filter_In in H. apply Hl, H.
Qed.


Section Claims.
Variable astral_sun : Z -> Q -> Q -> option (option datetime * option datetime).

Lemma target_brightness_window (sched : ScheduleSettings)
    (rules : option (list ScheduleRule)) (now : datetime) :
  enabled sched = true ->
  active_rules sched rules <> [] ->
  uses_sun_events (active_rules sched rules) && location_unset sched = false ->
  target_brightness astral_sun sched rules now
  = option_map
      (fun w : point * point =>
         if negb (gradual sched) then snd (fst w)
         else _interpolate now (fst w) (snd w))
      (spec_window now (evaluator_points astral_sun sched rules now)).
Proof.
  intros He Ha Hg. unfold target_brightness, evaluator_points.
  rewrite He. cbn [negb].
  destruct (active_rules sched rules) as [|r rs] eqn:E; [destruct Ha; reflexivity|].
  rewrite Hg, evaluate_points_window, code_window_spec by apply sort_points_sorted.
  reflexivity.
Qed.

(** C1.  With gradual transitions off, the points of an evaluation are
    sorted ascending by instant, the selection loop picks as [previous]
    the last point not after [now] (the first point when there is none)
    and as [following] the first point after [now] (the last point when
    there is none), and the evaluator returns the brightness of
    [previous] as it stands. *)
Theorem step_schedule_returns_previous (sched : ScheduleSettings)
    (rules : option (list ScheduleRule)) (now : datetime) :
  enabled sched = true ->
  gradual sched = false ->
  active_rules sched rules <> [] ->
  uses_sun_events (active_rules sched rules) && location_unset sched = false ->
  StronglySorted by_instant (evaluator_points astral_sun sched rules now)
  /\ Permutation (collect_points astral_sun sched (active_rules sched rules) now)
                 (evaluator_points astral_sun sched rules now)
  /\ code_window now (evaluator_points astral_sun sched rules now)
     = spec_window now (evaluator_points astral_sun sched rules now)
  /\ target_brightness astral_sun sched rules now
     = option_map (fun w : point * point => snd (fst w))
         (spec_window now (evaluator_points astral_sun sched rules now)).
Proof.
  intros He Hg Ha Hl. repeat split.
  - apply sort_points_sorted.
  - apply sort_points_perm.
  - apply code_window_spec, sort_points_sorted.
  - rewrite target_brightness_window by assumption. rewrite Hg. reflexivity.
Qed.


(** C3.  The evaluator has no opinion exactly when the schedule is
    disabled, or no rule was supplied, or a supplied rule is anchored to
    sunrise or sunset while the latitude or the longitude is unset, or
    no point was resolved on any of the three days. *)
Theorem target_brightness_none_iff (sched : ScheduleSettings)
    (rules : option (list ScheduleRule)) (now : datetime) :
  target_brightness astral_sun sched rules now = None
  <-> (enabled sched = false
       \/ active_rules sched rules = []
       \/ ((exists rule, In rule (active_rules sched rules)
                         /\ (anchor rule = AnchorSunrise
                             \/ anchor rule = AnchorSunset))
           /\ (latitude sched = None \/ longitude sched = None))
       \/ collect_points astral_sun sched (active_rules sched rules) now = []).
Proof.
  assert (Hsun : forall active,
            uses_sun_events active = true
            <-> exists rule, In rule active
                             /\ (anchor rule = AnchorSunrise
                                 \/ anchor rule = AnchorSunset)).
  { intros active. unfold uses_sun_events. rewrite List.existsb_exists.
    split; intros (rule & Hin & H); exists rule; split; try exact Hin.
    - destruct (anchor rule); auto; discriminate.
    - destruct H as [-> | ->]; reflexivity. }
  assert (Hloc : location_unset sched = true
                 <-> (latitude sched = None \/ longitude sched = None)).
  { unfold location_unset.
    destruct (latitude sched), (longitude sched); cbn; intuition discriminate. }
  rewrite <- Hsun, <- Hloc. unfold target_brightness.
  set (active := active_rules sched rules).
  set (points := collect_points astral_sun sched active now).
  assert (Hp : forall g, evaluate_points g now points = None <-> points = []).
  { intros g. rewrite evaluate_points_window. unfold code_window.
    split; intros H.
    - destruct (sort_points points) eqn:Es; [|discriminate].
      apply sort_points_nil, Es.
    - rewrite H. reflexivity. }
  destruct (enabled sched); cbn [negb]; [|tauto].
  destruct active as [|r rs]; [tauto|].
  destruct (uses_sun_events (r :: rs)), (location_unset sched); cbn [andb];
    try rewrite Hp; intuition discriminate.
Qed.

End Claims.

Lemma step_schedule_returns_previous_witness :
  enabled (two_times false) = true
  /\ gradual (two_times false) = false
  /\ active_rules (two_times false) None <> []
  /\ uses_sun_events (active_rules (two_times false) None)
     && location_unset (two_times false) = false
  /\ target_brightness no_sun (two_times false) None noon = Some 30.
Proof.
  assert (H1 : enabled (two_times false) = true) by reflexivity.
  assert (H2 : gradual (two_times false) = false) by reflexivity.
  assert (H3 : active_rules (two_times false) None <> []) by discriminate.
  assert (H4 : uses_sun_events (active_rules (two_times false) None)
               && location_unset (two_times false) = false) by reflexivity.
  refine (conj H1 (conj H2 (conj H3 (conj H4 _)))).
  destruct (step_schedule_returns_previous no_sun (two_times false) None noon
              H1 H2 H3 H4) as (_ & _ & _ & ->).
  vm_compute. reflexivity.
Defined.


(** With the default rules, three quarters of an hour before sunrise
    lies half-way between the points at 50 and at 75: the blend 62.5 is
    rounded to the even 62, and the step schedule still shows 50; late
    in the evening the last point of the day, 50, holds. *)
Example default_rules_before_sunrise :
  target_brightness even_days (default_rules_at_home true) None
    (combine 0 (5, 15)) = Some 62
  /\ target_brightness even_days (default_rules_at_home false) None
       (combine 0 (5, 15)) = Some 50
  /\ target_brightness even_days (default_rules_at_home true) None
       (combine 0 (23, 0)) = Some 50
  /\ target_brightness even_days (default_rules_at_home true) None
       (combine 0 (12, 0)) = Some 100.
Proof. repeat split; vm_compute; reflexivity. Qed.

End SunScheduleFacts.

(* ===================================================================== *)
(** * The ambient sensor worker *)
(* ===================================================================== *)

Module AmbientLightFacts.
Import Py AmbientLight AmbientSpec.

Lemma step_reading (s : service) (e : event) :
  latest_lux (step s e)
  = match reading e with
    | Some x => Some x
    | None => latest_lux s
    end.
Proof.
  destruct e as [run|run]; unfold step, probe_sensor, poll_once, reading, latest_lux;
    cbn [fst]; destruct (_query_lux run); cbn [_latest_lux]; try reflexivity.
  destruct (_latest_lux s) eqn:E; cbn [_latest_lux]; congruence.
Qed.

Lemma run_events_latest (events : list event) (s : service) :
  latest_lux (run_events s events)
  = match last_success events with
    | Some x => Some x
    | None => latest_lux s
    end.
Proof.
  unfold run_events, last_success. revert s.
  induction events as [|e events IH]; intros s; [reflexivity|].
  cbn [fold_left]. rewrite IH, step_reading.
  change (omap reading (e :: events))
    with (match reading e with
          | Some y => y :: omap reading events
          | None => omap reading events
          end).
  destruct (reading e) as [x|]; [|reflexivity].
  clear IH. destruct (omap reading events) as [|y ys] eqn:E; [reflexivity|].
  rewrite last_cons_cons. destruct (last (y :: ys)) eqn:El; [reflexivity|].
  apply last_None in El. discriminate.
Qed.

Lemma _query_lux_nonneg (run : run_result) (x : Q) :
  _query_lux run = Some x -> (0 <= x)%Q.
Proof.
  unfold _query_lux. destruct run as [|rc out]; [discriminate|].
  destruct (negb (rc =? 0)); [discriminate|].
  destruct (strip out); [discriminate|].
  destruct (search_float _); [|discriminate].
  destruct (float_of_string _) as [lux|]; [|discriminate].
  destruct (Qlt_le_dec lux 0); intros [= <-]; [discriminate|assumption].
Qed.

(** C10.  A failed poll or probe leaves the stored reading as it is,
    so after any run of the worker and of probes a reader sees the most
    recent successful sample, or none when none succeeded; every
    reading is non-negative, a negative raw value being reported as 0. *)
Theorem latest_lux_keeps_last_success :
  (forall (s : service) (e : event),
      reading e = None -> latest_lux (step s e) = latest_lux s)
  /\ (forall (s : service) (events : list event) (x : Q),
        latest_lux s = Some x ->
        Forall (fun e => reading e = None) events ->
        latest_lux (run_events s events) = Some x)
  /\ (forall events : list event,
        latest_lux (run_events init events) = last_success events)
  /\ (forall (run : run_result) (x : Q), _query_lux run = Some x -> (0 <= x)%Q)
  /\ (forall (stdout : string) (m : list ascii) (raw : Q),
        strip stdout <> EmptyString ->
        search_float (list_ascii_of_string (strip stdout)) = Some m ->
        float_of_string (string_of_list_ascii m) = Some raw ->
        (raw < 0)%Q ->
        _query_lux (RunCompleted 0 stdout) = Some 0%Q).
Proof.
  split; [|split; [|split; [|split]]].
  - intros s e H. rewrite step_reading, H. reflexivity.
  - intros s events x Hs Hf. rewrite run_events_latest.
    replace (last_success events) with (@None Q); [exact Hs|].
    unfold last_success. symmetry.
    induction Hf as [|e events He _ IH]; [reflexivity|].
    change (omap reading (e :: events))
      with (match reading e with
            | Some y => y :: omap reading events
            | None => omap reading events
            end).
    rewrite He. exact IH.
  - intros events. rewrite run_events_latest.
    destruct (last_success events); reflexivity.
  - apply _query_lux_nonneg.
  - intros stdout m raw Hne Hm Hf Hneg. unfold _query_lux. cbn [Z.eqb negb].
    destruct (strip stdout) eqn:E; [destruct Hne; reflexivity|].
    rewrite Hm, Hf. destruct (Qlt_le_dec raw 0) as [_|Hge]; [reflexivity|].
    exfalso. apply (Qlt_not_le _ _ Hneg Hge).
Qed.

Lemma latest_lux_keeps_last_success_witness :
  latest_lux (run_events init sample_events) = Some 0%Q.
Proof.
  destruct latest_lux_keeps_last_success as (_ & _ & -> & _).
  vm_compute. reflexivity.
Defined.

End AmbientLightFacts.

(* ===================================================================== *)
(** * The lux curve *)
(* ===================================================================== *)

Module LuxFacts.
Import Py Models Ui LuxSpec.
Local Open Scope R_scope.

Lemma Int_part_IZR (z : Z) : Int_part (IZR z) = z /\ frac_part (IZR z) = 0.
Proof.
  destruct (Int_part_frac_part_spec (IZR z) z 0) as [H1 H2]; [lra|lra|].
  split; congruence.
Qed.

Lemma round_half_even_R_IZR (z : Z) : round_half_even_R (IZR z) = z.
Proof.
  unfold round_half_even_R. destruct (Int_part_IZR z) as [-> ->].
  destruct (Rlt_dec 0 (1 / 2)); [reflexivity|lra].
Qed.

Lemma Int_part_le (x y : R) : x <= y -> (Int_part x <= Int_part y)%Z.
Proof.
  intros H.
  pose proof (base_Int_part x) as [Hx1 Hx2].
  pose proof (base_Int_part y) as [Hy1 Hy2].
  assert (Hlt : IZR (Int_part x) < IZR (Int_part y + 1)).
  { rewrite plus_IZR. lra. }
  apply lt_IZR in Hlt. lia.
Qed.

Lemma round_half_even_R_bounds (x : R) :
  (Int_part x <= round_half_even_R x <= Int_part x + 1)%Z.
Proof.
  unfold round_half_even_R.
  destruct (Rlt_dec _ _); [lia|]. destruct (Rlt_dec _ _); [lia|].
  destruct (Z.even _); lia.
Qed.

Lemma round_half_even_R_mono (x y : R) :
  x <= y -> (round_half_even_R x <= round_half_even_R y)%Z.
Proof.
  intros H. pose proof (Int_part_le x y H) as Hf.
  destruct (Z.eq_dec (Int_part x) (Int_part y)) as [E|NE].
  - assert (Hd : frac_part x <= frac_part y).
    { unfold frac_part. rewrite E. lra. }
    unfold round_half_even_R. rewrite E.
    destruct (Rlt_dec (frac_part x) (1 / 2)), (Rlt_dec (frac_part y) (1 / 2));
      try lra; try lia;
      destruct (Rlt_dec (1 / 2) (frac_part x)), (Rlt_dec (1 / 2) (frac_part y));
      try lra; try lia; destruct (Z.even (Int_part y)); lia.
  - pose proof (round_half_even_R_bounds x). pose proof (round_half_even_R_bounds y).
    lia.
Qed.

Lemma ln_le (x y : R) : 0 < x -> x <= y -> ln x <= ln y.
Proof.
  intros Hx [Hlt| ->]; [|lra]. left. apply ln_increasing; assumption.
Qed.

Lemma ln_pos (x : R) : 1 < x -> 0 < ln x.
Proof. intros H. rewrite <- ln_1. apply ln_increasing; lra. Qed.

Lemma log10_pos (x : R) : 1 < x -> 0 < log10 x.
Proof.
  intros H. unfold log10. apply Rdiv_lt_0_compat; apply ln_pos; lra.
Qed.

Lemma log10_1 : log10 1 = 0.
Proof. unfold log10. rewrite ln_1. lra. Qed.

Lemma log10_le (x y : R) : 0 < x -> x <= y -> log10 x <= log10 y.
Proof.
  intros Hx Hxy. unfold log10.
  apply Rmult_le_compat_r; [|apply ln_le; assumption].
  left. apply Rinv_0_lt_compat, ln_pos. lra.
Qed.

Lemma share_mono (a b : R) : a <= b -> share a <= share b.
Proof.
  intros H. unfold share.
  apply Rle_max_compat_l, Rle_min_compat_l.
  apply Rmult_le_compat_r.
  - left. apply Rinv_0_lt_compat, log10_pos. lra.
  - apply log10_le.
    + pose proof (Rmax_l 0 a). lra.
    + apply Rplus_le_compat_r, Rle_max_compat_l, H.
Qed.

Lemma share_0 : share 0 = 0.
Proof.
  unfold share. rewrite (Rmax_left 0 0) by lra.
  replace (0 + 1) with 1 by lra. rewrite log10_1.
  unfold Rdiv. rewrite Rmult_0_l.
  rewrite Rmin_right by lra. apply Rmax_left. lra.
Qed.

Lemma share_800 : share 800 = 1.
Proof.
  unfold share. rewrite (Rmax_right 0 800) by lra.
  replace (800 + 1) with 801 by lra.
  unfold Rdiv. rewrite Rinv_r.
  - rewrite Rmin_left by lra. apply Rmax_right. lra.
  - pose proof (log10_pos 801). lra.
Qed.

Lemma _map_lux_share (lux : R) :
  _map_lux_to_brightness lux
  = clamp_brightness (PyReal (6 + share lux * (100 - 6))).
Proof. reflexivity. Qed.

(** C6.  The lux curve is the spec's formula; its value is an integer
    of [0,100], it is 6 at 0 lux and 100 at 800 lux, and it does not
    decrease when the lux value grows. *)
Theorem map_lux_to_brightness_curve :
  (forall lux : R, _map_lux_to_brightness lux = spec_lux_curve lux)
  /\ (forall lux : R, (0 <= _map_lux_to_brightness lux <= 100)%Z)
  /\ _map_lux_to_brightness 0 = 6%Z
  /\ _map_lux_to_brightness 800 = 100%Z
  /\ (forall a b : R, a <= b ->
        (_map_lux_to_brightness a <= _map_lux_to_brightness b)%Z).
Proof.
  split; [|split; [|split; [|split]]].
  - reflexivity.
  - intros lux. unfold _map_lux_to_brightness, clamp_brightness. lia.
  - rewrite _map_lux_share, share_0. unfold clamp_brightness. cbn [int_round].
    replace (6 + 0 * (100 - 6)) with (IZR 6) by lra.
    rewrite round_half_even_R_IZR. reflexivity.
  - rewrite _map_lux_share, share_800. unfold clamp_brightness. cbn [int_round].
    replace (6 + 1 * (100 - 6)) with (IZR 100) by lra.
    rewrite round_half_even_R_IZR. reflexivity.
  - intros a b H. rewrite !_map_lux_share. unfold clamp_brightness.
    cbn [int_round].
    assert (Hr : (round_half_even_R (6 + share a * (100 - 6))
                  <= round_half_even_R (6 + share b * (100 - 6)))%Z).
    { apply round_half_even_R_mono. pose proof (share_mono a b H). lra. }
    lia.
Qed.

End LuxFacts.

(* ===================================================================== *)
(** * The ambient step limiter *)
(* ===================================================================== *)

Module AmbientTickFacts.
Import Py Models Ui PyFacts AmbientTickSpec.

Lemma next_level_deadband (last desired : Z) :
  Z.abs (desired - last) < 2 -> next_level (Some last) desired = None.
Proof.
  intros H. unfold next_level, _AMBIENT_APPLY_DEADBAND.
  destruct (Z.ltb_spec (Z.abs (desired - last)) 2); [reflexivity|lia].
Qed.

Lemma next_level_step (last desired : Z) :
  2 <= Z.abs (desired - last) ->
  next_level (Some last) desired
  = Some (clamp_brightness (PyInt (last + limited_step last desired))).
Proof.
  intros H. unfold next_level, _AMBIENT_APPLY_DEADBAND, _AMBIENT_MAX_STEP.
  destruct (Z.ltb_spec (Z.abs (desired - last)) 2); [lia|reflexivity].
Qed.

Lemma limited_step_range (last desired : Z) :
  0 <= last <= 100 -> 0 <= desired <= 100 ->
  clamp_brightness (PyInt (last + limited_step last desired))
  = last + limited_step last desired.
Proof.
  intros Hl Hd. apply clamp_brightness_fixed. unfold limited_step. lia.
Qed.

Lemma ambient_loop_rows level targets i rows levels log :
  exists levels' log',
    ambient_loop level targets i rows levels log
    = (loop_rows level targets i rows, levels', log',
       loop_any level targets i rows).
Proof.
  revert i levels log.
  induction rows as [|row rest IH]; intros i levels log; cbn [ambient_loop].
  - eauto.
  - cbn [loop_rows loop_any].
    destruct (existsb (Nat.eqb i) targets && negb (slider row =? level)).
    + unfold set_row.
      destruct (IH (S i) (ConfigStore.dict_set (key (monitor row)) level levels)
                  (log ++ [SetBrightness (key (monitor row)) level]))
        as (lv & lg & ->).
      eauto.
    + destruct (IH (S i) levels log) as (lv & lg & ->). eauto.
Qed.

Lemma loop_rows_monitors level targets i rows :
  map monitor (loop_rows level targets i rows) = map monitor rows.
Proof.
  revert i. induction rows as [|row rest IH]; intros i; [reflexivity|].
  cbn [loop_rows map]. rewrite IH. f_equal. destruct (_ && _); reflexivity.
Qed.

Lemma loop_rows_lookup level targets i rows k row' :
  loop_rows level targets i rows !! k = Some row' ->
  exists row, rows !! k = Some row
    /\ row' = if existsb (Nat.eqb (i + k)) targets && negb (slider row =? level)
              then set_value row level else row.
Proof.
  revert i k. induction rows as [|row rest IH]; intros i k; [discriminate|].
  destruct k as [|k]; cbn [loop_rows].
  - intros [= <-]. exists row. rewrite Nat.add_0_r. split; reflexivity.
  - intros H. apply IH in H. destruct H as (r & Hr & ->).
    exists r. split; [exact Hr|]. replace (i + S k)%nat with (S i + k)%nat by lia.
    reflexivity.
Qed.

Lemma loop_any_true level targets i rows k row :
  rows !! k = Some row -> In (i + k)%nat targets -> slider row <> level ->
  loop_any level targets i rows = true.
Proof.
  revert i k. induction rows as [|r rest IH]; intros i k; [discriminate|].
  destruct k as [|k]; cbn [loop_any].
  - intros [= ->] Hin Hne. rewrite Nat.add_0_r in Hin.
    assert (E : existsb (Nat.eqb i) targets = true).
    { apply List.existsb_exists. exists i. split; [exact Hin|apply Nat.eqb_refl]. }
    rewrite E. assert (E2 : (slider row =? level) = false) by lia.
    rewrite E2. reflexivity.
  - intros Hr Hin Hne. rewrite (IH (S i) k); [apply orb_true_r|exact Hr| |exact Hne].
    replace (S i + k)%nat with (i + S k)%nat by lia. exact Hin.
Qed.

Lemma first_wmi_monitors rows rows' i :
  map monitor rows' = map monitor rows -> first_wmi rows' i = first_wmi rows i.
Proof.
  revert rows' i. induction rows as [|r rest IH]; intros [|r' rest'] i H;
    try discriminate; [reflexivity|].
  injection H as Hm Hrest. cbn [first_wmi]. unfold is_wmi. rewrite Hm.
  destruct (contains _ _); [reflexivity|]. apply IH, Hrest.
Qed.

Lemma first_wmi_bound rows i k :
  first_wmi rows i = Some k -> (i <= k < i + List.length rows)%nat.
Proof.
  revert i. induction rows as [|r rest IH]; intros i; [discriminate|].
  cbn [first_wmi List.length]. destruct (is_wmi r).
  - intros [= <-]. lia.
  - intros H. apply IH in H. lia.
Qed.

(** The target positions depend on the monitors and on the link mode
    only. *)
Lemma target_rows_stable (w w' : window) :
  map monitor (monitor_rows w') = map monitor (monitor_rows w) ->
  link_mode (config w') = link_mode (config w) ->
  _ambient_target_rows w' = _ambient_target_rows w.
Proof.
  intros Hm Hl. unfold _ambient_target_rows. rewrite Hl.
  assert (Hlen : List.length (monitor_rows w') = List.length (monitor_rows w)).
  { rewrite <- (List.length_map monitor (monitor_rows w')), Hm.
    apply List.length_map. }
  rewrite (first_wmi_monitors _ _ 0%nat Hm), Hlen.
  destruct (monitor_rows w), (monitor_rows w'); try discriminate; reflexivity.
Qed.

(** Some target position holds a row. *)
Lemma target_rows_inhabited (w : window) :
  monitor_rows w <> [] ->
  exists k row, In k (_ambient_target_rows w) /\ monitor_rows w !! k = Some row.
Proof.
  intros Hne. unfold _ambient_target_rows.
  destruct (monitor_rows w) as [|r rest] eqn:E; [destruct Hne; reflexivity|].
  destruct (link_mode (config w)).
  - exists 0%nat, r. split; [|reflexivity]. cbn. left. reflexivity.
  - destruct (first_wmi (r :: rest) 0) as [k|] eqn:Ef.
    + apply first_wmi_bound in Ef.
      destruct (lookup_lt_is_Some_2 (r :: rest) k ltac:(lia)) as [row Hrow].
      exists k, row. split; [left; reflexivity|exact Hrow].
    + exists 0%nat, r. split; [left|]; reflexivity.
Qed.

Lemma sync_projections (w : window) :
  monitor_rows (_sync_global_slider_to_average w) = monitor_rows w
  /\ _last_ambient_applied (_sync_global_slider_to_average w)
     = _last_ambient_applied w
  /\ link_mode (config (_sync_global_slider_to_average w))
     = link_mode (config w).
Proof.
  unfold _sync_global_slider_to_average.
  destruct (monitor_rows w) eqn:E; cbn; rewrite ?E; auto.
Qed.

(** What a tick outside the dead band leaves, when the driven displays
    show the last applied level. *)
Lemma ambient_dispatch_applied (w : window) (l d : Z) (now : Q) :
  in_sync w l -> 0 <= l <= 100 -> 0 <= d <= 100 -> 2 <= Z.abs (d - l) ->
  monitor_rows (ambient_dispatch d now w)
  = loop_rows (l + limited_step l d) (_ambient_target_rows w) 0 (monitor_rows w)
  /\ _last_ambient_applied (ambient_dispatch d now w)
     = Some (l + limited_step l d)
  /\ link_mode (config (ambient_dispatch d now w)) = link_mode (config w).
Proof.
  intros (Hne & Hlast & Hrows) Hl Hd Habs.
  unfold ambient_dispatch.
  rewrite Hlast, next_level_step, limited_step_range by assumption.
  set (level := l + limited_step l d).
  assert (Hlevel : level <> l) by (unfold level, limited_step; lia).
  destruct (target_rows_inhabited w Hne) as (k & row & Hk & Hrow).
  destruct (_ambient_target_rows w) as [|t ts] eqn:Et; [destruct Hk|].
  rewrite <- Et in *.
  destruct (ambient_loop_rows level (_ambient_target_rows w) 0 (monitor_rows w)
              (monitor_levels (config w)) (effects w)) as (lv & lg & ->).
  rewrite (loop_any_true level (_ambient_target_rows w) 0 (monitor_rows w) k row);
    [|exact Hrow|exact Hk|rewrite (Hrows k row Hk Hrow); auto].
  rewrite Et at 1. cbn [negb andb].
  match goal with
  | |- context [if link_mode ?c then ?a else ?b] =>
      set (w3 := if link_mode c then a else b)
  end.
  assert (H3 : monitor_rows w3
               = loop_rows level (_ambient_target_rows w) 0 (monitor_rows w)
               /\ _last_ambient_applied w3 = Some level
               /\ link_mode (config w3) = link_mode (config w)).
  { subst w3. cbn [config with_last_applied with_effects with_rows with_config
                   with_monitor_levels link_mode].
    destruct (link_mode (config w)) eqn:El.
    - cbn. auto.
    - match goal with
      | |- context [_sync_global_slider_to_average ?x] =>
          destruct (sync_projections x) as (-> & -> & ->)
      end.
      cbn. auto. }
  destruct (_ || _); cbn; exact H3.
Qed.

Lemma ambient_dispatch_in_sync (w : window) (l d : Z) (now : Q) :
  in_sync w l -> 0 <= l <= 100 -> 0 <= d <= 100 -> 2 <= Z.abs (d - l) ->
  in_sync (ambient_dispatch d now w) (l + limited_step l d).
Proof.
  intros Hs Hl Hd Habs.
  destruct (ambient_dispatch_applied w l d now Hs Hl Hd Habs) as (Hr & Hla & Hlm).
  destruct Hs as (Hne & Hlast & Hrows).
  assert (Hmon : map monitor (monitor_rows (ambient_dispatch d now w))
                 = map monitor (monitor_rows w)).
  { rewrite Hr. apply loop_rows_monitors. }
  pose proof (target_rows_stable w _ Hmon Hlm) as Ht.
  split; [|split].
  - intros E. rewrite E in Hmon. destruct (monitor_rows w); [auto|discriminate].
  - exact Hla.
  - intros k row' Hk Hrow'. rewrite Ht in Hk. rewrite Hr in Hrow'.
    apply loop_rows_lookup in Hrow'. destruct Hrow' as (row & Hrow & ->).
    cbn [Nat.add].
    assert (E : existsb (Nat.eqb k) (_ambient_target_rows w) = true).
    { apply List.existsb_exists. exists k. split; [exact Hk|apply Nat.eqb_refl]. }
    rewrite E, (Hrows k row Hk Hrow).
    assert (E2 : (l =? l + limited_step l d) = false)
      by (unfold limited_step; lia).
    rewrite E2. cbn [andb negb set_value slider].
    apply limited_step_range; assumption.
Qed.

Lemma ambient_dispatch_deadband (w : window) (l d : Z) (now : Q) :
  _last_ambient_applied w = Some l -> Z.abs (d - l) < 2 ->
  ambient_dispatch d now w = w.
Proof.
  intros Hlast Habs. unfold ambient_dispatch.
  rewrite Hlast, next_level_deadband by assumption. reflexivity.
Qed.


(** A tick of the limiter moves toward the desired level and never
    past it. *)
Lemma limiter_tick_between (desired last : Z) :
  0 <= last <= 100 -> 0 <= desired <= 100 ->
  (last <= desired -> last <= limiter_tick desired last <= desired)
  /\ (desired <= last -> desired <= limiter_tick desired last <= last).
Proof.
  intros Hl Hd. unfold limiter_tick, next_level, clamp_brightness,
    _AMBIENT_APPLY_DEADBAND, _AMBIENT_MAX_STEP.
  destruct (Z.ltb_spec (Z.abs (desired - last)) 2); cbn [int_round]; lia.
Qed.


(** Past its guards the tick is the smoothing followed by the dispatch
    of the desired level. *)
Lemma _handle_ambient_timer_tick_dispatch (lux : Q) (now : Q) (w : window) :
  ambient_auto_enabled (config w) = true -> monitor_rows w <> [] ->
  _handle_ambient_timer_tick (Some lux) now w
  = ambient_dispatch
      (clamp_brightness
         (PyInt (round_half_even
                   (smooth (_map_lux_to_brightness (Q2R lux))
                           (_ambient_smoothed_target w)))))
      now
      (with_smoothed
         (Some (smooth (_map_lux_to_brightness (Q2R lux))
                       (_ambient_smoothed_target w))) w).
Proof.
  intros He Hr. unfold _handle_ambient_timer_tick. rewrite He. cbn [negb].
  destruct (monitor_rows w); [destruct Hr|]; reflexivity.
Qed.


Lemma ambient_window_in_sync : in_sync ambient_window 50.
Proof.
  split; [discriminate|]. split; [reflexivity|].
  intros k row Hk Hrow. cbn in Hk.
  destruct Hk as [<-|[<-|[]]]; cbn in Hrow; injection Hrow as <-; reflexivity.
Defined.


End AmbientTickFacts.

(* ===================================================================== *)
(** * The configuration store *)
(* ===================================================================== *)

Module ConfigStoreFacts.
Import Py Models ConfigStore ConfigSpec PyFacts.

Lemma dict_set_fresh {V} (k : string) (v : V) (d : list (string * V)) :
  ~ In k (map fst d) -> dict_set k v d = d ++ [(k, v)].
Proof.
  induction d as [|[k' v'] d IH]; intros Hk; [reflexivity|].
  cbn [dict_set]. destruct (String.eqb_spec k k') as [->|Hne].
  - destruct Hk. left. reflexivity.
  - cbn [app]. rewrite IH; [reflexivity|]. intros H. apply Hk. right. exact H.
Qed.

Lemma dict_of_items_fold {V} (items acc : list (string * V)) :
  List.NoDup (map fst (acc ++ items)) ->
  fold_left (fun d kv => dict_set (fst kv) (snd kv) d) items acc = acc ++ items.
Proof.
  revert acc. induction items as [|[k v] items IH]; intros acc Hn.
  - rewrite List.app_nil_r. reflexivity.
  - cbn [fold_left fst snd]. rewrite dict_set_fresh.
    + rewrite IH; rewrite <- List.app_assoc; [reflexivity|exact Hn].
    + rewrite List.map_app in Hn. cbn [map fst] in Hn.
      apply List.NoDup_remove_2 in Hn.
      intros H. apply Hn. apply List.in_or_app. left. exact H.
Qed.

(** A comprehension over distinct keys keeps the items as they come. *)
Lemma dict_of_items_nodup {V} (items : list (string * V)) :
  List.NoDup (map fst items) -> dict_of_items items = items.
Proof. intros H. unfold dict_of_items. apply (dict_of_items_fold items []), H. Qed.

Lemma dict_set_map {V W} (f : V -> W) (k : string) (v : V)
    (d : list (string * V)) :
  dict_set k (f v) (map (fun kv : string * V => (fst kv, f (snd kv))) d)
  = map (fun kv : string * V => (fst kv, f (snd kv))) (dict_set k v d).
Proof.
  induction d as [|[k' v'] d IH]; [reflexivity|].
  cbn [map dict_set fst snd]. destruct (String.eqb k k'); [reflexivity|].
  cbn [map fst snd]. rewrite IH. reflexivity.
Qed.

(** A comprehension commutes with a change of the values. *)
Lemma dict_of_items_map {V W} (f : V -> W) (items : list (string * V)) :
  dict_of_items (map (fun kv : string * V => (fst kv, f (snd kv))) items)
  = map (fun kv : string * V => (fst kv, f (snd kv))) (dict_of_items items).
Proof.
  unfold dict_of_items.
  change (@nil (string * W))
    with (map (fun kv : string * V => (fst kv, f (snd kv))) []) at 1.
  generalize (@nil (string * V)).
  induction items as [|[k v] items IH]; intros acc; [reflexivity|].
  cbn [map fold_left fst snd]. rewrite dict_set_map. apply IH.
Qed.

Lemma clamp_items_levels (levels : list (string * Z)) :
  clamp_items
    (map (fun kv : string * Z => (fst kv, JInt (clamp_brightness (snd kv))))
         levels)
  = ret (map (fun kv : string * Z => (fst kv, clamp_brightness (snd kv))) levels).
Proof.
  induction levels as [|[k v] levels IH]; [reflexivity|].
  cbn [map clamp_items fst snd]. rewrite IH.
  unfold clamp_json. cbn [py_number bind ret].
  rewrite clamp_brightness_idempotent. reflexivity.
Qed.

(** Every clock time of the day is left as it is by
    [_normalize_time_text]. *)
Lemma clock_texts_checked :
  forallb
    (fun hour =>
       forallb
         (fun minute =>
            match _normalize_time_text (Some (JStr (clock_text hour minute))) with
            | Some s => String.eqb s (clock_text hour minute)
            | None => false
            end)
         (map Z.of_nat (seq 0 60)))
    (map Z.of_nat (seq 0 24)) = true.
Proof. vm_compute. reflexivity. Qed.

Lemma clock_text_normal (hour minute : Z) :
  0 <= hour <= 23 -> 0 <= minute <= 59 ->
  _normalize_time_text (Some (JStr (clock_text hour minute)))
  = Some (clock_text hour minute).
Proof.
  intros Hh Hm. pose proof clock_texts_checked as H.
  rewrite List.forallb_forall in H.
  specialize (H hour). rewrite List.forallb_forall in H.
  assert (Hin : forall n bound, 0 <= n < Z.of_nat bound ->
                In n (map Z.of_nat (seq 0 bound))).
  { intros n bound Hn. apply List.in_map_iff. exists (Z.to_nat n).
    split; [lia|]. apply List.in_seq. lia. }
  specialize (H (Hin hour 24%nat ltac:(lia)) minute (Hin minute 60%nat ltac:(lia))).
  destruct (_normalize_time_text _) as [s|]; [|discriminate].
  apply String.eqb_eq in H. rewrite H. reflexivity.
Qed.

Lemma parse_rule_payload (rule : ScheduleRule) :
  rule_in_range rule ->
  (anchor rule = AnchorTime -> offset_minutes rule = 0) ->
  parse_rule (rule_payload rule) = ret (Some (reread rule)).
Proof.
  intros (Ho & Hb & Ht) Hz. destruct rule as [a o b t st].
  cbn [anchor offset_minutes brightness target specific_time] in *.
  unfold parse_rule, rule_payload, reread.
  cbn [anchor offset_minutes brightness target specific_time].
  assert (Et : target_of_json (Some (JStr (target_text t))) = t)
    by (destruct t; vm_compute; reflexivity).
  assert (Eo : Z.max (-1440) (Z.min 1440 o) = o) by lia.
  assert (Eb : clamp_json (JInt (clamp_brightness b))
               = ret (clamp_brightness b)).
  { unfold clamp_json. cbn [py_number bind ret].
    rewrite clamp_brightness_idempotent. reflexivity. }
  destruct a.
  - subst st.
    change (dict_get "anchor" _) with (Some (JStr "sunrise")).
    change (anchor_of_json (Some (JStr "sunrise"))) with (Some AnchorSunrise).
    cbv beta iota.
    change (dict_get "offset_minutes" _) with (Some (JInt o)).
    change (dict_get "target" _) with (Some (JStr (target_text t))).
    change (get_default "brightness" _ _) with (JInt (clamp_brightness b)).
    rewrite Et, Eb. cbn [offset_of_json py_int ret bind]. rewrite Eo.
    reflexivity.
  - subst st.
    change (dict_get "anchor" _) with (Some (JStr "sunset")).
    change (anchor_of_json (Some (JStr "sunset"))) with (Some AnchorSunset).
    cbv beta iota.
    change (dict_get "offset_minutes" _) with (Some (JInt o)).
    change (dict_get "target" _) with (Some (JStr (target_text t))).
    change (get_default "brightness" _ _) with (JInt (clamp_brightness b)).
    rewrite Et, Eb. cbn [offset_of_json py_int ret bind]. rewrite Eo.
    reflexivity.
  - destruct Ht as (hour & minute & Hh & Hm & ->).
    rewrite (Hz eq_refl).
    change (dict_get "anchor" _) with (Some (JStr "time")).
    change (anchor_of_json (Some (JStr "time"))) with (Some AnchorTime).
    cbv beta iota.
    change (dict_get "specific_time" _)
      with (Some (JStr (clock_text hour minute))).
    change (dict_get "target" _) with (Some (JStr (target_text t))).
    change (get_default "brightness" _ _) with (JInt (clamp_brightness b)).
    rewrite clock_text_normal by assumption.
    rewrite Et, Eb. reflexivity.
Qed.

Lemma parse_rule_list_payload (rs : list ScheduleRule) :
  List.Forall rule_in_range rs ->
  List.Forall (fun rule => anchor rule = AnchorTime -> offset_minutes rule = 0) rs ->
  parse_rule_list (map rule_payload rs) = ret (map reread rs).
Proof.
  induction rs as [|rule rs IH]; intros Hr Hz; [reflexivity|].
  inversion Hr as [|? ? Hr1 Hr2]; inversion Hz as [|? ? Hz1 Hz2]; subst.
  cbn [map parse_rule_list].
  rewrite (parse_rule_payload rule Hr1 Hz1), (IH Hr2 Hz2). reflexivity.
Qed.

Lemma rule_payload_reread (rule : ScheduleRule) :
  rule_payload (reread rule) = rule_payload rule.
Proof.
  unfold rule_payload, reread.
  cbn [anchor offset_minutes brightness target specific_time].
  rewrite clamp_brightness_idempotent. reflexivity.
Qed.

Lemma map_fst_levels {V} (f : Z -> V) (levels : list (string * Z)) :
  map fst (map (fun kv : string * Z => (fst kv, f (snd kv))) levels)
  = map fst levels.
Proof. rewrite List.map_map. apply List.map_ext. reflexivity. Qed.

Lemma _parse_payload (cfg : AppConfig) :
  storable cfg -> _parse (payload cfg) = ret (reloaded cfg).
Proof.
  intros ((Hg & Hn & Hl & Hr) & Hne & Hz).
  unfold _parse, payload.
  change (get_default "version" _ _) with (JInt (version cfg)).
  change (get_default "last_global_brightness" _ _)
    with (JInt (clamp_brightness (last_global_brightness cfg))).
  change (get_default "monitor_levels" _ _)
    with (JObj (dict_of_items
                  (map (fun kv : string * Z =>
                          (fst kv, JInt (clamp_brightness (snd kv))))
                       (monitor_levels cfg)))).
  change (get_default "link_mode" _ _) with (JBool (link_mode cfg)).
  change (get_default "ambient_auto_enabled" _ _)
    with (JBool (ambient_auto_enabled cfg)).
  change (get_default "startup_enabled" _ _)
    with (JBool (startup_enabled cfg)).
  change (get_default "schedule" _ _)
    with (JObj [ ("enabled", JBool (enabled (schedule cfg)));
                 ("gradual", JBool (gradual (schedule cfg)));
                 ("auto_location", JBool (auto_location (schedule cfg)));
                 ("latitude", json_of_float (latitude (schedule cfg)));
                 ("longitude", json_of_float (longitude (schedule cfg)));
                 ("rules",
                    JList (map rule_payload (rules (schedule cfg)))) ]%string).
  cbn [py_int bind ret]. unfold clamp_json at 1. cbn [py_number bind ret].
  rewrite clamp_brightness_idempotent.
  rewrite dict_of_items_nodup
    by (rewrite (map_fst_levels (fun v => JInt (clamp_brightness v))); exact Hn).
  rewrite clamp_items_levels. cbn [bind ret].
  rewrite dict_of_items_nodup
    by (rewrite (map_fst_levels (fun v => clamp_brightness v)); exact Hn).
  unfold parse_schedule.
  change (dict_get "rules" _)
    with (Some (JList (map rule_payload (rules (schedule cfg))))).
  change (dict_get "latitude" _)
    with (Some (json_of_float (latitude (schedule cfg)))).
  change (dict_get "longitude" _)
    with (Some (json_of_float (longitude (schedule cfg)))).
  change (get_default "enabled" _ _) with (JBool (enabled (schedule cfg))).
  change (get_default "gradual" _ _) with (JBool (gradual (schedule cfg))).
  change (get_default "auto_location" _ _)
    with (JBool (auto_location (schedule cfg))).
  unfold _parse_rules. rewrite (parse_rule_list_payload _ Hr Hz).
  cbn [bind ret py_bool].
  assert (Ef : forall o, _optional_float (Some (json_of_float o)) = o)
    by (intros [q|]; reflexivity).
  rewrite !Ef. unfold reloaded.
  destruct (rules (schedule cfg)) as [|r rs]; [destruct Hne; reflexivity|].
  reflexivity.
Qed.

Lemma payload_reloaded (cfg : AppConfig) :
  List.NoDup (map fst (monitor_levels cfg)) ->
  payload (reloaded cfg) = payload cfg.
Proof.
  intros Hn. unfold payload, reloaded.
  cbn [version link_mode ambient_auto_enabled last_global_brightness
       monitor_levels startup_enabled schedule enabled gradual auto_location
       latitude longitude rules].
  rewrite clamp_brightness_idempotent.
  rewrite List.map_map. cbn [fst snd].
  rewrite (List.map_ext
             (fun x : string * Z =>
                (fst x, JInt (clamp_brightness (PyInt (clamp_brightness (snd x))))))
             (fun kv : string * Z => (fst kv, JInt (clamp_brightness (snd kv)))))
    by (intros [k v]; cbn [fst snd]; rewrite clamp_brightness_idempotent;
        reflexivity).
  rewrite List.map_map.
  rewrite (List.map_ext (fun x => rule_payload (reread x)) rule_payload)
    by apply rule_payload_reread.
  reflexivity.
Qed.

(** C7, amended.  For a configuration whose fields are within their
    declared ranges, that has at least one rule and whose clock-time
    rules carry offset 0, saving, loading and saving again writes the
    file the first save wrote. *)
Theorem save_load_save (cfg : AppConfig) :
  storable cfg -> resave cfg = ret (save cfg).
Proof.
  intros Hs. unfold resave, load, save. cbn [fst].
  rewrite (_parse_payload cfg Hs). cbn [bind ret].
  rewrite payload_reloaded; [reflexivity|]. apply Hs.
Qed.

Lemma sample_config_storable : storable sample_config.
Proof.
  unfold storable, in_declared_ranges, sample_config; cbn.
  repeat split; try lia; try discriminate.
  - repeat constructor; cbn; intuition discriminate.
  - repeat constructor; cbn; lia.
  - repeat constructor; cbn; try lia.
    exists 22, 15. repeat split; try lia.
  - repeat constructor; cbn; try discriminate; reflexivity.
Defined.

Lemma save_load_save_witness :
  storable sample_config /\ resave sample_config = ret (save sample_config).
Proof.
  split; [exact sample_config_storable|].
  exact (save_load_save sample_config sample_config_storable).
Defined.

(** C7 as worded fails: a configuration without rules comes back with
    the six default rules, and a clock-time rule with an offset comes
    back with offset 0; both have all their fields within the declared
    ranges. *)
Lemma save_load_save_changes :
  (in_declared_ranges config_without_rules
   /\ resave config_without_rules <> ret (save config_without_rules))
  /\ (in_declared_ranges config_time_offset
      /\ resave config_time_offset <> ret (save config_time_offset)).
Proof.
  split; split.
  - unfold in_declared_ranges; cbn. repeat split; try lia; constructor.
  - vm_compute. discriminate.
  - unfold in_declared_ranges; cbn. repeat split; try lia; repeat constructor;
      cbn; try lia.
    exists 7, 30. repeat split; lia.
  - vm_compute. discriminate.
Qed.

(** C8.  The object [save] writes has the fields [version], [link_mode],
    [ambient_auto_enabled], [last_global_brightness], [monitor_levels],
    [startup_enabled] and [schedule], the schedule and its rules have
    the fields of the layout, and there is no field [theme]: a theme
    chosen by the user is read back as the default one. *)
Theorem payload_has_no_theme (cfg : AppConfig) :
  map fst (payload cfg)
  = [ "version"; "link_mode"; "ambient_auto_enabled";
      "last_global_brightness"; "monitor_levels"; "startup_enabled";
      "schedule" ]%string
  /\ dict_get "theme" (payload cfg) = None
  /\ (exists fields,
        dict_get "schedule" (payload cfg) = Some (JObj fields)
        /\ map fst fields
           = [ "enabled"; "gradual"; "auto_location"; "latitude";
               "longitude"; "rules" ]%string
        /\ dict_get "rules" fields
           = Some (JList (map rule_payload (rules (schedule cfg)))))
  /\ (forall rule, exists a o b t st,
        rule_payload rule
        = JObj [ ("anchor", JStr a); ("offset_minutes", JInt o);
                 ("brightness", JInt b); ("target", JStr t);
                 ("specific_time", st) ]%string)
  /\ (exists levels : list (string * Z),
        dict_get "monitor_levels" (payload cfg)
        = Some (JObj (map (fun kv : string * Z => (fst kv, JInt (snd kv)))
                          levels)))
  /\ (forall loaded,
        fst (load (save cfg)) = ret loaded -> theme loaded = "dark"%string).
Proof.
  split; [reflexivity|]. split; [reflexivity|]. split; [|split; [|split]].
  - eexists. split; [reflexivity|]. split; reflexivity.
  - intros rule. unfold rule_payload. eauto 10.
  - change (dict_get "monitor_levels" (payload cfg))
      with (Some (JObj (dict_of_items
                          (map (fun kv : string * Z =>
                                  (fst kv, JInt (clamp_brightness (snd kv))))
                               (monitor_levels cfg))))).
    exists (dict_of_items
              (map (fun kv : string * Z => (fst kv, clamp_brightness (snd kv)))
                   (monitor_levels cfg))).
    rewrite <- (dict_of_items_map JInt), List.map_map. reflexivity.
  - intros loaded. unfold load, save. cbn [fst]. unfold _parse.
    destruct (py_int _); [discriminate|]. cbn [bind].
    destruct (clamp_json _); [discriminate|]. cbn [bind].
    destruct (match get_default "monitor_levels" _ _ with JObj _ => _ | _ => _ end);
      [discriminate|]. cbn [bind].
    destruct (match get_default "schedule" _ _ with JObj _ => _ | _ => _ end);
      [discriminate|]. cbn [bind ret].
    intros [= <-]. reflexivity.
Qed.

End ConfigStoreFacts.

(* ===================================================================== *)
(** * Dispatch to the displays *)
(* ===================================================================== *)

Module UiFacts.
Import Py Models Ui DispatchSpec PyFacts.

Lemma map_loop_spec (values : gmap string Z) (rows : list MonitorSliderRow)
    (levels : list (string * Z)) (log : list effect) :
  exists levels',
    map_loop values rows levels log
    = (map (mapped_row values) rows, levels',
       log ++ omap (mapped_call values) rows,
       omap (mapped_level values) rows).
Proof.
  revert levels log. induction rows as [|row rows IH]; intros levels log.
  - exists levels. cbn. rewrite List.app_nil_r. reflexivity.
  - cbn [map_loop].
    change (omap (mapped_call values) (row :: rows))
      with (match mapped_call values row with
            | Some e => e :: omap (mapped_call values) rows
            | None => omap (mapped_call values) rows
            end).
    change (omap (mapped_level values) (row :: rows))
      with (match mapped_level values row with
            | Some l => l :: omap (mapped_level values) rows
            | None => omap (mapped_level values) rows
            end).
    cbn [map]. unfold mapped_row, mapped_call, mapped_level.
    destruct (values !! key (monitor row)) as [v|].
    + unfold set_row.
      destruct (IH (ConfigStore.dict_set (key (monitor row))
                      (clamp_brightness (PyInt v)) levels)
                   (log ++ [SetBrightness (key (monitor row))
                              (clamp_brightness (PyInt v))]))
        as (lv & ->).
      exists lv. rewrite <- List.app_assoc. reflexivity.
    + destruct (IH levels log) as (lv & ->). exists lv. reflexivity.
Qed.

(** What [apply_brightness_map] leaves on the global slider, on the
    rows and in the saved global level. *)
Lemma apply_brightness_map_global (values : gmap string Z) (persist : bool)
    (w : window) :
  monitor_rows (apply_brightness_map values persist w)
  = map (mapped_row values) (monitor_rows w)
  /\ link_mode (config (apply_brightness_map values persist w))
     = link_mode (config w)
  /\ match omap (mapped_level values) (monitor_rows w) with
     | [] =>
         global_slider (apply_brightness_map values persist w)
         = global_slider w
     | applied =>
         global_slider (apply_brightness_map values persist w)
         = clamp_brightness (PyInt (rounded_average applied))
         /\ last_global_brightness (config (apply_brightness_map values persist w))
            = clamp_brightness (PyInt (rounded_average applied))
     end.
Proof.
  unfold apply_brightness_map.
  destruct (map_loop_spec values (monitor_rows w) (monitor_levels (config w))
              (effects w)) as (lv & ->).
  destruct (omap (mapped_level values) (monitor_rows w)) as [|a applied].
  - cbn. auto.
  - destruct persist; cbn; auto.
Qed.



(** The average of the levels a mapping applies to all the rows is the
    average of the levels the rows then show. *)
Lemma mapped_all (values : gmap string Z) (rows : list MonitorSliderRow) :
  List.Forall (fun row => is_Some (values !! key (monitor row))) rows ->
  omap (mapped_level values) rows
  = map slider (map (mapped_row values) rows).
Proof.
  induction 1 as [|row rows [v Hv] _ IH]; [reflexivity|].
  change (omap (mapped_level values) (row :: rows))
    with (match mapped_level values row with
          | Some l => l :: omap (mapped_level values) rows
          | None => omap (mapped_level values) rows
          end).
  assert (E : mapped_level values row = Some (clamp_brightness (PyInt v)))
    by (unfold mapped_level; rewrite Hv; reflexivity).
  cbn [map]. unfold mapped_row at 1. rewrite E, IH. cbn [set_value slider].
  rewrite clamp_brightness_idempotent. reflexivity.
Qed.

(** C9, as the code has it.  [apply_brightness_map] sets the global
    value to the rounded average of the levels it applied: the displays
    absent from the mapping keep their level and do not count.  With
    displays at 20 and 80 and a mapping of the first one to 40, the
    global value becomes 40 while the levels shown are 40 and 80, whose
    rounded average, the value [_sync_global_slider_to_average] shows,
    is 60. *)
Theorem apply_brightness_map_averages_applied :
  (forall (values : gmap string Z) (persist : bool) (w : window),
      omap (mapped_level values) (monitor_rows w) <> [] ->
      monitor_rows (apply_brightness_map values persist w)
      = map (mapped_row values) (monitor_rows w)
      /\ global_slider (apply_brightness_map values persist w)
         = clamp_brightness
             (PyInt (rounded_average
                       (omap (mapped_level values) (monitor_rows w)))))
  /\ (forall (values : gmap string Z) (persist : bool) (w : window),
        monitor_rows w <> [] ->
        List.Forall (fun row => is_Some (values !! key (monitor row)))
                    (monitor_rows w) ->
        global_slider (apply_brightness_map values persist w)
        = clamp_brightness
            (PyInt (rounded_average
                      (map slider
                           (monitor_rows
                              (apply_brightness_map values persist w))))))
  /\ map slider (monitor_rows (apply_brightness_map only_first true two_displays))
     = [40; 80]
  /\ global_slider (apply_brightness_map only_first true two_displays) = 40
  /\ rounded_average
       (map slider
            (monitor_rows (apply_brightness_map only_first true two_displays)))
     = 60
  /\ global_slider
       (_sync_global_slider_to_average
          (apply_brightness_map only_first true two_displays)) = 60.
Proof.
  split; [|split; [|split; [|split; [|split]]]].
  - intros values persist w Hne.
    destruct (apply_brightness_map_global values persist w) as (Hr & _ & Hg).
    split; [exact Hr|].
    destruct (omap (mapped_level values) (monitor_rows w)) as [|a applied];
      [destruct Hne; reflexivity|apply Hg].
  - intros values persist w Hne Hall.
    destruct (apply_brightness_map_global values persist w) as (Hr & _ & Hg).
    rewrite Hr, <- (mapped_all values _ Hall).
    destruct (omap (mapped_level values) (monitor_rows w)) as [|a applied] eqn:E;
      [|apply Hg].
    rewrite (mapped_all values _ Hall) in E.
    destruct (monitor_rows w); [destruct Hne; reflexivity|discriminate].
  - vm_compute. reflexivity.
  - vm_compute. reflexivity.
  - vm_compute. reflexivity.
  - vm_compute. reflexivity.
Qed.

End UiFacts.

(* ===================================================================== *)
(** * The schedule tick of the controller *)
(* ===================================================================== *)

Module AppFacts.
Import Py Models Ui App ScheduleSpec DispatchSpec AppSpec PyFacts UiFacts.


(** A conflict means two rows with different targets. *)
Lemma conflict_two_targets (targets : gmap string Z) (c : controller) :
  _has_link_mode_conflict targets c = true ->
  exists row1 row2 v1 v2,
    In row1 (monitor_rows (window c)) /\ In row2 (monitor_rows (window c))
    /\ targets !! key (monitor row1) = Some v1
    /\ targets !! key (monitor row2) = Some v2
    /\ v1 <> v2.
Proof.
  unfold _has_link_mode_conflict. intros H.
  apply andb_prop in H. destruct H as [_ H]. apply Nat.ltb_lt in H.
  set (vs := omap (fun row => targets !! key (monitor row))
                  (monitor_rows (window c))) in *.
  set (X := list_to_set vs : gset Z) in *.
  assert (HX : X <> ∅) by (intros E; rewrite E, size_empty in H; lia).
  apply set_choose_L in HX. destruct HX as [x Hx].
  assert (HY : X ∖ {[x]} <> ∅).
  { intros E. assert (Hs : size (X ∖ {[x]}) = (size X - size ({[x]} : gset Z))%nat).
    { apply size_difference. set_solver. }
    rewrite E, size_empty, size_singleton in Hs. lia. }
  apply set_choose_L in HY. destruct HY as [y Hy].
  assert (Hyx : y ∈ X /\ y <> x) by set_solver. destruct Hyx as [Hy' Hne].
  unfold X in Hx, Hy'. rewrite elem_of_list_to_set in Hx, Hy'.
  unfold vs in Hx, Hy'. apply list_elem_of_omap in Hx, Hy'.
  destruct Hx as (r1 & Hr1 & Hv1), Hy' as (r2 & Hr2 & Hv2).
  exists r1, r2, x, y. rewrite <- !list_elem_of_In.
  repeat split; auto.
Qed.


Section Controller.
Variable astral_sun : Z -> Q -> Q -> option (option Z * option Z).




End Controller.



End AppFacts.

(* ===================================================================== *)
(** * Rounding *)
(* ===================================================================== *)

Module RoundingFacts.
Import Py Models PyFacts.

(** [round] keeps a float between the integers that bound it. *)
Lemma round_half_even_between (a b : Z) (q : Q) :
  (inject_Z a <= q)%Q -> (q <= inject_Z b)%Q ->
  a <= round_half_even q <= b.
Proof.
  intros Ha Hb.
  assert (Hfa : a <= Qfloor q).
  { rewrite <- (Qfloor_Z a). apply Qfloor_resp_le, Ha. }
  assert (Hfb : Qfloor q <= b).
  { rewrite <- (Qfloor_Z b). apply Qfloor_resp_le, Hb. }
  unfold round_half_even. rewrite half_compare.
  destruct (Qcompare_spec (q - inject_Z (Qfloor q)) (1 # 2)) as [E|L|G].
  - assert (Hne : Qfloor q <> b).
    { intros Eb. assert (Hq : (q == inject_Z (Qfloor q))%Q).
      { apply Qle_antisym; [rewrite Eb; exact Hb|apply Qfloor_le]. }
      rewrite Hq in E at 1. unfold Qminus in E. rewrite Qplus_opp_r in E.
      discriminate. }
    destruct (Z.even (Qfloor q)); lia.
  - lia.
  - assert (Hne : Qfloor q <> b).
    { intros Eb. assert (Hq : (q == inject_Z (Qfloor q))%Q).
      { apply Qle_antisym; [rewrite Eb; exact Hb|apply Qfloor_le]. }
      rewrite Hq in G at 1. unfold Qminus in G. rewrite Qplus_opp_r in G.
      discriminate. }
    lia.
Qed.

Lemma round_half_even_mono (p q : Q) :
  (p <= q)%Q -> round_half_even p <= round_half_even q.
Proof.
  intros H. rewrite <- !round_half_even_R_Q.
  apply LuxFacts.round_half_even_R_mono, Qle_Rle, H.
Qed.

(** A blend of two integers by a share of [0,1] lies between them. *)
Lemma blend_between (a b : Z) (t : Q) :
  (0 <= t)%Q -> (t <= 1)%Q ->
  Z.min a b <= round_half_even (inject_Z a + inject_Z (b - a) * t) <= Z.max a b.
Proof.
  intros H0 H1.
  assert (Hx : (inject_Z (b - a) == inject_Z b - inject_Z a)%Q).
  { unfold Z.sub. rewrite inject_Z_plus, inject_Z_opp. reflexivity. }
  destruct (Z.le_ge_cases a b) as [Hab|Hab].
  - rewrite Z.min_l, Z.max_r by lia.
    assert (Hq : (inject_Z a <= inject_Z b)%Q) by (rewrite <- Zle_Qle; lia).
    apply round_half_even_between; rewrite Hx; Lqa.nra.
  - rewrite Z.min_r, Z.max_l by lia.
    assert (Hq : (inject_Z b <= inject_Z a)%Q) by (rewrite <- Zle_Qle; lia).
    apply round_half_even_between; rewrite Hx; Lqa.nra.
Qed.

End RoundingFacts.

(* ===================================================================== *)
(** * The evaluator: range, days and missing sun events *)
(* ===================================================================== *)

Module EvaluatorFacts.
Import Py Models SunSchedule ScheduleSpec EvaluatorSpec PyFacts
  SunScheduleFacts RoundingFacts.

Lemma spec_window_in (now : datetime) (l : list point) (w : point * point) :
  spec_window now l = Some w -> In (fst w) l /\ In (snd w) l.
Proof.
  destruct l as [|first l]; [discriminate|].
  assert (Hfinal : In (List.last (first :: l) first) (first :: l)).
  { destruct (last_in (first :: l) first) as [->|H]; [left; reflexivity|exact H]. }
  unfold spec_window. revert Hfinal.
  generalize (List.last (first :: l) first). intros final Hfinal.
  intros [= <-]. cbn [fst snd]. unfold spec_previous, spec_following. split.
  - destruct (last_in (List.filter (fun p : point => fst p <=? now) (first :: l)) first)
      as [->|H]; [left; reflexivity|].
    apply List.filter_In in H. apply H.
  - destruct (List.filter (fun p : point => now <? fst p) (first :: l))
      as [|q qs] eqn:E; cbn [hd]; [exact Hfinal|].
    assert (H : In q (List.filter (fun p : point => now <? fst p) (first :: l)))
      by (rewrite E; left; reflexivity).
    apply List.filter_In in H. apply H.
Qed.

Lemma rule_point_from_rule (date : Z) (events : option (datetime * datetime))
    (rule : ScheduleRule) (p : point) :
  rule_point date events rule = Some p ->
  snd p = clamp_brightness (brightness rule).
Proof.
  unfold rule_point. intros H.
  destruct (anchor rule), events as [ev|]; cbn in H;
    try destruct (_parse_time _); try discriminate;
    injection H as <-; reflexivity.
Qed.

Lemma _interpolate_between (now : datetime) (p f : point) :
  level_in_range p -> level_in_range f ->
  Z.min (snd p) (snd f) <= _interpolate now p f <= Z.max (snd p) (snd f).
Proof.
  destruct p as [s sv], f as [e ev]. unfold level_in_range, _interpolate.
  cbn [fst snd]. intros Hp Hf.
  destruct (e <=? s).
  - rewrite clamp_brightness_fixed by exact Hf. lia.
  - unfold clamp_brightness. cbn [int_round].
    match goal with
    | |- context [Qmax 0 (Qmin 1 ?x)] => set (share := Qmax 0 (Qmin 1 x))
    end.
    assert (H0 : (0 <= share)%Q) by apply Q.le_max_l.
    assert (H1 : (share <= 1)%Q).
    { apply Q.max_lub; [discriminate|apply Q.le_min_l]. }
    pose proof (blend_between sv ev share H0 H1). lia.
Qed.

Section Engine.
Variable astral_sun : Z -> Q -> Q -> option (option datetime * option datetime).

Lemma collect_points_from_rules (sched : ScheduleSettings)
    (active : list ScheduleRule) (now : datetime) (p : point) :
  In p (collect_points astral_sun sched active now) ->
  exists rule, In rule active /\ snd p = clamp_brightness (brightness rule).
Proof.
  intros Hp. unfold collect_points in Hp. apply List.in_flat_map in Hp.
  destruct Hp as (d & _ & Hp). unfold day_points in Hp.
  destruct (uses_sun_events active);
    [destruct (latitude sched), (longitude sched); try solve [destruct Hp]|];
    apply list_elem_of_In, list_elem_of_omap in Hp;
    destruct Hp as (rule & Hin & Hp); exists rule;
    (split; [apply list_elem_of_In, Hin|eapply rule_point_from_rule, Hp]).
Qed.

(** X1.  The evaluator never leaves the range of the brightness values of
    the rules it was given. *)
Theorem target_brightness_within_rules (sched : ScheduleSettings)
    (rules : option (list ScheduleRule)) (now : datetime) (lo hi v : Z) :
  (forall rule, In rule (active_rules sched rules) ->
                lo <= clamp_brightness (brightness rule) <= hi) ->
  target_brightness astral_sun sched rules now = Some v ->
  lo <= v <= hi /\ 0 <= v <= 100.
Proof.
  intros Hrules Hv. unfold target_brightness in Hv.
  destruct (enabled sched); [|discriminate]. cbn [negb] in Hv.
  set (active := active_rules sched rules) in *.
  destruct active as [|r rs] eqn:Ea; [discriminate|]. rewrite <- Ea in *.
  destruct (uses_sun_events active && location_unset sched); [discriminate|].
  rewrite evaluate_points_window, code_window_spec in Hv
    by apply sort_points_sorted.
  destruct (spec_window now _) as [w|] eqn:Ew; [|discriminate].
  cbn [option_map] in Hv. injection Hv as Hv.
  apply spec_window_in in Ew. destruct Ew as [Hp Hf].
  assert (Hmem : forall q,
             In q (sort_points (collect_points astral_sun sched active now)) ->
             (lo <= snd q <= hi) /\ level_in_range q).
  { intros q Hq.
    apply (Permutation_in _ (Permutation_sym (sort_points_perm _))) in Hq.
    apply collect_points_from_rules in Hq. destruct Hq as (rule & Hin & Hs).
    unfold level_in_range. rewrite Hs.
    split; [apply Hrules, Hin|apply clamp_brightness_range]. }
  destruct (Hmem _ Hp) as [Hp1 Hp2], (Hmem _ Hf) as [Hf1 Hf2].
  destruct (negb (gradual sched)).
  - subst v. unfold level_in_range in Hp2. lia.
  - pose proof (_interpolate_between now (fst w) (snd w) Hp2 Hf2) as Hb.
    rewrite Hv in Hb. unfold level_in_range in *. lia.
Qed.

End Engine.

Lemma target_brightness_within_rules_witness :
  (forall rule, In rule (active_rules (two_times true) None) ->
                30 <= clamp_brightness (brightness rule) <= 70)
  /\ target_brightness no_sun (two_times true) None noon = Some 50
  /\ (30 <= 50 <= 70 /\ 0 <= 50 <= 100).
Proof.
  assert (H1 : forall rule, In rule (active_rules (two_times true) None) ->
                            30 <= clamp_brightness (brightness rule) <= 70).
  { intros rule [<-|[<-|[]]]; unfold clamp_brightness; cbn; lia. }
  assert (H2 : target_brightness no_sun (two_times true) None noon = Some 50)
    by (vm_compute; reflexivity).
  refine (conj H1 (conj H2 _)).
  exact (target_brightness_within_rules no_sun (two_times true) None noon
           30 70 50 H1 H2).
Defined.

End EvaluatorFacts.

Module DailyFacts.
Import Py Models SunSchedule ScheduleSpec EvaluatorSpec PyFacts
  SunScheduleFacts RoundingFacts EvaluatorFacts.

Lemma shift_leb (d : Z) (p q : point) :
  (fst (shift d p) <=? fst (shift d q)) = (fst p <=? fst q).
Proof. unfold shift. cbn [fst]. destruct (Z.leb_spec (fst p) (fst q)); lia. Qed.

Lemma shift_leb_clock (d now : Z) (q : point) :
  (fst (shift d q) <=? now + d) = (fst q <=? now).
Proof. unfold shift. cbn [fst]. destruct (Z.leb_spec (fst q) now); lia. Qed.

Lemma insert_point_shift (d : Z) (p : point) (l : list point) :
  insert_point (shift d p) (map (shift d) l) = map (shift d) (insert_point p l).
Proof.
  induction l as [|q l IH]; [reflexivity|].
  cbn [map insert_point]. rewrite shift_leb.
  destruct (fst p <=? fst q); [reflexivity|].
  cbn [map]. rewrite IH. reflexivity.
Qed.

Lemma sort_points_shift (d : Z) (l : list point) :
  sort_points (map (shift d) l) = map (shift d) (sort_points l).
Proof.
  induction l as [|p l IH]; [reflexivity|].
  cbn [map sort_points fold_right]. fold (sort_points (map (shift d) l)).
  fold (sort_points l). rewrite IH. apply insert_point_shift.
Qed.

Lemma scan_points_shift (d now : Z) (l : list point) (p f : point) :
  scan_points (now + d) (map (shift d) l) (shift d p) (shift d f)
  = (shift d (fst (scan_points now l p f)), shift d (snd (scan_points now l p f))).
Proof.
  revert p. induction l as [|q l IH]; intros p; [reflexivity|].
  cbn [map scan_points]. rewrite shift_leb_clock.
  destruct (fst q <=? now); [apply IH|reflexivity].
Qed.

Lemma _interpolate_shift (d now : Z) (p f : point) :
  _interpolate (now + d) (shift d p) (shift d f) = _interpolate now p f.
Proof.
  destruct p as [s sv], f as [e ev]. unfold _interpolate, shift. cbn [fst snd].
  assert (E : (e + d <=? s + d) = (e <=? s)).
  { destruct (Z.leb_spec e s); lia. }
  rewrite E.
  replace (now + d - (s + d)) with (now - s) by lia.
  replace (e + d - (s + d)) with (e - s) by lia.
  reflexivity.
Qed.

Lemma last_map_shift (d : Z) (l : list point) (p : point) :
  List.last (map (shift d) l) (shift d p) = shift d (List.last l p).
Proof.
  revert p. induction l as [|q l IH]; intros p; [reflexivity|].
  cbn [map]. rewrite !last_cons. apply IH.
Qed.

(** Moving the points and the clock by the same time changes nothing. *)
Lemma evaluate_points_shift (g : bool) (d now : Z) (l : list point) :
  evaluate_points g (now + d) (map (shift d) l) = evaluate_points g now l.
Proof.
  unfold evaluate_points. destruct l as [|p l]; [reflexivity|].
  change (map (shift d) (p :: l)) with (shift d p :: map (shift d) l) at 1.
  cbv iota.
  change (shift d p :: map (shift d) l) with (map (shift d) (p :: l)).
  rewrite sort_points_shift.
  destruct (sort_points (p :: l)) as [|first rest] eqn:E; [reflexivity|].
  change (map (shift d) (first :: rest))
    with (shift d first :: map (shift d) rest) at 1.
  cbv iota.
  change (shift d first :: map (shift d) rest) with (map (shift d) (first :: rest)).
  rewrite last_map_shift, scan_points_shift.
  destruct (scan_points now (first :: rest) first (List.last (first :: rest) first))
    as [previous following].
  cbn [fst snd]. rewrite _interpolate_shift.
  destruct g; reflexivity.
Qed.

Lemma date_of_days (now k j : Z) :
  date_of (now + k * DAY + timedelta_days j)
  = date_of (now + timedelta_days j) + k.
Proof.
  unfold date_of, timedelta_days, DAY.
  replace (now + k * 86400000000 + j * 86400000000)
    with (now + j * 86400000000 + k * 86400000000) by lia.
  apply Z.div_add. lia.
Qed.

Lemma clock_point_next_days (date k : Z) (rule : ScheduleRule) :
  rule_point (date + k) None rule
  = option_map (shift (k * DAY)) (rule_point date None rule).
Proof.
  unfold rule_point. destruct (anchor rule); try reflexivity.
  destruct (_parse_time (specific_time rule)) as [t|]; [|reflexivity].
  cbn [option_map]. unfold shift, combine. cbn [fst snd]. do 2 f_equal. lia.
Qed.

Lemma omap_ext_map {A B} (f g : A -> option B) (h : B -> B) (l : list A) :
  (forall a, f a = option_map h (g a)) -> omap f l = map h (omap g l).
Proof.
  intros H. induction l as [|a l IH]; [reflexivity|].
  change (omap f (a :: l))
    with (match f a with Some b => b :: omap f l | None => omap f l end).
  change (omap g (a :: l))
    with (match g a with Some b => b :: omap g l | None => omap g l end).
  rewrite H, IH. destruct (g a); reflexivity.
Qed.

Section Engine.
Variable astral_sun : Z -> Q -> Q -> option (option datetime * option datetime).

Lemma collect_points_next_days (sched : ScheduleSettings)
    (active : list ScheduleRule) (now k : Z) :
  uses_sun_events active = false ->
  collect_points astral_sun sched active (now + k * DAY)
  = map (shift (k * DAY)) (collect_points astral_sun sched active now).
Proof.
  intros Hu. unfold collect_points. cbn [flat_map].
  rewrite !List.app_nil_r, !List.map_app. unfold day_points. rewrite Hu.
  rewrite !date_of_days.
  rewrite !(omap_ext_map _ _ (shift (k * DAY)) active
              (fun rule => clock_point_next_days _ k rule)).
  reflexivity.
Qed.

(** X2.  A schedule of clock-time rules repeats every day. *)
Theorem clock_schedule_repeats_daily (sched : ScheduleSettings)
    (rules : option (list ScheduleRule)) (now k : Z) :
  uses_sun_events (active_rules sched rules) = false ->
  target_brightness astral_sun sched rules (now + k * DAY)
  = target_brightness astral_sun sched rules now.
Proof.
  intros Hu. unfold target_brightness.
  destruct (enabled sched); [|reflexivity]. cbn [negb].
  destruct (active_rules sched rules) as [|r rs] eqn:Ea; [reflexivity|].
  rewrite Hu. cbn [andb].
  rewrite collect_points_next_days by exact Hu.
  apply evaluate_points_shift.
Qed.

Lemma clock_rules_only (d : Z) (rules : list ScheduleRule) :
  omap (rule_point d None) (List.filter is_clock_rule rules)
  = omap (rule_point d None) rules.
Proof.
  induction rules as [|rule rules IH]; [reflexivity|].
  cbn [List.filter]. unfold is_clock_rule at 1.
  change (omap (rule_point d None) (rule :: rules))
    with (match rule_point d None rule with
          | Some b => b :: omap (rule_point d None) rules
          | None => omap (rule_point d None) rules
          end).
  destruct (anchor rule) eqn:E.
  - unfold rule_point at 2. rewrite E. exact IH.
  - unfold rule_point at 2. rewrite E. exact IH.
  - change (omap (rule_point d None) (rule :: List.filter is_clock_rule rules))
      with (match rule_point d None rule with
            | Some b => b :: omap (rule_point d None) (List.filter is_clock_rule rules)
            | None => omap (rule_point d None) (List.filter is_clock_rule rules)
            end).
    rewrite IH. reflexivity.
Qed.

Lemma clock_rules_no_sun (rules : list ScheduleRule) :
  uses_sun_events (List.filter is_clock_rule rules) = false.
Proof.
  unfold uses_sun_events. induction rules as [|rule rules IH]; [reflexivity|].
  cbn [List.filter]. unfold is_clock_rule at 1.
  destruct (anchor rule) eqn:E; try exact IH.
  cbn [existsb]. rewrite E, IH. reflexivity.
Qed.

Lemma day_points_without_events (sched : ScheduleSettings)
    (rules : list ScheduleRule) (now j : Z) :
  (forall date lat lon, _get_sun_events astral_sun date lat lon = None) ->
  location_unset sched = false ->
  day_points astral_sun sched rules now j
  = day_points astral_sun sched (List.filter is_clock_rule rules) now j.
Proof.
  intros Hnone Hloc. unfold day_points.
  rewrite clock_rules_no_sun, clock_rules_only.
  destruct (uses_sun_events rules); [|reflexivity].
  unfold location_unset in Hloc.
  destruct (latitude sched), (longitude sched); try discriminate.
  rewrite Hnone. reflexivity.
Qed.

(** X3.  When no sun event can be computed, the rules anchored to sunrise
    and sunset are skipped and the clock-time rules decide alone. *)
Theorem sun_rules_skipped_without_events (sched : ScheduleSettings)
    (rules : list ScheduleRule) (now : Z) :
  (forall date lat lon, _get_sun_events astral_sun date lat lon = None) ->
  location_unset sched = false ->
  target_brightness astral_sun sched (Some rules) now
  = target_brightness astral_sun sched
      (Some (List.filter is_clock_rule rules)) now.
Proof.
  intros Hnone Hloc. unfold target_brightness.
  destruct (enabled sched); [|reflexivity]. cbn [negb active_rules].
  rewrite Hloc, !andb_false_r.
  assert (Hc : collect_points astral_sun sched rules now
               = collect_points astral_sun sched
                   (List.filter is_clock_rule rules) now).
  { unfold collect_points. cbn [flat_map].
    rewrite !(day_points_without_events sched rules now _ Hnone Hloc).
    reflexivity. }
  destruct rules as [|r rs] eqn:Er; [reflexivity|]. rewrite <- Er in *.
  rewrite Hc.
  destruct (List.filter is_clock_rule rules) as [|c cs] eqn:Ef; [|reflexivity].
  unfold collect_points. cbn [flat_map]. unfold day_points.
  cbn. reflexivity.
Qed.

End Engine.

Lemma clock_schedule_repeats_daily_witness :
  uses_sun_events (active_rules (two_times true) None) = false
  /\ target_brightness no_sun (two_times true) None (noon + 3 * DAY)
     = target_brightness no_sun (two_times true) None noon.
Proof.
  assert (H : uses_sun_events (active_rules (two_times true) None) = false)
    by reflexivity.
  refine (conj H _).
  exact (clock_schedule_repeats_daily no_sun (two_times true) None noon 3 H).
Defined.

Lemma sun_rules_skipped_without_events_witness :
  (forall date lat lon, _get_sun_events no_sun date lat lon = None)
  /\ location_unset (at_home (two_times true)) = false
  /\ target_brightness no_sun (at_home (two_times true)) (Some mixed_rules) noon
     = target_brightness no_sun (at_home (two_times true))
         (Some (List.filter is_clock_rule mixed_rules)) noon.
Proof.
  assert (H1 : forall date lat lon, _get_sun_events no_sun date lat lon = None)
    by reflexivity.
  assert (H2 : location_unset (at_home (two_times true)) = false)
    by reflexivity.
  refine (conj H1 (conj H2 _)).
  exact (sun_rules_skipped_without_events no_sun (at_home (two_times true))
           mixed_rules noon H1 H2).
Defined.

End DailyFacts.

(* ===================================================================== *)
(** * The configuration store: what load accepts *)
(* ===================================================================== *)

Module ParseFacts.
Import Py Models ConfigStore ConfigSpec DocumentSpec PyFacts ConfigStoreFacts.

Lemma _normalize_time_text_clock (value : option json) (t : string) :
  _normalize_time_text value = Some t ->
  exists hour minute,
    0 <= hour <= 23 /\ 0 <= minute <= 59 /\ t = clock_text hour minute.
Proof.
  unfold _normalize_time_text. destruct value as [[| | | |s| |]|]; try discriminate.
  destruct (match_time_pattern (strip s)) as [[h m]|]; [|discriminate].
  destruct (int_of_string h) as [hour|]; [|discriminate].
  destruct (int_of_string m) as [minute|]; [|discriminate].
  destruct (hour <? 0) eqn:E1; [discriminate|].
  destruct (23 <? hour) eqn:E2; [discriminate|].
  destruct (minute <? 0) eqn:E3; [discriminate|].
  destruct (59 <? minute) eqn:E4; [discriminate|].
  cbn [orb]. intros [= <-]. exists hour, minute. repeat split; lia.
Qed.

Lemma parse_rule_kept (raw : json) (rule : ScheduleRule) :
  parse_rule raw = inr (Some rule) -> kept_rule rule.
Proof.
  unfold parse_rule. destruct raw as [| | | | | |fields]; try discriminate.
  destruct (anchor_of_json _) as [a|]; [|discriminate].
  set (o := offset_of_json _).
  assert (Ho : -1440 <= Z.max (-1440) (Z.min 1440 o) <= 1440) by lia.
  destruct (clamp_json _) as [e|b] eqn:Eb.
  - destruct a; cbn [bind]; try discriminate.
    destruct (_normalize_time_text _); discriminate.
  - assert (Hb : 0 <= b <= 100).
    { unfold clamp_json in Eb. destruct (py_number _); [discriminate|].
      cbn [bind ret] in Eb. injection Eb as <-. apply clamp_brightness_range. }
    destruct a; cbn [bind ret].
    + intros [= <-]. unfold kept_rule, rule_in_range. cbn. intuition discriminate.
    + intros [= <-]. unfold kept_rule, rule_in_range. cbn. intuition discriminate.
    + destruct (_normalize_time_text _) as [t|] eqn:Et; [|discriminate].
      cbn [bind ret]. intros [= <-].
      apply _normalize_time_text_clock in Et.
      destruct Et as (hour & minute & Hh & Hm & ->).
      unfold kept_rule, rule_in_range. cbn.
      repeat split; try lia. exists hour, minute. repeat split; lia.
Qed.

Lemma parse_rule_list_kept (raws : list json) (rs : list ScheduleRule) :
  parse_rule_list raws = inr rs -> List.Forall kept_rule rs.
Proof.
  revert rs. induction raws as [|raw raws IH]; intros rs.
  - intros [= <-]. constructor.
  - cbn [parse_rule_list].
    destruct (parse_rule raw) as [e|r] eqn:Er; [discriminate|]. cbn [bind].
    destruct (parse_rule_list raws) as [e|parsed]; [discriminate|].
    cbn [bind ret]. intros [= <-].
    specialize (IH parsed eq_refl).
    destruct r as [rule|]; [|exact IH].
    constructor; [eapply parse_rule_kept, Er|exact IH].
Qed.

Lemma default_rules_kept : List.Forall kept_rule default_schedule_rules.
Proof.
  repeat constructor; cbn; try lia; discriminate.
Qed.

Lemma _parse_rules_kept (raw : option json) (rs : list ScheduleRule) :
  _parse_rules raw = inr rs -> rs <> [] /\ List.Forall kept_rule rs.
Proof.
  unfold _parse_rules.
  assert (Hd : default_schedule_rules <> [] /\ List.Forall kept_rule default_schedule_rules)
    by (split; [discriminate|apply default_rules_kept]).
  destruct raw as [[| | | | |items|]|]; try (intros [= <-]; exact Hd).
  destruct (parse_rule_list items) as [e|parsed] eqn:Ep; [discriminate|].
  cbn [bind ret]. apply parse_rule_list_kept in Ep.
  destruct parsed; intros [= <-]; [exact Hd|]. split; [discriminate|exact Ep].
Qed.

Lemma clamp_items_range (items : list (string * json)) (ls : list (string * Z)) :
  clamp_items items = inr ls ->
  List.Forall (fun kv : string * Z => 0 <= snd kv <= 100) ls.
Proof.
  revert ls. induction items as [|[k v] items IH]; intros ls.
  - intros [= <-]. constructor.
  - cbn [clamp_items]. unfold clamp_json at 1.
    destruct (py_number v) as [e|n]; [discriminate|]. cbn [bind ret].
    destruct (clamp_items items) as [e|others]; [discriminate|].
    cbn [bind ret]. intros [= <-]. constructor; [apply clamp_brightness_range|].
    apply IH. reflexivity.
Qed.

Lemma dict_set_keys {V} (k : string) (v : V) (d : list (string * V)) :
  List.NoDup (map fst d) ->
  List.NoDup (map fst (dict_set k v d))
  /\ forall kv, In kv (dict_set k v d) -> kv = (k, v) \/ In kv d.
Proof.
  induction d as [|[k' v'] d IH]; intros Hn.
  - cbn. split; [repeat constructor; intros []|]. intros kv [<-|[]]. auto.
  - cbn [dict_set]. destruct (String.eqb_spec k k') as [->|Hne].
    + split; [exact Hn|]. intros kv [<-|H]; [auto|right; right; exact H].
    + inversion Hn as [|? ? Hk Hd]; subst.
      destruct (IH Hd) as [IH1 IH2]. split.
      * cbn [map fst]. constructor; [|exact IH1].
        intros Hin. apply List.in_map_iff in Hin.
        destruct Hin as ([k2 v2] & Hk2 & Hin). cbn in Hk2. subst k2.
        destruct (IH2 _ Hin) as [[= -> ->]|Hin']; [congruence|].
        apply Hk. apply List.in_map_iff. exists (k', v2). auto.
      * intros kv [<-|H]; [right; left; reflexivity|].
        destruct (IH2 _ H); [auto|right; right; assumption].
Qed.

(** A comprehension has distinct keys and takes its values from the
    items. *)
Lemma dict_of_items_keys {V} (items : list (string * V)) :
  List.NoDup (map fst (dict_of_items items))
  /\ forall kv, In kv (dict_of_items items) -> In kv items.
Proof.
  unfold dict_of_items.
  assert (H : forall acc : list (string * V),
             List.NoDup (map fst acc) ->
             List.NoDup (map fst (fold_left (fun d kv => dict_set (fst kv) (snd kv) d)
                                            items acc))
             /\ forall kv,
                  In kv (fold_left (fun d kv => dict_set (fst kv) (snd kv) d)
                                   items acc) ->
                  In kv acc \/ In kv items).
  { induction items as [|[k v] items IH]; intros acc Hn; [auto|].
    cbn [fold_left fst snd].
    destruct (dict_set_keys k v acc Hn) as [H1 H2].
    destruct (IH _ H1) as [H3 H4]. split; [exact H3|].
    intros kv Hkv. destruct (H4 kv Hkv) as [H|H].
    - destruct (H2 kv H) as [->|H']; [right; left; reflexivity|left; exact H'].
    - right. right. exact H. }
  destruct (H [] (List.NoDup_nil _)) as [H1 H2]. split; [exact H1|].
  intros kv Hkv. destruct (H2 kv Hkv) as [[]|Hin]. exact Hin.
Qed.

Lemma reread_kept (rule : ScheduleRule) : kept_rule rule -> reread rule = rule.
Proof.
  intros ((_ & Hb & _) & _). destruct rule as [a o b t st]. unfold reread.
  cbn in *. rewrite clamp_brightness_fixed by exact Hb. reflexivity.
Qed.

Lemma map_id_on {A} (f : A -> A) (l : list A) :
  List.Forall (fun a => f a = a) l -> map f l = l.
Proof. induction 1 as [|a l Ha _ IH]; [reflexivity|]. cbn. rewrite Ha, IH. reflexivity. Qed.

(** What [_parse] returns is storable, carries the default theme and is
    read back unchanged. *)
Lemma _parse_normal (data : list (string * json)) (cfg : AppConfig) :
  _parse data = inr cfg ->
  storable cfg /\ theme cfg = theme default_config /\ reloaded cfg = cfg.
Proof.
  unfold _parse.
  destruct (py_int _) as [e|ver]; [discriminate|]. cbn [bind].
  destruct (clamp_json _) as [e|global] eqn:Eg; [discriminate|]. cbn [bind].
  assert (Hg : 0 <= global <= 100).
  { unfold clamp_json in Eg. destruct (py_number _); [discriminate|].
    cbn [bind ret] in Eg. injection Eg as <-. apply clamp_brightness_range. }
  set (lv := match get_default "monitor_levels" (JObj []) data with
             | JObj items => _ | _ => _ end).
  destruct lv as [e|levels] eqn:El; [discriminate|]. cbn [bind].
  assert (Hl : List.NoDup (map fst levels)
               /\ List.Forall (fun kv : string * Z => 0 <= snd kv <= 100) levels).
  { subst lv. destruct (get_default "monitor_levels" (JObj []) data);
      try (injection El as <-; split; constructor).
    destruct (clamp_items fields) as [e|clamped] eqn:Ec; [discriminate|].
    cbn [bind ret] in El. injection El as <-.
    destruct (dict_of_items_keys clamped) as [H1 H2]. split; [exact H1|].
    apply clamp_items_range in Ec. rewrite List.Forall_forall in *.
    intros kv Hkv. apply Ec, H2, Hkv. }
  set (sc := match get_default "schedule" (JObj []) data with
             | JObj fields => _ | _ => _ end).
  destruct sc as [e|sched] eqn:Es; [discriminate|]. cbn [bind ret].
  assert (Hs : rules sched <> [] /\ List.Forall kept_rule (rules sched)).
  { subst sc. destruct (get_default "schedule" (JObj []) data);
      try (injection Es as <-; split; [discriminate|apply default_rules_kept]).
    unfold parse_schedule in Es.
    destruct (_parse_rules _) as [e|parsed] eqn:Ep; [discriminate|].
    cbn [bind ret] in Es. injection Es as <-. cbn [rules].
    apply _parse_rules_kept in Ep. exact Ep. }
  intros [= <-]. destruct Hl as [Hl1 Hl2], Hs as [Hs1 Hs2].
  split; [|split; [reflexivity|]].
  - unfold storable, in_declared_ranges. cbn.
    repeat split; try assumption; try lia.
    + eapply List.Forall_impl; [|exact Hs2]. intros r Hr. apply Hr.
    + eapply List.Forall_impl; [|exact Hs2]. intros r Hr. apply Hr.
  - unfold reloaded. cbn.
    rewrite clamp_brightness_fixed by exact Hg.
    rewrite (map_id_on (fun kv : string * Z => (fst kv, clamp_brightness (snd kv)))).
    + rewrite (map_id_on reread).
      * destruct sched. reflexivity.
      * eapply List.Forall_impl; [|exact Hs2]. intros r Hr. apply reread_kept, Hr.
    + eapply List.Forall_impl; [|exact Hl2]. intros [k v] Hv. cbn in *.
      rewrite clamp_brightness_fixed by exact Hv. reflexivity.
Qed.

(** X6.  Whatever document [_parse] accepts, the configuration it returns is
    within the declared ranges, has at least one rule, and is read back
    as it is after a save. *)
Theorem parsed_config_is_stable (data : list (string * json)) (cfg : AppConfig) :
  fst (load (Document (JObj data))) = inr cfg ->
  storable cfg
  /\ theme cfg = "dark"%string
  /\ fst (load (save cfg)) = inr cfg
  /\ snd (load (save cfg)) = save cfg.
Proof.
  cbn [load fst snd]. intros H. apply _parse_normal in H.
  destruct H as (Hs & Ht & Hr).
  split; [exact Hs|]. split; [exact Ht|]. split; [|reflexivity].
  unfold save. cbn [load fst].
  rewrite (_parse_payload cfg Hs), Hr. reflexivity.
Qed.

Lemma parsed_config_is_stable_witness :
  fst (load (Document (JObj untidy_document))) = inr untidy_loaded
  /\ map (fun rule => (anchor rule, offset_minutes rule, brightness rule,
                       target rule, specific_time rule))
         (rules (schedule untidy_loaded))
     = [ (AnchorTime, 0, 100, Both, Some "07:05"%string);
         (AnchorSunset, 1440, 100, Display2, None) ]
  /\ monitor_levels untidy_loaded = [("A", 100); ("B", 2)]%string
  /\ fst (load (save untidy_loaded)) = inr untidy_loaded.
Proof.
  assert (H : fst (load (Document (JObj untidy_document))) = inr untidy_loaded)
    by (vm_compute; reflexivity).
  refine (conj H (conj _ (conj _ _))).
  - vm_compute. reflexivity.
  - vm_compute. reflexivity.
  - exact (proj1 (proj2 (proj2 (parsed_config_is_stable untidy_document
                                  untidy_loaded H)))).
Defined.

End ParseFacts.

Module LoadFacts.
Import Py Models SunSchedule ConfigStore ConfigSpec DocumentSpec LoadSpec
  PyFacts ConfigStoreFacts ParseFacts.

(** Every clock time of the day, as the store writes it, is read by
    [_parse_time] as that hour and minute. *)
Lemma clock_times_checked :
  forallb
    (fun hour =>
       forallb
         (fun minute =>
            match _parse_time (Some (clock_text hour minute)) with
            | Some (h, m) => (h =? hour) && (m =? minute)
            | None => false
            end)
         (map Z.of_nat (seq 0 60)))
    (map Z.of_nat (seq 0 24)) = true.
Proof. vm_compute. reflexivity. Qed.

Lemma _parse_time_clock_text (hour minute : Z) :
  0 <= hour <= 23 -> 0 <= minute <= 59 ->
  _parse_time (Some (clock_text hour minute)) = Some (hour, minute).
Proof.
  intros Hh Hm. pose proof clock_times_checked as H.
  rewrite List.forallb_forall in H.
  specialize (H hour). rewrite List.forallb_forall in H.
  assert (Hin : forall n bound, 0 <= n < Z.of_nat bound ->
                In n (map Z.of_nat (seq 0 bound))).
  { intros n bound Hn. apply List.in_map_iff. exists (Z.to_nat n).
    split; [lia|]. apply List.in_seq. lia. }
  specialize (H (Hin hour 24%nat ltac:(lia)) minute (Hin minute 60%nat ltac:(lia))).
  destruct (_parse_time _) as [[h m]|]; [|discriminate].
  apply andb_prop in H. destruct H as [H1 H2].
  apply Z.eqb_eq in H1, H2. subst. reflexivity.
Qed.

(** X5.  A clock rule that comes out of [load] is never skipped by the
    evaluator: on every day it yields the point at its hour and minute,
    with its brightness. *)
Theorem loaded_clock_rules_resolve (data : list (string * json))
    (cfg : AppConfig) (rule : ScheduleRule) :
  fst (load (Document (JObj data))) = inr cfg ->
  In rule (rules (schedule cfg)) ->
  anchor rule = AnchorTime ->
  exists hour minute,
    0 <= hour <= 23 /\ 0 <= minute <= 59
    /\ forall (date : Z) (events : option (datetime * datetime)),
         rule_point date events rule
         = Some (combine date (hour, minute), brightness rule).
Proof.
  cbn [load fst]. intros H Hin Ha. apply _parse_normal in H.
  destruct H as (((_ & _ & _ & Hr) & _ & _) & _ & _).
  rewrite List.Forall_forall in Hr. specialize (Hr rule Hin).
  destruct Hr as (_ & Hb & Ht). rewrite Ha in Ht.
  destruct Ht as (hour & minute & Hh & Hm & Hs).
  exists hour, minute. split; [exact Hh|]. split; [exact Hm|].
  intros date events. unfold rule_point. rewrite Ha, Hs.
  rewrite (_parse_time_clock_text hour minute Hh Hm).
  rewrite clamp_brightness_fixed by exact Hb. reflexivity.
Qed.

Lemma loaded_clock_rules_resolve_witness :
  fst (load (Document (JObj untidy_document))) = inr untidy_loaded
  /\ In untidy_rule (rules (schedule untidy_loaded))
  /\ anchor untidy_rule = AnchorTime
  /\ exists hour minute,
       rule_point 3 None untidy_rule
       = Some (combine 3 (hour, minute), brightness untidy_rule).
Proof.
  assert (H1 : fst (load (Document (JObj untidy_document))) = inr untidy_loaded)
    by (vm_compute; reflexivity).
  assert (H2 : In untidy_rule (rules (schedule untidy_loaded)))
    by (vm_compute; left; reflexivity).
  assert (H3 : anchor untidy_rule = AnchorTime) by reflexivity.
  refine (conj H1 (conj H2 (conj H3 _))).
  destruct (loaded_clock_rules_resolve untidy_document untidy_loaded untidy_rule
              H1 H2 H3) as (hour & minute & _ & _ & H).
  exists hour, minute. exact (H 3 None).
Defined.


Lemma get_default_ext (key : string) (default : json)
    (d1 d2 : list (string * json)) :
  dict_get key d1 = dict_get key d2 ->
  get_default key default d1 = get_default key default d2.
Proof. unfold get_default. intros ->. reflexivity. Qed.

(** X9.  [_parse] reads seven keys of the document and nothing else: two
    documents that agree on them are parsed alike. *)
Theorem _parse_reads_known_keys (d1 d2 : list (string * json)) :
  (forall k, In k known_keys -> dict_get k d1 = dict_get k d2) ->
  _parse d1 = _parse d2.
Proof.
  intros H. unfold _parse.
  rewrite (get_default_ext "version" _ d1 d2),
    (get_default_ext "last_global_brightness" _ d1 d2),
    (get_default_ext "monitor_levels" _ d1 d2),
    (get_default_ext "schedule" _ d1 d2),
    (get_default_ext "link_mode" _ d1 d2),
    (get_default_ext "ambient_auto_enabled" _ d1 d2),
    (get_default_ext "startup_enabled" _ d1 d2);
    [reflexivity|apply H; unfold known_keys; cbn [In]; tauto..].
Qed.

Lemma _parse_reads_known_keys_witness :
  (forall k, In k known_keys ->
             dict_get k untidy_document = dict_get k tidy_document)
  /\ _parse untidy_document = _parse tidy_document.
Proof.
  assert (H : forall k, In k known_keys ->
                        dict_get k untidy_document = dict_get k tidy_document).
  { intros k Hk. unfold known_keys in Hk. cbn [In] in Hk.
    repeat (destruct Hk as [<-|Hk]; [reflexivity|]). destruct Hk. }
  refine (conj H _).
  exact (_parse_reads_known_keys untidy_document tidy_document H).
Defined.

(** X10.  A global level written as text makes [load] raise [TypeError], also
    when the text spells a number: [round] takes no string. *)
Theorem load_raises_on_text_level (data : list (string * json)) (s : string)
    (v : Z) :
  py_int (get_default "version" (JInt 1) data) = inr v ->
  dict_get "last_global_brightness" data = Some (JStr s) ->
  fst (load (Document (JObj data))) = inl TypeError.
Proof.
  intros Hv Hs. cbn [load fst]. unfold _parse. rewrite Hv. cbn [bind].
  unfold get_default at 1. rewrite Hs. reflexivity.
Qed.

Lemma load_raises_on_text_level_witness :
  py_int (get_default "version" (JInt 1) text_level_document) = inr 1
  /\ dict_get "last_global_brightness" text_level_document = Some (JStr "50")
  /\ fst (load (Document (JObj text_level_document))) = inl TypeError.
Proof.
  assert (H1 : py_int (get_default "version" (JInt 1) text_level_document)
               = inr 1) by reflexivity.
  assert (H2 : dict_get "last_global_brightness" text_level_document
               = Some (JStr "50")) by reflexivity.
  refine (conj H1 (conj H2 _)).
  exact (load_raises_on_text_level text_level_document "50" 1 H1 H2).
Defined.

Lemma parse_rule_list_written (rs : list ScheduleRule) :
  exists parsed, parse_rule_list (map rule_payload rs) = ret parsed.
Proof.
  induction rs as [|rule rs [parsed IH]]; [exists []; reflexivity|].
  cbn [map parse_rule_list]. rewrite IH.
  assert (Eb : forall fields,
             dict_get "brightness" fields
             = Some (JInt (clamp_brightness (brightness rule))) ->
             clamp_json (get_default "brightness" (JInt 100) fields)
             = ret (clamp_brightness (brightness rule))).
  { intros fields Hf. unfold get_default. rewrite Hf.
    unfold clamp_json. cbn [py_number bind ret].
    rewrite clamp_brightness_idempotent. reflexivity. }
  unfold parse_rule, rule_payload.
  destruct (anchor_of_json _) as [a|]; [|eexists; reflexivity].
  rewrite Eb by reflexivity.
  destruct a; try (eexists; reflexivity).
  destruct (_normalize_time_text _); eexists; reflexivity.
Qed.

(** X7.  Whatever configuration is saved, loading the file succeeds, and the
    configuration it gives is read back as it is after a further
    save. *)
Theorem saved_config_loads (cfg : AppConfig) :
  exists cfg',
    fst (load (save cfg)) = inr cfg'
    /\ fst (load (save cfg')) = inr cfg'.
Proof.
  assert (H : exists cfg', _parse (payload cfg) = inr cfg').
  { unfold _parse, payload.
    change (get_default "version" _ _) with (JInt (version cfg)).
    change (get_default "last_global_brightness" _ _)
      with (JInt (clamp_brightness (last_global_brightness cfg))).
    change (get_default "monitor_levels" _ _)
      with (JObj (dict_of_items
                    (map (fun kv : string * Z =>
                            (fst kv, JInt (clamp_brightness (snd kv))))
                         (monitor_levels cfg)))).
    change (get_default "schedule" _ _)
      with (JObj [ ("enabled", JBool (enabled (schedule cfg)));
                   ("gradual", JBool (gradual (schedule cfg)));
                   ("auto_location", JBool (auto_location (schedule cfg)));
                   ("latitude", json_of_float (latitude (schedule cfg)));
                   ("longitude", json_of_float (longitude (schedule cfg)));
                   ("rules",
                      JList (map rule_payload (rules (schedule cfg)))) ]%string).
    cbn [py_int bind ret]. unfold clamp_json at 1. cbn [py_number bind ret].
    rewrite (dict_of_items_map (fun v : Z => JInt (clamp_brightness v))).
    rewrite clamp_items_levels. cbn [bind ret].
    unfold parse_schedule.
    change (dict_get "rules" _)
      with (Some (JList (map rule_payload (rules (schedule cfg))))).
    unfold _parse_rules.
    destruct (parse_rule_list_written (rules (schedule cfg))) as [parsed ->].
    cbn [bind ret]. eexists. reflexivity. }
  destruct H as [cfg' H]. exists cfg'. unfold save at 1. cbn [load fst].
  split; [exact H|].
  apply _parse_normal in H. destruct H as (Hs & _ & Hr).
  unfold save. cbn [load fst]. rewrite (_parse_payload cfg' Hs), Hr. reflexivity.
Qed.

End LoadFacts.

Module InterpolateFacts.
Import Py Models SunSchedule ScheduleSpec EvaluatorSpec PyFacts
  SunScheduleFacts RoundingFacts.

Lemma total_seconds_le (a b : Z) :
  a <= b -> (total_seconds a <= total_seconds b)%Q.
Proof. intros H. unfold total_seconds, Qle. cbn [Qnum Qden]. lia. Qed.

Lemma total_seconds_pos (a : Z) : 0 < a -> (0 < total_seconds a)%Q.
Proof. intros H. unfold total_seconds, Qlt. cbn [Qnum Qden]. lia. Qed.

(** The share of the window that has elapsed grows with the clock. *)
Lemma elapsed_share_mono (x y d : Q) :
  (0 < d)%Q -> (x <= y)%Q ->
  (Qmax 0 (Qmin 1 (x / d)) <= Qmax 0 (Qmin 1 (y / d)))%Q.
Proof.
  intros Hd Hxy. apply Q.max_le_compat_l, Q.min_le_compat_l.
  unfold Qdiv. apply Qmult_le_compat_r; [exact Hxy|].
  apply Qinv_le_0_compat, Qlt_le_weak, Hd.
Qed.

Lemma elapsed_share_range (x : Q) :
  (0 <= Qmax 0 (Qmin 1 x))%Q /\ (Qmax 0 (Qmin 1 x) <= 1)%Q.
Proof.
  split; [apply Q.le_max_l|].
  apply Q.max_lub; [discriminate|apply Q.le_min_l].
Qed.

Lemma elapsed_share_before (x d : Q) :
  (0 < d)%Q -> (x <= 0)%Q -> (Qmax 0 (Qmin 1 (x / d)) == 0)%Q.
Proof.
  intros Hd Hx. apply Q.max_l.
  apply Qle_trans with (x / d)%Q; [apply Q.le_min_r|].
  apply Qle_shift_div_r; [exact Hd|]. rewrite Qmult_0_l. exact Hx.
Qed.

Lemma elapsed_share_after (x d : Q) :
  (0 < d)%Q -> (d <= x)%Q -> (Qmax 0 (Qmin 1 (x / d)) == 1)%Q.
Proof.
  intros Hd Hx.
  assert (H1 : (1 <= x / d)%Q).
  { apply Qle_shift_div_l; [exact Hd|]. rewrite Qmult_1_l. exact Hx. }
  rewrite (Q.min_l 1 (x / d) H1). apply Q.max_r. discriminate.
Qed.

Lemma clamp_brightness_mono (p q : Q) :
  (p <= q)%Q -> clamp_brightness (PyFloat p) <= clamp_brightness (PyFloat q).
Proof.
  intros H. unfold clamp_brightness. cbn [int_round].
  pose proof (round_half_even_mono p q H). lia.
Qed.

(** X4.  Between two points the gradual value starts at the level of the
    first, ends at the level of the second, and moves in one direction
    in between. *)
Theorem _interpolate_profile (p f : point) :
  level_in_range p -> level_in_range f -> fst p < fst f ->
  (forall now, now <= fst p -> _interpolate now p f = snd p)
  /\ (forall now, fst f <= now -> _interpolate now p f = snd f)
  /\ (forall t1 t2, t1 <= t2 -> snd p <= snd f ->
                    _interpolate t1 p f <= _interpolate t2 p f)
  /\ (forall t1 t2, t1 <= t2 -> snd f <= snd p ->
                    _interpolate t2 p f <= _interpolate t1 p f).
Proof.
  destruct p as [s sv], f as [e ev]. unfold level_in_range. cbn [fst snd].
  intros Hp Hf Hse.
  assert (Hd : (0 < total_seconds (e - s))%Q) by (apply total_seconds_pos; lia).
  assert (El : (e <=? s) = false) by lia.
  unfold _interpolate. rewrite El.
  assert (Hx : (inject_Z (ev - sv) == inject_Z ev - inject_Z sv)%Q).
  { unfold Z.sub. rewrite inject_Z_plus, inject_Z_opp. reflexivity. }
  split; [|split; [|split]].
  - intros now Hn. unfold clamp_brightness. cbn [int_round].
    rewrite (round_half_even_comp _ (inject_Z sv)).
    + rewrite round_half_even_Z. lia.
    + rewrite elapsed_share_before; [ring|exact Hd|].
      unfold total_seconds, Qle. cbn [Qnum Qden]. lia.
  - intros now Hn. unfold clamp_brightness. cbn [int_round].
    rewrite (round_half_even_comp _ (inject_Z ev)).
    + rewrite round_half_even_Z. lia.
    + rewrite elapsed_share_after; [rewrite Hx; ring|exact Hd|].
      apply total_seconds_le. lia.
  - intros t1 t2 Ht Hv. apply clamp_brightness_mono.
    pose proof (elapsed_share_mono (total_seconds (t1 - s))
                  (total_seconds (t2 - s)) _ Hd
                  (total_seconds_le (t1 - s) (t2 - s) ltac:(lia))) as Hm.
    assert (Hq : (0 <= inject_Z (ev - sv))%Q)
      by (change 0%Q with (inject_Z 0); rewrite <- Zle_Qle; lia).
    apply Qplus_le_r. rewrite !(Qmult_comm (inject_Z (ev - sv))).
    apply Qmult_le_compat_r; assumption.
  - intros t1 t2 Ht Hv. apply clamp_brightness_mono.
    pose proof (elapsed_share_mono (total_seconds (t1 - s))
                  (total_seconds (t2 - s)) _ Hd
                  (total_seconds_le (t1 - s) (t2 - s) ltac:(lia))) as Hm.
    assert (Hq : (inject_Z (ev - sv) <= 0)%Q)
      by (change 0%Q with (inject_Z 0); rewrite <- Zle_Qle; lia).
    apply Qplus_le_r. Lqa.nra.
Qed.

Lemma _interpolate_profile_witness :
  level_in_range (0, 30) /\ level_in_range (DAY, 70) /\ fst (0, 30) < fst (DAY, 70)
  /\ _interpolate 0 (0, 30) (DAY, 70) = 30
  /\ _interpolate DAY (0, 30) (DAY, 70) = 70.
Proof.
  assert (H1 : level_in_range (0, 30)) by (unfold level_in_range; cbn; lia).
  assert (H2 : level_in_range (DAY, 70)) by (unfold level_in_range; cbn; lia).
  assert (H3 : fst (0, 30) < fst (DAY, 70)) by (unfold DAY; cbn; lia).
  destruct (_interpolate_profile (0, 30) (DAY, 70) H1 H2 H3) as (Ha & Hb & _).
  refine (conj H1 (conj H2 (conj H3 (conj _ _)))).
  - exact (Ha 0 ltac:(cbn; lia)).
  - exact (Hb DAY ltac:(cbn; lia)).
Defined.

End InterpolateFacts.

(* ===================================================================== *)
(** * The light sensor *)
(* ===================================================================== *)

Module SensorFacts.
Import Py AmbientLight AmbientSpec SensorSpec.

(** ** Blanks, digits and the characters of a number *)

Lemma digit_not_space (c : ascii) : is_digit c = true -> is_space c = false.
Proof.
  destruct c as [[] [] [] [] [] [] [] []]; vm_compute; congruence.
Qed.

Lemma digit_not_underscore (c : ascii) :
  is_digit c = true -> Ascii.eqb c "_"%char = false.
Proof.
  destruct c as [[] [] [] [] [] [] [] []]; vm_compute; congruence.
Qed.

Lemma lstrip_keeps (l : list ascii) :
  forallb (fun c => negb (is_space c)) l = true -> lstrip l = l.
Proof.
  destruct l as [|c l]; [reflexivity|]. cbn [forallb lstrip].
  intros H. apply andb_prop in H. destruct H as [H _].
  destruct (is_space c); [discriminate|reflexivity].
Qed.

Lemma forallb_rev {A} (f : A -> bool) (l : list A) :
  forallb f (rev l) = forallb f l.
Proof.
  apply eq_true_iff_eq. rewrite !List.forallb_forall.
  split; intros H x Hx; apply H.
  - apply List.in_rev in Hx. exact Hx.
  - apply List.in_rev. exact Hx.
Qed.

Lemma existsb_rev {A} (f : A -> bool) (l : list A) :
  existsb f (rev l) = existsb f l.
Proof.
  apply eq_true_iff_eq. rewrite !List.existsb_exists.
  split; intros (x & Hx & Hf); exists x; (split; [|exact Hf]).
  - apply List.in_rev, Hx.
  - apply List.in_rev in Hx. exact Hx.
Qed.

(** Text without blanks is left as it is by [strip]. *)
Lemma strip_keeps (l : list ascii) :
  forallb (fun c => negb (is_space c)) l = true -> rstrip (lstrip l) = l.
Proof.
  intros H. rewrite (lstrip_keeps l H). unfold rstrip.
  rewrite lstrip_keeps by (rewrite forallb_rev; exact H).
  apply List.rev_involutive.
Qed.

Lemma lstrip_digits (l : list ascii) :
  existsb is_digit (lstrip l) = existsb is_digit l.
Proof.
  induction l as [|c l IH]; [reflexivity|]. cbn [lstrip].
  destruct (is_space c) eqn:E; [|reflexivity].
  cbn [existsb]. rewrite IH.
  destruct (is_digit c) eqn:D; [|reflexivity].
  apply digit_not_space in D. congruence.
Qed.

(** [strip] removes no digit. *)
Lemma strip_digits (s : string) :
  existsb is_digit (list_ascii_of_string (strip s))
  = existsb is_digit (list_ascii_of_string s).
Proof.
  unfold strip. rewrite list_ascii_of_string_of_list_ascii. unfold rstrip.
  rewrite existsb_rev, lstrip_digits, existsb_rev, lstrip_digits. reflexivity.
Qed.

(** ** The digits of a literal *)

Lemma scan_digits_run (ds rest : list ascii) (acc : Z) (n : nat) :
  forallb is_digit ds = true -> ends_run rest ->
  scan_digits acc n (ds ++ rest)
  = (digits_value acc ds, (n + List.length ds)%nat, rest).
Proof.
  intros Hd Hr. revert acc n Hd.
  induction ds as [|d ds IH]; intros acc n Hd.
  - cbn [app digits_value fold_left List.length]. rewrite Nat.add_0_r.
    destruct Hr as [->|[r ->]]; reflexivity.
  - cbn [forallb] in Hd. apply andb_prop in Hd. destruct Hd as [Hd1 Hd2].
    cbn [app scan_digits]. rewrite Hd1. rewrite (IH _ _ Hd2).
    cbn [List.length digits_value fold_left]. f_equal. f_equal. lia.
Qed.

Lemma take_digits_run (s : list ascii) :
  forallb is_digit (fst (take_digits s)) = true
  /\ s = fst (take_digits s) ++ snd (take_digits s).
Proof.
  induction s as [|c s [IH1 IH2]]; [split; reflexivity|].
  cbn [take_digits]. destruct (is_digit c) eqn:D.
  - destruct (take_digits s) as [ds rest]. cbn [fst snd] in *.
    split; [cbn [forallb]; rewrite D; exact IH1|]. cbn [app]. f_equal. exact IH2.
  - split; reflexivity.
Qed.

Lemma take_digits_head (c : ascii) (s : list ascii) :
  is_digit c = true -> exists ds, fst (take_digits (c :: s)) = c :: ds.
Proof.
  intros D. cbn [take_digits]. rewrite D.
  destruct (take_digits s) as [ds rest]. exists ds. reflexivity.
Qed.

Lemma fraction_part_shape (s : list ascii) :
  fraction_part s = []
  \/ exists f fs, fraction_part s = "."%char :: f :: fs
                  /\ forallb is_digit (f :: fs) = true.
Proof.
  unfold fraction_part. destruct s as [|c s]; [left; reflexivity|].
  destruct (Ascii.eqb_spec c "."%char) as [->|_]; [|left; reflexivity].
  pose proof (take_digits_run s) as [H _].
  destruct (take_digits s) as [[|f fs] rest]; [left; reflexivity|].
  right. exists f, fs. split; [reflexivity|exact H].
Qed.

(** A digit, more digits and an optional fraction spell a number. *)
Lemma unsigned_float_run (d : ascii) (ds frac : list ascii) :
  forallb is_digit (d :: ds) = true ->
  (frac = []
   \/ exists f fs, frac = "."%char :: f :: fs
                   /\ forallb is_digit (f :: fs) = true) ->
  exists q, unsigned_float ((d :: ds) ++ frac) = Some q.
Proof.
  intros Hd Hf. unfold unsigned_float.
  assert (Hhead : is_digit d = true).
  { cbn [forallb] in Hd. apply andb_prop in Hd. apply Hd. }
  assert (Hends : ends_run frac).
  { destruct Hf as [->|(f & fs & -> & _)]; [left; reflexivity|].
    right. eexists. reflexivity. }
  assert (Es : scan_number ((d :: ds) ++ frac)
               = (digits_value 0 (d :: ds), List.length (d :: ds), frac)).
  { change (scan_number ((d :: ds) ++ frac))
      with (if is_digit d then scan_digits 0 0 ((d :: ds) ++ frac)
            else (0, O, (d :: ds) ++ frac)).
    rewrite Hhead. apply (scan_digits_run (d :: ds) frac 0 0 Hd Hends). }
  rewrite Es. destruct Hf as [->|(f & fs & -> & Hfs)].
  - cbn [List.length Nat.eqb andb exponent_of]. eexists. reflexivity.
  - assert (Hf1 : is_digit f = true).
    { cbn [forallb] in Hfs. apply andb_prop in Hfs. apply Hfs. }
    assert (Ef : scan_number (f :: fs)
                 = (digits_value 0 (f :: fs), List.length (f :: fs), [])).
    { change (scan_number (f :: fs))
        with (if is_digit f then scan_digits 0 0 (f :: fs) else (0, O, f :: fs)).
      rewrite Hf1. rewrite <- (List.app_nil_r (f :: fs)) at 1.
      apply (scan_digits_run (f :: fs) [] 0 0 Hfs). left. reflexivity. }
    change (Ascii.eqb "." ".") with true. cbv iota. rewrite Ef.
    cbn [List.length Nat.eqb andb exponent_of]. eexists. reflexivity.
Qed.

Lemma number_char_not_space (c : ascii) :
  number_char c = true -> negb (is_space c) = true.
Proof.
  destruct c as [[] [] [] [] [] [] [] []]; vm_compute; congruence.
Qed.

Lemma digits_number_chars (l : list ascii) :
  forallb is_digit l = true -> forallb number_char l = true.
Proof.
  intros H. rewrite List.forallb_forall in *. intros c Hc.
  unfold number_char. rewrite (H c Hc). reflexivity.
Qed.

Lemma number_chars_strip (l : list ascii) :
  forallb number_char l = true -> rstrip (lstrip l) = l.
Proof.
  intros H. apply strip_keeps. rewrite List.forallb_forall in *.
  intros c Hc. apply number_char_not_space, H, Hc.
Qed.

Lemma fraction_number_chars (rest : list ascii) :
  forallb number_char (fraction_part rest) = true.
Proof.
  destruct (fraction_part_shape rest) as [->|(f & fs & -> & Hfs)];
    [reflexivity|].
  change (forallb number_char ("."%char :: f :: fs))
    with (number_char "." && forallb number_char (f :: fs)).
  rewrite (digits_number_chars _ Hfs). reflexivity.
Qed.

(** [float] accepts every match of the pattern. *)
Lemma match_float_here_number (s m : list ascii) :
  match_float_here s = Some m ->
  exists q, float_of_string (string_of_list_ascii m) = Some q.
Proof.
  unfold match_float_here. destruct s as [|c s]; [discriminate|].
  destruct (Ascii.eqb c "-" || Ascii.eqb c "+") eqn:Es.
  - pose proof (take_digits_run s) as [Hd _].
    destruct (take_digits s) as [[|d ds] rest]; [discriminate|].
    cbn [fst] in Hd. intros [= <-].
    destruct (unsigned_float_run d ds (fraction_part rest) Hd
                (fraction_part_shape rest)) as [q Hq].
    assert (Hc : number_char c = true).
    { unfold number_char. apply orb_prop in Es.
      destruct Es as [-> | ->]; rewrite ?orb_true_r; reflexivity. }
    assert (Hn : forallb number_char (c :: (d :: ds) ++ fraction_part rest)
                 = true).
    { change (forallb number_char (c :: (d :: ds) ++ fraction_part rest))
        with (number_char c
              && forallb number_char ((d :: ds) ++ fraction_part rest)).
      rewrite Hc, List.forallb_app, (digits_number_chars _ Hd),
        fraction_number_chars. reflexivity. }
    unfold float_of_string. rewrite list_ascii_of_string_of_list_ascii.
    cbn [app] in Hn, Hq |- *. rewrite (number_chars_strip _ Hn).
    apply orb_prop in Es. destruct Es as [E|E].
    + rewrite E. rewrite Hq. eexists. reflexivity.
    + rewrite E. destruct (Ascii.eqb c "-"); rewrite Hq; eexists; reflexivity.
  - destruct (is_digit c) eqn:D; [|discriminate].
    pose proof (take_digits_run (c :: s)) as [Hd _].
    destruct (take_digits_head c s D) as [ds Eds].
    destruct (take_digits (c :: s)) as [ds' rest]. cbn [fst] in Hd, Eds.
    subst ds'. intros [= <-].
    destruct (unsigned_float_run c ds (fraction_part rest) Hd
                (fraction_part_shape rest)) as [q Hq].
    assert (Hn : forallb number_char ((c :: ds) ++ fraction_part rest) = true).
    { rewrite List.forallb_app, (digits_number_chars _ Hd),
        fraction_number_chars. reflexivity. }
    unfold float_of_string. rewrite list_ascii_of_string_of_list_ascii.
    cbn [app] in Hn, Hq |- *. rewrite (number_chars_strip _ Hn).
    apply orb_false_elim in Es. destruct Es as [E1 E2].
    rewrite E1, E2, Hq. eexists. reflexivity.
Qed.

Lemma search_float_number (s m : list ascii) :
  search_float s = Some m ->
  exists q, float_of_string (string_of_list_ascii m) = Some q.
Proof.
  induction s as [|c s IH]; cbn [search_float].
  - discriminate.
  - destruct (match_float_here (c :: s)) as [m'|] eqn:E.
    + intros [= <-]. eapply match_float_here_number, E.
    + exact IH.
Qed.

(** The pattern is found exactly in the texts that hold a digit. *)
Lemma search_float_digit (s : list ascii) :
  search_float s = None <-> existsb is_digit s = false.
Proof.
  induction s as [|c s IH]; [split; reflexivity|].
  cbn [search_float existsb].
  destruct (match_float_here (c :: s)) as [m|] eqn:E.
  - split; [discriminate|]. intros H. exfalso.
    apply orb_false_elim in H. destruct H as [Hc Hs].
    unfold match_float_here in E. rewrite Hc in E.
    destruct (Ascii.eqb c "-" || Ascii.eqb c "+"); [|discriminate].
    destruct s as [|d s]; [discriminate|].
    cbn [existsb] in Hs. apply orb_false_elim in Hs. destruct Hs as [Hd _].
    cbn [take_digits] in E. rewrite Hd in E. discriminate.
  - rewrite IH. unfold match_float_here in E.
    destruct (is_digit c) eqn:D; [|reflexivity]. exfalso.
    destruct (Ascii.eqb c "-" || Ascii.eqb c "+") eqn:Es.
    + apply orb_prop in Es. destruct Es as [Es|Es];
        apply Ascii.eqb_eq in Es; subst c; discriminate.
    + destruct (take_digits (c :: s)); discriminate.
Qed.

(** X11.  A sample is read exactly when the script completes with code 0 and
    prints a digit: the conversion of the match never fails. *)
Theorem _query_lux_reads_iff_digit (run : run_result) :
  _query_lux run <> None
  <-> exists out, run = RunCompleted 0 out
                  /\ existsb is_digit (list_ascii_of_string out) = true.
Proof.
  destruct run as [|rc out]; cbn [_query_lux].
  - split; [congruence|]. intros (out & H & _). discriminate.
  - destruct (Z.eqb_spec rc 0) as [->|Hrc]; cbn [negb].
    + pose proof (strip_digits out) as Hsd.
      destruct (search_float (list_ascii_of_string (strip out))) as [m|] eqn:E.
      * destruct (search_float_number _ _ E) as [q Hq]. rewrite Hq.
        assert (Hd : existsb is_digit (list_ascii_of_string (strip out)) = true).
        { destruct (existsb _ _) eqn:Ed; [reflexivity|].
          apply search_float_digit in Ed. congruence. }
        split.
        -- intros _. exists out. split; [reflexivity|].
           rewrite <- Hsd. exact Hd.
        -- intros _. destruct (strip out); [discriminate Hd|].
           destruct (Qlt_le_dec q 0); discriminate.
      * apply search_float_digit in E. split.
        -- intros H. exfalso. apply H. destruct (strip out); reflexivity.
        -- intros (out' & [= <-] & H'). rewrite <- Hsd in H'. congruence.
    + split; [congruence|]. intros (out' & [= -> _] & _). congruence.
Qed.

(** ** The error the service reports *)

Lemma step_reports (s : service) (e : event) :
  latest_lux (step s e) <> None \/ last_error (step s e) = Some unavailable.
Proof.
  unfold latest_lux, last_error.
  destruct e as [run|run]; cbn [step]; unfold probe_sensor, poll_once;
    destruct (_query_lux run); cbn [fst _latest_lux _last_error];
    try (left; discriminate); try (right; reflexivity).
  destruct (_latest_lux s) eqn:E; cbn [_latest_lux _last_error].
  - left. rewrite E. discriminate.
  - right. reflexivity.
Qed.

Lemma step_error (s : service) (e : event) :
  last_error s = None \/ last_error s = Some unavailable ->
  last_error (step s e) = None \/ last_error (step s e) = Some unavailable.
Proof.
  unfold last_error. intros Hs.
  destruct e as [run|run]; cbn [step]; unfold probe_sensor, poll_once;
    destruct (_query_lux run); cbn [fst _last_error]; auto.
  destruct (_latest_lux s); cbn [_last_error]; auto.
Qed.

Lemma run_events_error (events : list event) (s : service) :
  last_error s = None \/ last_error s = Some unavailable ->
  last_error (run_events s events) = None
  \/ last_error (run_events s events) = Some unavailable.
Proof.
  revert s. induction events as [|e events IH]; intros s Hs; [exact Hs|].
  cbn [run_events fold_left]. apply IH, step_error, Hs.
Qed.

(** X12.  Once the sensor was asked, the service holds a reading or reports
    the sensor as unavailable; and it never reports anything else. *)
Theorem service_reading_or_error (events : list event) :
  events <> [] ->
  (latest_lux (run_events init events) <> None
   \/ last_error (run_events init events) = Some unavailable)
  /\ (last_error (run_events init events) = None
      \/ last_error (run_events init events) = Some unavailable).
Proof.
  intros Hne. split; [|apply run_events_error; left; reflexivity].
  destruct (List.exists_last Hne) as (front & e & ->).
  unfold run_events. rewrite List.fold_left_app. cbn [fold_left].
  apply step_reports.
Qed.

Lemma service_reading_or_error_witness :
  sample_events <> []
  /\ (latest_lux (run_events init sample_events) <> None
      \/ last_error (run_events init sample_events) = Some unavailable).
Proof.
  assert (H : sample_events <> []) by discriminate.
  refine (conj H _).
  exact (proj1 (service_reading_or_error sample_events H)).
Defined.

End SensorFacts.

(* ===================================================================== *)
(** * The handlers of the window *)
(* ===================================================================== *)

Module HandlerFacts.
Import Py Models Ui UiHandlers HandlerSpec PyFacts RoundingFacts.
Import ConfigStore.

Lemma dict_get_set {V} (k k' : string) (v : V) (d : list (string * V)) :
  dict_get k (dict_set k' v d)
  = if String.eqb k k' then Some v else dict_get k d.
Proof.
  induction d as [|[k0 v0] d IH]; cbn [dict_set dict_get].
  - destruct (String.eqb k k'); reflexivity.
  - destruct (String.eqb_spec k' k0) as [->|Hne]; cbn [dict_get].
    + destruct (String.eqb k k0); reflexivity.
    + rewrite IH. destruct (String.eqb_spec k k0) as [->|Hne'].
      * destruct (String.eqb_spec k0 k') as [->|_]; [destruct Hne|]; reflexivity.
      * reflexivity.
Qed.

Lemma all_loop_spec (bounded : Z) (rows : list MonitorSliderRow)
    (log : list effect) :
  all_loop bounded rows log
  = (map (fun row => set_value row bounded) rows,
     log ++ map (fun row => SetBrightness (key (monitor row)) bounded) rows).
Proof.
  revert log. induction rows as [|row rows IH]; intros log; cbn [all_loop map].
  - rewrite List.app_nil_r. reflexivity.
  - rewrite IH, <- List.app_assoc. reflexivity.
Qed.

Lemma fold_levels_get (bounded : Z) (rows : list MonitorSliderRow)
    (levels : list (string * Z)) (k : string) :
  dict_get k
    (fold_left (fun d row => dict_set (key (monitor row)) bounded d) rows levels)
  = if existsb (fun row => String.eqb k (key (monitor row))) rows
    then Some bounded else dict_get k levels.
Proof.
  revert levels. induction rows as [|row rows IH]; intros levels; [reflexivity|].
  cbn [fold_left existsb]. rewrite IH, dict_get_set.
  destruct (String.eqb k (key (monitor row))); cbn [orb];
    destruct (existsb _ rows); reflexivity.
Qed.

(** The fields [apply_brightness_to_all] leaves. *)
Lemma apply_brightness_to_all_fields (value : Z) (persist : bool)
    (w : window) :
  monitor_rows (apply_brightness_to_all value persist w)
  = map (fun row => set_value row (clamp_brightness value)) (monitor_rows w)
  /\ global_slider (apply_brightness_to_all value persist w)
     = clamp_brightness value
  /\ effects (apply_brightness_to_all value persist w)
     = effects w
         ++ map (fun row => SetBrightness (key (monitor row))
                              (clamp_brightness value))
                (monitor_rows w)
         ++ (if persist
             then [Saved (save (config (apply_brightness_to_all value persist w)))]
             else [])
  /\ (if persist
      then last_global_brightness
             (config (apply_brightness_to_all value persist w))
           = clamp_brightness value
           /\ forall row, In row (monitor_rows w) ->
                dict_get (key (monitor row))
                  (monitor_levels
                     (config (apply_brightness_to_all value persist w)))
                = Some (clamp_brightness value)
      else config (apply_brightness_to_all value persist w) = config w).
Proof.
  unfold apply_brightness_to_all. rewrite all_loop_spec.
  destruct persist;
    cbn [_persist_config emit _set_global_slider_value with_global_slider
         with_effects with_rows with_config with_monitor_levels with_last_global
         monitor_rows global_slider effects config last_global_brightness
         monitor_levels].
  - rewrite clamp_brightness_idempotent.
    split; [reflexivity|]. split; [reflexivity|].
    split; [rewrite <- List.app_assoc; reflexivity|].
    split; [reflexivity|].
    intros row Hin. rewrite fold_levels_get.
    assert (E : existsb
                  (fun r : MonitorSliderRow =>
                     String.eqb (key (monitor row)) (key (monitor r)))
                  (map (fun r => set_value r (clamp_brightness value))
                       (monitor_rows w)) = true).
    { apply List.existsb_exists.
      exists (set_value row (clamp_brightness value)). split.
      - apply (List.in_map (fun r => set_value r (clamp_brightness value))).
        exact Hin.
      - apply String.eqb_refl. }
    rewrite E. reflexivity.
  - rewrite clamp_brightness_idempotent, List.app_nil_r. auto.
Qed.

(** X13.  [apply_brightness_to_all] leaves every display and the global
    slider at the bounded value, with one service call for each display,
    in their order; it writes the file only when asked to persist, and
    then the saved level of every display and the saved global level are
    that value. *)
Theorem apply_brightness_to_all_sets_all (value : Z) (persist : bool)
    (w : window) :
  (forall row, In row (monitor_rows (apply_brightness_to_all value persist w)) ->
               slider row = clamp_brightness value)
  /\ map monitor (monitor_rows (apply_brightness_to_all value persist w))
     = map monitor (monitor_rows w)
  /\ global_slider (apply_brightness_to_all value persist w)
     = clamp_brightness value
  /\ effects (apply_brightness_to_all value persist w)
     = effects w
         ++ map (fun row => SetBrightness (key (monitor row))
                              (clamp_brightness value))
                (monitor_rows w)
         ++ (if persist
             then [Saved (save (config (apply_brightness_to_all value persist w)))]
             else [])
  /\ (if persist
      then last_global_brightness
             (config (apply_brightness_to_all value persist w))
           = clamp_brightness value
           /\ forall row, In row (monitor_rows w) ->
                dict_get (key (monitor row))
                  (monitor_levels
                     (config (apply_brightness_to_all value persist w)))
                = Some (clamp_brightness value)
      else config (apply_brightness_to_all value persist w) = config w).
Proof.
  destruct (apply_brightness_to_all_fields value persist w)
    as (Hr & Hg & He & Hc).
  split; [|split; [|auto]].
  - intros row Hin. rewrite Hr in Hin. apply List.in_map_iff in Hin.
    destruct Hin as (r & <- & _). cbn [set_value slider].
    apply clamp_brightness_idempotent.
  - rewrite Hr, List.map_map. apply List.map_ext. reflexivity.
Qed.

(** X14.  Linking by the button sets every display to the level of the
    global slider; unlinking changes no display and calls the service
    for none: it only saves the new mode. *)
Theorem link_toggle_levels (w : window) :
  0 <= global_slider w <= 100 ->
  (link_mode (config (_handle_link_toggle true w)) = true
   /\ global_slider (_handle_link_toggle true w) = global_slider w
   /\ List.Forall (fun row => slider row = global_slider w)
        (monitor_rows (_handle_link_toggle true w)))
  /\ (link_mode (config (_handle_link_toggle false w)) = false
      /\ global_slider (_handle_link_toggle false w) = global_slider w
      /\ monitor_rows (_handle_link_toggle false w) = monitor_rows w
      /\ effects (_handle_link_toggle false w)
         = effects w ++ [Saved (save (with_link_mode false (config w)))]).
Proof.
  intros Hg. split.
  - unfold _handle_link_toggle, set_link_mode. cbn [andb].
    match goal with
    | |- context [apply_brightness_to_all ?v true ?x] =>
        destruct (apply_brightness_to_all_fields v true x)
          as (Hr & Hs & _ & Hc & _);
        assert (Ev : v = global_slider w) by (destruct (Bool.eqb _ _); reflexivity);
        assert (Er : monitor_rows x = monitor_rows w)
          by (destruct (Bool.eqb _ _); reflexivity)
    end.
    rewrite Ev in *. rewrite (clamp_brightness_fixed _ Hg) in *.
    split; [|split; [exact Hs|]].
    + unfold apply_brightness_to_all. rewrite all_loop_spec.
      destruct (Bool.eqb _ _); reflexivity.
    + rewrite Hr, Er. apply List.Forall_forall. intros row Hin.
      apply List.in_map_iff in Hin. destruct Hin as (r & <- & _).
      cbn [set_value slider]. apply clamp_brightness_fixed, Hg.
  - unfold _handle_link_toggle, set_link_mode. cbn [andb].
    destruct (Bool.eqb _ _); cbn; auto.
Qed.

Lemma link_toggle_levels_witness :
  0 <= global_slider HandlerSpec.three_displays <= 100
  /\ List.Forall (fun row => slider row = 50)
       (monitor_rows (_handle_link_toggle true HandlerSpec.three_displays)).
Proof.
  assert (H : 0 <= global_slider HandlerSpec.three_displays <= 100)
    by (cbn; lia).
  refine (conj H _).
  exact (proj2 (proj2 (proj1 (link_toggle_levels HandlerSpec.three_displays H)))).
Defined.

Lemma saved_loop_spec (levels : list (string * Z))
    (rows : list MonitorSliderRow) (log : list effect) :
  saved_loop levels rows log
  = (map (restored_row levels) rows, log ++ omap (restored_call levels) rows).
Proof.
  revert log. induction rows as [|row rows IH]; intros log.
  - cbn. rewrite List.app_nil_r. reflexivity.
  - cbn [saved_loop map].
    change (omap (restored_call levels) (row :: rows))
      with (match restored_call levels row with
            | Some e => e :: omap (restored_call levels) rows
            | None => omap (restored_call levels) rows
            end).
    unfold restored_row at 1, restored_call at 1.
    destruct (dict_get (key (monitor row)) levels) as [level|]; rewrite IH.
    + rewrite <- List.app_assoc. reflexivity.
    + reflexivity.
Qed.

Lemma restored_calls (levels : list (string * Z)) (rows : list MonitorSliderRow) :
  List.Forall is_service_call (omap (restored_call levels) rows).
Proof.
  apply List.Forall_forall. intros e He.
  apply list_elem_of_In, list_elem_of_omap in He. destruct He as (row & _ & He).
  unfold restored_call in He.
  destruct (dict_get (key (monitor row)) levels) as [level|]; [|discriminate].
  injection He as <-. eexists _, _. reflexivity.
Qed.

Lemma sync_average (w : window) :
  monitor_rows w <> [] ->
  global_slider (_sync_global_slider_to_average w)
  = clamp_brightness (PyInt (rounded_average (map slider (monitor_rows w))))
  /\ last_global_brightness (config (_sync_global_slider_to_average w))
     = clamp_brightness (PyInt (rounded_average (map slider (monitor_rows w))))
  /\ monitor_rows (_sync_global_slider_to_average w) = monitor_rows w
  /\ effects (_sync_global_slider_to_average w) = effects w
  /\ monitor_levels (config (_sync_global_slider_to_average w))
     = monitor_levels (config w)
  /\ link_mode (config (_sync_global_slider_to_average w)) = link_mode (config w).
Proof.
  intros Hne. unfold _sync_global_slider_to_average.
  destruct (monitor_rows w) as [|row rows] eqn:E; [destruct Hne; reflexivity|].
  cbn [_set_global_slider_value with_global_slider with_config with_last_global
       global_slider config last_global_brightness monitor_rows effects
       monitor_levels link_mode].
  rewrite E. auto 10.
Qed.

(** X15.  Restoring the saved profile writes no file and leaves the saved
    levels as they are: it only calls the service.  Linked displays all
    take the saved global level; displays that are not linked take their
    own saved level when they have one, and the global slider then shows
    the rounded average of all the displays. *)
Theorem apply_saved_profile_restores (w : window) :
  (exists calls,
      effects (apply_saved_profile w) = effects w ++ calls
      /\ List.Forall is_service_call calls)
  /\ monitor_levels (config (apply_saved_profile w)) = monitor_levels (config w)
  /\ (link_mode (config w) = true ->
      monitor_rows (apply_saved_profile w)
      = map (fun row =>
               set_value row (clamp_brightness (last_global_brightness (config w))))
            (monitor_rows w))
  /\ (link_mode (config w) = false ->
      monitor_rows (apply_saved_profile w)
      = map (restored_row (monitor_levels (config w))) (monitor_rows w)
      /\ (monitor_rows w <> [] ->
          global_slider (apply_saved_profile w)
          = clamp_brightness
              (PyInt (rounded_average
                        (map slider (monitor_rows (apply_saved_profile w))))))).
Proof.
  unfold apply_saved_profile.
  destruct (monitor_rows w) as [|row rows] eqn:E.
  - rewrite E. split; [exists []; rewrite List.app_nil_r; auto|].
    split; [reflexivity|]. split; [reflexivity|].
    intros _. split; [reflexivity|]. intros H. destruct H. reflexivity.
  - rewrite <- E. destruct (link_mode (config w)) eqn:El.
    + destruct (apply_brightness_to_all_fields
                  (last_global_brightness (config w)) false w)
        as (Hr & _ & He & Hc).
      cbv iota in He, Hc. rewrite List.app_nil_r in He.
      split.
      { eexists. split; [exact He|].
        apply List.Forall_forall. intros e Hin.
        apply List.in_map_iff in Hin. destruct Hin as (r & <- & _).
        eexists _, _. reflexivity. }
      rewrite Hc. split; [reflexivity|]. split; [intros _; exact Hr|].
      discriminate.
    + rewrite saved_loop_spec.
      match goal with
      | |- context [_sync_global_slider_to_average ?x] =>
          assert (Hx : monitor_rows x <> [])
            by (cbn [with_effects with_rows monitor_rows]; rewrite E; discriminate);
          destruct (sync_average x Hx) as (Hg & _ & Hr & He & Hl & _)
      end.
      rewrite Hr, He, Hl, Hg.
      cbn [with_effects with_rows monitor_rows effects config].
      split; [eexists; split; [reflexivity|apply restored_calls]|].
      split; [reflexivity|]. split; [discriminate|].
      intros _. split; [reflexivity|]. intros _. reflexivity.
Qed.

Lemma sum_between (lo hi : Z) (levels : list Z) :
  List.Forall (fun v => lo <= v <= hi) levels ->
  lo * Z.of_nat (List.length levels) <= fold_right Z.add 0 levels
  <= hi * Z.of_nat (List.length levels).
Proof.
  induction 1 as [|v levels Hv _ IH]; [cbn; lia|].
  cbn [fold_right]. rewrite List.length_cons. lia.
Qed.

(** The rounded average of some levels lies between the lowest and the
    highest of them. *)
Lemma rounded_average_between (lo hi : Z) (levels : list Z) :
  levels <> [] -> List.Forall (fun v => lo <= v <= hi) levels ->
  lo <= rounded_average levels <= hi.
Proof.
  intros Hne Hall. pose proof (sum_between lo hi levels Hall) as Hs.
  unfold rounded_average.
  destruct levels as [|v levels]; [destruct Hne; reflexivity|].
  set (total := fold_right Z.add 0 (v :: levels)) in *.
  assert (Hp : Z.pos (Pos.of_nat (List.length (v :: levels)))
               = Z.of_nat (List.length (v :: levels))).
  { cbn [List.length]. rewrite <- Pos.of_nat_succ, Zpos_P_of_succ_nat. lia. }
  apply round_half_even_between; unfold Qle, inject_Z; cbn [Qnum Qden];
    rewrite Hp; lia.
Qed.

(** X16.  The global slider is brought between the lowest and the highest
    display, and the saved global level with it; no display changes and
    the service is not called. *)
Theorem sync_global_slider_between (w : window) (lo hi : Z) :
  monitor_rows w <> [] -> 0 <= lo -> hi <= 100 ->
  List.Forall (fun row => lo <= slider row <= hi) (monitor_rows w) ->
  lo <= global_slider (_sync_global_slider_to_average w) <= hi
  /\ last_global_brightness (config (_sync_global_slider_to_average w))
     = global_slider (_sync_global_slider_to_average w)
  /\ monitor_rows (_sync_global_slider_to_average w) = monitor_rows w
  /\ effects (_sync_global_slider_to_average w) = effects w.
Proof.
  intros Hne Hlo Hhi Hall.
  destruct (sync_average w Hne) as (Hg & Hc & Hr & He & _).
  rewrite Hg, Hc, Hr, He.
  assert (Hb : lo <= rounded_average (map slider (monitor_rows w)) <= hi).
  { apply rounded_average_between.
    - destruct (monitor_rows w); [destruct Hne; reflexivity|discriminate].
    - apply List.Forall_map. exact Hall. }
  rewrite clamp_brightness_fixed by lia. auto.
Qed.

Lemma sync_global_slider_between_witness :
  monitor_rows three_displays <> [] /\ 0 <= 10 /\ 90 <= 100
  /\ List.Forall (fun row => 10 <= slider row <= 90) (monitor_rows three_displays)
  /\ 10 <= global_slider (_sync_global_slider_to_average three_displays) <= 90.
Proof.
  assert (H1 : monitor_rows three_displays <> []) by discriminate.
  assert (H2 : 0 <= 10) by lia.
  assert (H3 : 90 <= 100) by lia.
  assert (H4 : List.Forall (fun row => 10 <= slider row <= 90)
                 (monitor_rows three_displays)).
  { repeat constructor; cbn; lia. }
  refine (conj H1 (conj H2 (conj H3 (conj H4 _)))).
  exact (proj1 (sync_global_slider_between three_displays 10 90 H1 H2 H3 H4)).
Defined.

Lemma find_row_key (monitor_key : string) (rows : list MonitorSliderRow)
    (row : MonitorSliderRow) :
  find_row monitor_key rows = Some row ->
  In row rows /\ key (monitor row) = monitor_key.
Proof.
  unfold find_row. intros H. apply List.find_some in H.
  destruct H as [Hin Hk]. apply String.eqb_eq in Hk. auto.
Qed.

(** X17.  A slider moved while the displays are not linked reaches one
    display: one service call, for the first row with that key; the
    level saved for that key is the bounded value, the other saved
    levels stay; the global slider shows the rounded average of all the
    displays; and the file is written. *)
Theorem monitor_slider_change_unlinked (monitor_key : string) (value : Z)
    (w : window) (row : MonitorSliderRow) :
  link_mode (config w) = false ->
  find_row monitor_key (monitor_rows w) = Some row ->
  monitor_rows (_handle_monitor_slider_change monitor_key value w)
  = monitor_rows w
  /\ effects (_handle_monitor_slider_change monitor_key value w)
     = effects w
         ++ [ SetBrightness monitor_key value;
              Saved (save (config (_handle_monitor_slider_change
                                     monitor_key value w))) ]
  /\ dict_get monitor_key
       (monitor_levels (config (_handle_monitor_slider_change monitor_key value w)))
     = Some (clamp_brightness value)
  /\ (forall k, k <> monitor_key ->
        dict_get k
          (monitor_levels
             (config (_handle_monitor_slider_change monitor_key value w)))
        = dict_get k (monitor_levels (config w)))
  /\ global_slider (_handle_monitor_slider_change monitor_key value w)
     = clamp_brightness (PyInt (rounded_average (map slider (monitor_rows w)))).
Proof.
  intros Hl Hf. destruct (find_row_key _ _ _ Hf) as [Hin Hk].
  unfold _handle_monitor_slider_change. rewrite Hl, Hf, Hk.
  match goal with
  | |- context [_sync_global_slider_to_average ?y] => set (x := y)
  end.
  assert (Hx : monitor_rows x <> []).
  { subst x. cbn [with_config emit monitor_rows].
    destruct (monitor_rows w); [destruct Hin|discriminate]. }
  destruct (sync_average x Hx) as (Hg & _ & Hr & He & Hlv & _).
  unfold _persist_config.
  cbn [emit monitor_rows effects config global_slider].
  rewrite Hr, He, Hlv, Hg. subst x.
  cbn [with_config emit with_monitor_levels monitor_rows effects config
       monitor_levels].
  split; [reflexivity|]. split; [rewrite <- List.app_assoc; reflexivity|].
  split; [rewrite dict_get_set, String.eqb_refl; reflexivity|].
  split; [|reflexivity].
  intros k Hne. rewrite dict_get_set.
  destruct (String.eqb_spec k monitor_key); [contradiction|reflexivity].
Qed.

Lemma monitor_slider_change_unlinked_witness :
  link_mode (config three_displays) = false
  /\ find_row "B" (monitor_rows three_displays) = Some (DispatchSpec.row_of "B" 55)
  /\ global_slider (_handle_monitor_slider_change "B" 55 three_displays) = 52.
Proof.
  assert (H1 : link_mode (config three_displays) = false) by reflexivity.
  assert (H2 : find_row "B" (monitor_rows three_displays)
               = Some (DispatchSpec.row_of "B" 55)) by reflexivity.
  refine (conj H1 (conj H2 _)).
  destruct (monitor_slider_change_unlinked "B" 55 three_displays _ H1 H2)
    as (_ & _ & _ & _ & H).
  rewrite H. vm_compute. reflexivity.
Defined.

End HandlerFacts.

(* ===================================================================== *)
(** * The ambient engine *)
(* ===================================================================== *)

Module EngineFacts.
Import Py Models Ui UiHandlers UiAmbient AmbientTickSpec HandlerSpec
  EngineSpec PyFacts AmbientTickFacts HandlerFacts.

(** ** The limiter *)

Lemma limiter_tick_range (desired last : Z) :
  0 <= last <= 100 -> 0 <= desired <= 100 ->
  0 <= limiter_tick desired last <= 100.
Proof.
  intros Hl Hd. destruct (limiter_tick_between desired last Hl Hd) as [H1 H2].
  destruct (Z.le_ge_cases last desired); [specialize (H1 ltac:(lia))|
                                           specialize (H2 ltac:(lia))]; lia.
Qed.

Lemma limiter_tick_gap (desired last : Z) :
  0 <= last <= 100 -> 0 <= desired <= 100 ->
  Z.abs (desired - limiter_tick desired last)
  <= Z.max 1 (Z.abs (desired - last) - 4).
Proof.
  intros Hl Hd. unfold limiter_tick, next_level, clamp_brightness,
    _AMBIENT_APPLY_DEADBAND, _AMBIENT_MAX_STEP.
  destruct (Z.ltb_spec (Z.abs (desired - last)) 2); cbn [int_round]; lia.
Qed.

Lemma limiter_run_succ (desired : Z) (n : nat) (last : Z) :
  limiter_run desired (S n) last
  = limiter_tick desired (limiter_run desired n last).
Proof. reflexivity. Qed.

Lemma limiter_run_first (desired : Z) (n : nat) (last : Z) :
  limiter_run desired (S n) last
  = limiter_run desired n (limiter_tick desired last).
Proof.
  induction n as [|n IH]; [reflexivity|].
  rewrite limiter_run_succ, IH. reflexivity.
Qed.

Lemma limiter_run_range (desired : Z) (n : nat) (last : Z) :
  0 <= last <= 100 -> 0 <= desired <= 100 ->
  0 <= limiter_run desired n last <= 100
  /\ Z.min last desired <= limiter_run desired n last <= Z.max last desired
  /\ Z.abs (desired - limiter_run desired n last)
     <= Z.max 1 (Z.abs (desired - last) - 4 * Z.of_nat n).
Proof.
  intros Hl Hd. induction n as [|n (IH1 & IH2 & IH3)].
  - change (limiter_run desired 0 last) with last. lia.
  - rewrite limiter_run_succ.
    pose proof (limiter_tick_range desired _ IH1 Hd) as H1.
    pose proof (limiter_tick_gap desired _ IH1 Hd) as H3.
    destruct (limiter_tick_between desired _ IH1 Hd) as [Ha Hb].
    split; [exact H1|]. split; [|lia].
    destruct (Z.le_ge_cases (limiter_run desired n last) desired);
      [specialize (Ha ltac:(lia))|specialize (Hb ltac:(lia))]; lia.
Qed.

Lemma in_sync_tick (w : window) (l d : Z) (now : Q) :
  in_sync w l -> 0 <= l <= 100 -> 0 <= d <= 100 ->
  in_sync (ambient_dispatch d now w) (limiter_tick d l).
Proof.
  intros Hs Hl Hd. destruct (Z.lt_ge_cases (Z.abs (d - l)) 2) as [Hin|Hout].
  - rewrite (ambient_dispatch_deadband w l d now); [|apply Hs|exact Hin].
    unfold limiter_tick. rewrite next_level_deadband by exact Hin. exact Hs.
  - unfold limiter_tick. rewrite next_level_step by exact Hout.
    rewrite limited_step_range by assumption.
    apply ambient_dispatch_in_sync; assumption.
Qed.

(** X18.  Toward any desired level the level applied by successive ticks
    follows the limiter: it stays between where it started and the
    desired level, the distance left shrinks by 4 a tick until it is at
    most 1, and the displays the engine drives show that level. *)
Theorem ambient_limiter_settles (w : window) (l d : Z) (nows : list Q) :
  in_sync w l -> 0 <= l <= 100 -> 0 <= d <= 100 ->
  in_sync (ambient_run d nows w) (limiter_run d (List.length nows) l)
  /\ Z.min l d <= limiter_run d (List.length nows) l <= Z.max l d
  /\ Z.abs (d - limiter_run d (List.length nows) l)
     <= Z.max 1 (Z.abs (d - l) - 4 * Z.of_nat (List.length nows)).
Proof.
  intros Hs Hl Hd.
  split; [|apply limiter_run_range; assumption].
  revert w l Hs Hl. induction nows as [|now nows IH]; intros w l Hs Hl.
  - exact Hs.
  - cbn [ambient_run fold_left List.length]. rewrite limiter_run_first.
    apply (IH (ambient_dispatch d now w) (limiter_tick d l)).
    + apply in_sync_tick; assumption.
    + apply limiter_tick_range; assumption.
Qed.

Lemma ambient_limiter_settles_witness :
  in_sync ambient_window 50 /\ 0 <= 50 <= 100 /\ 0 <= 31 <= 100
  /\ in_sync (ambient_run 31 [1; 2; 3; 4; 5; 6]%Q ambient_window) 31.
Proof.
  assert (H1 : in_sync ambient_window 50) by exact ambient_window_in_sync.
  assert (H2 : 0 <= 50 <= 100) by lia.
  assert (H3 : 0 <= 31 <= 100) by lia.
  refine (conj H1 (conj H2 (conj H3 _))).
  exact (proj1 (ambient_limiter_settles ambient_window 50 31
                  [1; 2; 3; 4; 5; 6]%Q H1 H2 H3)).
Defined.

(** ** What a tick does to the outside *)

Lemma ambient_loop_full level targets i rows levels log :
  exists levels',
    ambient_loop level targets i rows levels log
    = (loop_rows level targets i rows, levels',
       log ++ loop_calls level targets i rows,
       loop_any level targets i rows).
Proof.
  revert i levels log.
  induction rows as [|row rest IH]; intros i levels log; cbn [ambient_loop].
  - exists levels. cbn. rewrite List.app_nil_r. reflexivity.
  - cbn [loop_rows loop_any loop_calls].
    destruct (existsb (Nat.eqb i) targets && negb (slider row =? level)).
    + unfold set_row.
      destruct (IH (S i) (ConfigStore.dict_set (key (monitor row)) level levels)
                  (log ++ [SetBrightness (key (monitor row)) level]))
        as (lv & ->).
      exists lv. rewrite <- List.app_assoc. reflexivity.
    + destruct (IH (S i) levels log) as (lv & ->). exists lv. reflexivity.
Qed.

Lemma loop_calls_service level targets i rows :
  List.Forall is_service_call (loop_calls level targets i rows).
Proof.
  revert i. induction rows as [|row rest IH]; intros i; cbn [loop_calls].
  - constructor.
  - destruct (_ && _); [constructor; [eexists _, _; reflexivity|]|]; apply IH.
Qed.

Lemma loop_calls_past level t i rows :
  (t < i)%nat -> loop_calls level [t] i rows = [].
Proof.
  revert i. induction rows as [|row rest IH]; intros i Hi; [reflexivity|].
  cbn [loop_calls existsb]. destruct (Nat.eqb_spec i t) as [->|_]; [lia|].
  cbn [orb andb]. apply IH. lia.
Qed.

Lemma loop_calls_single level t i rows :
  (List.length (loop_calls level [t] i rows) <= 1)%nat.
Proof.
  revert i. induction rows as [|row rest IH]; intros i; [cbn; lia|].
  cbn [loop_calls existsb]. destruct (Nat.eqb_spec i t) as [->|_].
  - cbn [orb]. destruct (negb _); cbn [andb].
    + rewrite loop_calls_past by lia. cbn. lia.
    + apply IH.
  - cbn [orb andb]. apply IH.
Qed.

Lemma loop_rows_outside level targets i rows k row :
  ~ In (i + k)%nat targets -> rows !! k = Some row ->
  loop_rows level targets i rows !! k = Some row.
Proof.
  revert i k. induction rows as [|r rest IH]; intros i k Hout; [discriminate|].
  destruct k as [|k]; cbn [loop_rows].
  - intros [= ->]. rewrite Nat.add_0_r in Hout.
    assert (E : existsb (Nat.eqb i) targets = false).
    { destruct (existsb _ _) eqn:E; [|reflexivity].
      apply List.existsb_exists in E. destruct E as (x & Hx & Ex).
      apply Nat.eqb_eq in Ex. subst x. contradiction. }
    rewrite E. reflexivity.
  - intros Hr. apply (IH (S i) k); [|exact Hr].
    replace (S i + k)%nat with (i + S k)%nat by lia. exact Hout.
Qed.

Lemma target_rows_unlinked (w : window) :
  link_mode (config w) = false ->
  _ambient_target_rows w = [] \/ exists t, _ambient_target_rows w = [t].
Proof.
  intros Hl. unfold _ambient_target_rows. rewrite Hl.
  destruct (monitor_rows w); [left; reflexivity|].
  right. destruct (first_wmi _ _); eexists; reflexivity.
Qed.

Lemma sync_frame (w : window) :
  effects (_sync_global_slider_to_average w) = effects w
  /\ _last_ambient_persist_ts (_sync_global_slider_to_average w)
     = _last_ambient_persist_ts w
  /\ monitor_rows (_sync_global_slider_to_average w) = monitor_rows w.
Proof.
  unfold _sync_global_slider_to_average.
  destruct (monitor_rows w) eqn:E; cbn; rewrite ?E; auto.
Qed.

(** X19.  A tick of the ambient engine calls the service for displays it
    drives only, for at most one display when the displays are not
    linked, and leaves the other displays as they are.  It writes the
    file at most once, after the calls, and only when it has not written
    before or at least 5 seconds after it last did. *)
Theorem ambient_dispatch_writes (d : Z) (now : Q) (w : window) :
  exists calls,
    List.Forall is_service_call calls
    /\ (link_mode (config w) = false -> (List.length calls <= 1)%nat)
    /\ ((effects (ambient_dispatch d now w) = effects w ++ calls
         /\ _last_ambient_persist_ts (ambient_dispatch d now w)
            = _last_ambient_persist_ts w)
        \/ (effects (ambient_dispatch d now w)
            = effects w ++ calls
                ++ [Saved (ConfigStore.save (config (ambient_dispatch d now w)))]
            /\ _last_ambient_persist_ts (ambient_dispatch d now w) = now
            /\ ((_last_ambient_persist_ts w <= 0)%Q
                \/ (5 <= now - _last_ambient_persist_ts w)%Q)))
    /\ (forall k row,
          ~ In k (_ambient_target_rows w) -> monitor_rows w !! k = Some row ->
          monitor_rows (ambient_dispatch d now w) !! k = Some row).
Proof.
  assert (Hnone : exists calls,
             List.Forall is_service_call calls
             /\ (link_mode (config w) = false -> (List.length calls <= 1)%nat)
             /\ ((effects w = effects w ++ calls
                  /\ _last_ambient_persist_ts w = _last_ambient_persist_ts w)
                 \/ (effects w
                     = effects w ++ calls ++ [Saved (ConfigStore.save (config w))]
                     /\ _last_ambient_persist_ts w = now
                     /\ ((_last_ambient_persist_ts w <= 0)%Q
                         \/ (5 <= now - _last_ambient_persist_ts w)%Q)))
             /\ (forall k row,
                   ~ In k (_ambient_target_rows w) ->
                   monitor_rows w !! k = Some row ->
                   monitor_rows w !! k = Some row)).
  { exists []. split; [constructor|]. split; [cbn; lia|].
    split; [left; rewrite List.app_nil_r; auto|auto]. }
  unfold ambient_dispatch.
  destruct (next_level (_last_ambient_applied w) d) as [level|]; [|exact Hnone].
  destruct (_ambient_target_rows w) as [|t ts] eqn:Et; [exact Hnone|].
  rewrite <- Et in *. clear Hnone.
  destruct (ambient_loop_full level (_ambient_target_rows w) 0 (monitor_rows w)
              (monitor_levels (config w)) (effects w)) as (lv & ->).
  exists (loop_calls level (_ambient_target_rows w) 0 (monitor_rows w)).
  split; [apply loop_calls_service|]. split.
  { intros Hl. destruct (target_rows_unlinked w Hl) as [E|[t' E]]; rewrite E.
    - rewrite E in Et. discriminate.
    - apply loop_calls_single. }
  assert (Hrows : forall k row,
             ~ In k (_ambient_target_rows w) -> monitor_rows w !! k = Some row ->
             loop_rows level (_ambient_target_rows w) 0 (monitor_rows w) !! k
             = Some row).
  { intros k row Hk Hr. apply loop_rows_outside; [exact Hk|exact Hr]. }
  destruct (negb _ && is_Some_b _).
  { cbn [with_effects with_rows with_config effects _last_ambient_persist_ts
         monitor_rows].
    split; [left; auto|exact Hrows]. }
  match goal with
  | |- context [if link_mode ?c then ?a else ?b] =>
      set (w3 := if link_mode c then a else b)
  end.
  assert (H3 : effects w3
               = effects w
                   ++ loop_calls level (_ambient_target_rows w) 0 (monitor_rows w)
               /\ _last_ambient_persist_ts w3 = _last_ambient_persist_ts w
               /\ monitor_rows w3
                  = loop_rows level (_ambient_target_rows w) 0 (monitor_rows w)).
  { subst w3.
    match goal with |- context [if ?b then _ else _] => destruct b end.
    - cbn. auto.
    - match goal with
      | |- context [_sync_global_slider_to_average ?x] =>
          destruct (sync_frame x) as (-> & -> & ->)
      end.
      cbn. auto. }
  destruct H3 as (He & Hts & Hr).
  destruct (Qle_bool (_last_ambient_persist_ts w3) 0
            || Qle_bool _AMBIENT_PERSIST_INTERVAL_SEC
                 (now - _last_ambient_persist_ts w3)) eqn:Ep.
  - cbn [with_persist_ts _persist_config emit effects _last_ambient_persist_ts
         monitor_rows config].
    rewrite He, Hr, <- List.app_assoc. split; [|exact Hrows].
    right. split; [reflexivity|]. split; [reflexivity|].
    rewrite Hts in Ep. apply orb_prop in Ep.
    destruct Ep as [Ep|Ep]; apply Qle_bool_iff in Ep; [left|right]; exact Ep.
  - rewrite He, Hts, Hr. split; [left; auto|exact Hrows].
Qed.

(** ** Switching Auto Light on and off *)

Lemma sync_flags (w : window) :
  ambient_auto_enabled (config (_sync_global_slider_to_average w))
  = ambient_auto_enabled (config w)
  /\ _last_ambient_applied (_sync_global_slider_to_average w)
     = _last_ambient_applied w
  /\ monitor_rows (_sync_global_slider_to_average w) = monitor_rows w.
Proof.
  unfold _sync_global_slider_to_average.
  destruct (monitor_rows w) eqn:E; cbn; rewrite ?E; auto.
Qed.

(** The first tick of the engine applies the desired level at once. *)
Lemma ambient_dispatch_first (d : Z) (now : Q) (w : window) :
  _last_ambient_applied w = None -> monitor_rows w <> [] ->
  _last_ambient_applied (ambient_dispatch d now w) = Some d
  /\ monitor_rows (ambient_dispatch d now w)
     = loop_rows d (_ambient_target_rows w) 0 (monitor_rows w)
  /\ ambient_auto_enabled (config (ambient_dispatch d now w))
     = ambient_auto_enabled (config w).
Proof.
  intros Hlast Hne. unfold ambient_dispatch. rewrite Hlast.
  cbn [next_level is_Some_b].
  destruct (target_rows_inhabited w Hne) as (k & row & Hk & _).
  destruct (_ambient_target_rows w) as [|t ts] eqn:Et; [destruct Hk|].
  rewrite <- Et in *.
  destruct (ambient_loop_full d (_ambient_target_rows w) 0 (monitor_rows w)
              (monitor_levels (config w)) (effects w)) as (lv & ->).
  rewrite Bool.andb_false_r.
  match goal with
  | |- context [if link_mode ?c then ?a else ?b] =>
      set (w3 := if link_mode c then a else b)
  end.
  assert (H3 : _last_ambient_applied w3 = Some d
               /\ monitor_rows w3
                  = loop_rows d (_ambient_target_rows w) 0 (monitor_rows w)
               /\ ambient_auto_enabled (config w3)
                  = ambient_auto_enabled (config w)).
  { subst w3.
    match goal with |- context [if ?b then _ else _] => destruct b end.
    - cbn. auto.
    - match goal with
      | |- context [_sync_global_slider_to_average ?x] =>
          destruct (sync_flags x) as (-> & -> & ->)
      end.
      cbn. auto. }
  destruct (_ || _); cbn; exact H3.
Qed.

Lemma loop_rows_target (level : Z) (targets : list nat) (rows : list MonitorSliderRow)
    (k : nat) (row' : MonitorSliderRow) :
  0 <= level <= 100 -> In k targets ->
  loop_rows level targets 0 rows !! k = Some row' -> slider row' = level.
Proof.
  intros Hl Hk Hr. apply loop_rows_lookup in Hr. destruct Hr as (row & _ & ->).
  cbn [Nat.add].
  assert (E : existsb (Nat.eqb k) targets = true).
  { apply List.existsb_exists. exists k. split; [exact Hk|apply Nat.eqb_refl]. }
  rewrite E. cbn [andb]. destruct (Z.eqb_spec (slider row) level) as [E2|_].
  - exact E2.
  - cbn [negb set_value slider]. apply clamp_brightness_fixed, Hl.
Qed.

Lemma polls_keep_reading (polls : list AmbientLight.run_result)
    (s : AmbientLight.service) :
  AmbientLight.latest_lux s <> None ->
  AmbientLight.latest_lux
    (fold_left (fun s r => AmbientLight.poll_once r s) polls s) <> None.
Proof.
  revert s. induction polls as [|r polls IH]; intros s Hs; [exact Hs|].
  cbn [fold_left]. apply IH. unfold AmbientLight.poll_once, AmbientLight.latest_lux in *.
  destruct (AmbientLight._query_lux r); [discriminate|].
  destruct (AmbientLight._latest_lux s) eqn:E; [rewrite E; discriminate|].
  destruct Hs. reflexivity.
Qed.

(** X20.  Auto Light is switched on only when the probe reads the sensor.
    When it does, the tick run at once finds a reading, whatever the
    worker did in between, and sets the displays the engine drives to
    the level of the curve for that reading, without the step limit. *)
Theorem ambient_enable_applies_at_once (persist : bool)
    (run : AmbientLight.run_result) (polls : list AmbientLight.run_result)
    (now : Q) (a : auto_light) :
  (AmbientLight._query_lux run = None ->
   ambient_auto_enabled
     (config (shown (_set_ambient_enabled true persist run polls now a))) = false
   /\ monitor_rows (shown (_set_ambient_enabled true persist run polls now a))
      = monitor_rows (shown a))
  /\ (AmbientLight._query_lux run <> None -> monitor_rows (shown a) <> [] ->
      ambient_auto_enabled
        (config (shown (_set_ambient_enabled true persist run polls now a)))
      = true
      /\ exists lux,
           AmbientLight.latest_lux
             (_ambient_service (_set_ambient_enabled true persist run polls now a))
           = Some lux
           /\ _last_ambient_applied
                (shown (_set_ambient_enabled true persist run polls now a))
              = Some (_map_lux_to_brightness (Q2R lux))
           /\ forall k row,
                In k (_ambient_target_rows (shown a)) ->
                monitor_rows
                  (shown (_set_ambient_enabled true persist run polls now a)) !! k
                = Some row ->
                slider row = _map_lux_to_brightness (Q2R lux)).
Proof.
  unfold _set_ambient_enabled, AmbientLight.probe_sensor.
  destruct (AmbientLight._query_lux run) as [x|] eqn:Eq.
  - split; [discriminate|]. intros _ Hne.
    set (probed := {| AmbientLight._latest_lux := Some x;
                      AmbientLight._last_error := None |}).
    set (polled := fold_left (fun s r => AmbientLight.poll_once r s) polls probed).
    assert (Hp : AmbientLight.latest_lux polled <> None).
    { apply polls_keep_reading. discriminate. }
    destruct (AmbientLight.latest_lux polled) as [lux|] eqn:El;
      [|destruct Hp; reflexivity].
    set (w1 := reset_ambient
                 (with_config (with_ambient_auto true (config (shown a)))
                    (shown a))).
    assert (H1 : ambient_auto_enabled (config w1) = true) by reflexivity.
    assert (H2 : monitor_rows w1 <> []) by exact Hne.
    rewrite (_handle_ambient_timer_tick_dispatch lux now w1 H1 H2).
    change (_ambient_smoothed_target w1) with (@None Q). cbn [smooth].
    rewrite round_half_even_Z.
    set (raw := _map_lux_to_brightness (Q2R lux)).
    assert (Hraw : 0 <= raw <= 100) by apply clamp_brightness_range.
    rewrite (clamp_brightness_fixed raw Hraw).
    match goal with
    | |- context [ambient_dispatch raw now ?y] => set (w1' := y)
    end.
    assert (H3 : _last_ambient_applied w1' = None) by reflexivity.
    assert (H4 : monitor_rows w1' <> []) by exact Hne.
    destruct (ambient_dispatch_first raw now w1' H3 H4) as (Ha & Hr & Hf).
    assert (Et : _ambient_target_rows w1' = _ambient_target_rows (shown a))
      by reflexivity.
    rewrite Et in Hr.
    assert (Hfinal : forall w2,
               w2 = ambient_dispatch raw now w1' ->
               ambient_auto_enabled
                 (config (if persist then _persist_config w2 else w2)) = true
               /\ _last_ambient_applied
                    (if persist then _persist_config w2 else w2) = Some raw
               /\ monitor_rows (if persist then _persist_config w2 else w2)
                  = loop_rows raw (_ambient_target_rows (shown a)) 0
                      (monitor_rows (shown a))).
    { intros w2 ->. destruct persist;
        cbn [_persist_config emit config _last_ambient_applied monitor_rows];
        rewrite Ha, Hr, Hf; auto. }
    destruct (Hfinal _ eq_refl) as (F1 & F2 & F3).
    cbn [shown _ambient_service].
    split; [exact F1|]. exists lux. split; [exact El|]. split; [exact F2|].
    intros k row Hk Hrow. rewrite F3 in Hrow.
    apply (loop_rows_target raw _ _ k row Hraw Hk Hrow).
  - split; [|intros H; destruct H; reflexivity]. intros _.
    destruct persist; cbn; auto.
Qed.

End EngineFacts.

(* ===================================================================== *)
(** * The sliders of the window *)
(* ===================================================================== *)

Module WindowFacts.
Import Py Models Ui UiHandlers UiAmbient AmbientTickSpec HandlerSpec
  EngineSpec DispatchSpec WindowSpec PyFacts AmbientTickFacts UiFacts
  HandlerFacts EngineFacts.

Lemma tidy_refl (w : window) : tidy w w.
Proof. split; auto. Qed.

Lemma tidy_trans (w1 w2 w3 : window) : tidy w1 w2 -> tidy w2 w3 -> tidy w1 w3.
Proof.
  intros [H1 H2] [H3 H4]. split; [rewrite H3; exact H1|auto].
Qed.

(** A change that leaves the rows and the global slider alone. *)
Lemma tidy_same (w w' : window) :
  monitor_rows w' = monitor_rows w -> global_slider w' = global_slider w ->
  tidy w w'.
Proof.
  intros Hr Hg. split; [rewrite Hr; reflexivity|].
  unfold sliders_in_range. rewrite Hr, Hg. auto.
Qed.

(** Rows that were set through [set_value], or left alone. *)
Lemma tidy_rows (w w' : window) (f : MonitorSliderRow -> MonitorSliderRow) :
  (forall row, monitor (f row) = monitor row) ->
  (forall row, 0 <= slider row <= 100 -> 0 <= slider (f row) <= 100) ->
  monitor_rows w' = map f (monitor_rows w) ->
  (0 <= global_slider w <= 100 -> 0 <= global_slider w' <= 100) ->
  tidy w w'.
Proof.
  intros Hm Hs Hr Hg. split.
  - rewrite Hr, List.map_map. apply List.map_ext. exact Hm.
  - intros [Hrows Hglobal]. split; [|auto].
    rewrite Hr. apply List.Forall_map.
    eapply List.Forall_impl; [|exact Hrows]. exact Hs.
Qed.

Lemma tidy_all (value : Z) (persist : bool) (w : window) :
  tidy w (apply_brightness_to_all value persist w).
Proof.
  destruct (apply_brightness_to_all_fields value persist w) as (Hr & Hg & _).
  apply (tidy_rows _ _ (fun row => set_value row (clamp_brightness value)));
    [reflexivity| |exact Hr|].
  - intros row _. cbn [set_value slider]. apply clamp_brightness_range.
  - intros _. rewrite Hg. apply clamp_brightness_range.
Qed.

Lemma tidy_map (values : gmap string Z) (persist : bool) (w : window) :
  tidy w (apply_brightness_map values persist w).
Proof.
  destruct (apply_brightness_map_global values persist w) as (Hr & _ & Hg).
  apply (tidy_rows _ _ (mapped_row values)); [| |exact Hr|].
  - intros row. unfold mapped_row. destruct (mapped_level values row); reflexivity.
  - intros row Hrow. unfold mapped_row.
    destruct (mapped_level values row); [|exact Hrow].
    cbn [set_value slider]. apply clamp_brightness_range.
  - intros Hglobal.
    destruct (omap (mapped_level values) (monitor_rows w)).
    + rewrite Hg. exact Hglobal.
    + destruct Hg as [-> _]. apply clamp_brightness_range.
Qed.

Lemma tidy_link (linked persist apply_link_brightness : bool) (w : window) :
  tidy w (set_link_mode linked persist apply_link_brightness w).
Proof.
  unfold set_link_mode.
  match goal with
  | |- context [apply_brightness_to_all ?v persist ?x] => set (w2 := x)
  end.
  assert (H2 : tidy w w2).
  { apply tidy_same; subst w2; destruct (Bool.eqb _ _); reflexivity. }
  destruct (linked && apply_link_brightness).
  - eapply tidy_trans; [exact H2|apply tidy_all].
  - destruct persist; [|exact H2].
    eapply tidy_trans; [exact H2|apply tidy_same; reflexivity].
Qed.

Lemma tidy_sync (w : window) : tidy w (_sync_global_slider_to_average w).
Proof.
  unfold _sync_global_slider_to_average.
  destruct (monitor_rows w) as [|row rows] eqn:E; [apply tidy_refl|].
  apply (tidy_rows _ _ (fun row => row)); [reflexivity|auto| |].
  - cbn. rewrite List.map_id. reflexivity.
  - intros _. cbn. apply clamp_brightness_range.
Qed.

Lemma tidy_dispatch (d : Z) (now : Q) (w : window) :
  tidy w (ambient_dispatch d now w).
Proof.
  unfold ambient_dispatch.
  destruct (next_level (_last_ambient_applied w) d) as [level|];
    [|apply tidy_refl].
  destruct (_ambient_target_rows w) as [|t ts] eqn:Et; [apply tidy_refl|].
  rewrite <- Et in *.
  destruct (ambient_loop_full level (_ambient_target_rows w) 0 (monitor_rows w)
              (monitor_levels (config w)) (effects w)) as (lv & ->).
  match goal with
  | |- context [with_effects ?log (with_rows ?rows ?x)] =>
      set (w1 := with_effects log (with_rows rows x))
  end.
  assert (H1 : tidy w w1).
  { split.
    - subst w1. cbn [with_effects with_rows monitor_rows].
      apply loop_rows_monitors.
    - intros [Hrows Hglobal]. split; [|exact Hglobal].
      subst w1. cbn [with_effects with_rows monitor_rows].
      apply List.Forall_forall. intros row' Hin.
      apply list_elem_of_In, list_elem_of_lookup in Hin. destruct Hin as [k Hk].
      apply loop_rows_lookup in Hk. destruct Hk as (row & Hrow & ->).
      destruct (_ && _).
      + cbn [set_value slider]. apply clamp_brightness_range.
      + rewrite List.Forall_forall in Hrows. apply Hrows.
        apply list_elem_of_In, list_elem_of_lookup. exists k. exact Hrow. }
  destruct (negb _ && is_Some_b _); [exact H1|].
  match goal with
  | |- context [if link_mode ?c then ?a else ?b] =>
      set (w3 := if link_mode c then a else b)
  end.
  assert (H3 : tidy w w3).
  { eapply tidy_trans; [exact H1|]. subst w3.
    match goal with |- context [if ?b then _ else _] => destruct b end.
    - apply (tidy_rows _ _ (fun row => row)); [reflexivity|auto| |].
      + cbn. rewrite List.map_id. reflexivity.
      + intros _. cbn. apply clamp_brightness_range.
    - eapply tidy_trans; [|apply tidy_sync]. apply tidy_same; reflexivity. }
  destruct (_ || _); [|exact H3].
  eapply tidy_trans; [exact H3|apply tidy_same; reflexivity].
Qed.

Lemma tidy_tick (lux : option Q) (now : Q) (w : window) :
  tidy w (_handle_ambient_timer_tick lux now w).
Proof.
  unfold _handle_ambient_timer_tick.
  destruct (negb _); [apply tidy_refl|].
  destruct (monitor_rows w) eqn:E; [apply tidy_refl|].
  destruct lux as [lx|]; [|apply tidy_refl].
  eapply tidy_trans; [|apply tidy_dispatch]. apply tidy_same; reflexivity.
Qed.

Lemma tidy_saved (w : window) : tidy w (apply_saved_profile w).
Proof.
  unfold apply_saved_profile.
  destruct (monitor_rows w) as [|row rows] eqn:E; [apply tidy_refl|].
  rewrite <- E. destruct (link_mode (config w)); [apply tidy_all|].
  rewrite saved_loop_spec.
  eapply tidy_trans; [|apply tidy_sync].
  apply (tidy_rows _ _ (restored_row (monitor_levels (config w))));
    [| |reflexivity|auto].
  - intros r. unfold restored_row. destruct (ConfigStore.dict_get _ _); reflexivity.
  - intros r Hr. unfold restored_row.
    destruct (ConfigStore.dict_get _ _); [|exact Hr].
    cbn [set_value slider]. apply clamp_brightness_range.
Qed.

Lemma tidy_slider (monitor_key : string) (value : Z) (w : window) :
  tidy w (_handle_monitor_slider_change monitor_key value w).
Proof.
  unfold _handle_monitor_slider_change.
  destruct (link_mode (config w)); [apply tidy_all|].
  destruct (find_row monitor_key (monitor_rows w)); [|apply tidy_refl].
  eapply tidy_trans; [|apply tidy_same; reflexivity].
  eapply tidy_trans; [|apply tidy_sync]. apply tidy_same; reflexivity.
Qed.

Lemma tidy_perform (a : action) (w : window) : tidy w (perform a w).
Proof.
  destruct a; cbn [perform].
  - apply tidy_all.
  - apply tidy_map.
  - apply tidy_link.
  - apply tidy_tick.
  - apply tidy_saved.
  - unfold _handle_global_slider_change.
    destruct (negb _); [apply tidy_refl|apply tidy_all].
  - apply tidy_link.
  - apply tidy_slider.
Qed.

(** X21.  Whatever the window is asked to do, in whatever order, it keeps
    showing the same monitors, and every slider stays within 0..100. *)
Theorem window_sliders_stay_in_range (actions : list action) (w : window) :
  sliders_in_range w ->
  sliders_in_range (perform_all actions w)
  /\ map monitor (monitor_rows (perform_all actions w))
     = map monitor (monitor_rows w).
Proof.
  intros Hw.
  assert (H : tidy w (perform_all actions w)).
  { revert w Hw. induction actions as [|a actions IH]; intros w Hw.
    - apply tidy_refl.
    - cbn [perform_all fold_left].
      pose proof (tidy_perform a w) as Ha.
      eapply tidy_trans; [exact Ha|]. apply IH. apply Ha, Hw. }
  destruct H as [Hm Hs]. auto.
Qed.

Lemma window_sliders_stay_in_range_witness :
  sliders_in_range three_displays
  /\ sliders_in_range
       (perform_all
          [ MonitorSliderChange "B" 55; LinkToggle true;
            ApplyMap only_first true; ApplySavedProfile ]
          three_displays).
Proof.
  assert (H : sliders_in_range three_displays).
  { split; [repeat constructor; cbn; lia|cbn; lia]. }
  refine (conj H _).
  exact (proj1 (window_sliders_stay_in_range
                  [ MonitorSliderChange "B" 55; LinkToggle true;
                    ApplyMap only_first true; ApplySavedProfile ]
                  three_displays H)).
Defined.

End WindowFacts.

(* ===================================================================== *)
(** * The targets of the controller *)
(* ===================================================================== *)

Module TargetFacts.
Import Py Models Ui App ScheduleSpec DispatchSpec AppSpec TargetSpec PyFacts
  SunScheduleFacts UiFacts AppFacts.

(** ** The targets of a tick *)

Section Controller.
Variable astral_sun : Z -> Q -> Q -> option (option Z * option Z).

Lemma target_brightness_level (sched : ScheduleSettings)
    (rules : option (list ScheduleRule)) (now : Z) (v : Z) :
  SunSchedule.target_brightness astral_sun sched rules now = Some v ->
  0 <= v <= 100.
Proof.
  unfold SunSchedule.target_brightness. intros Hv.
  destruct (negb (enabled sched)); [discriminate|].
  destruct (SunSchedule.active_rules sched rules) as [|r rs] eqn:Ea;
    [discriminate|]. rewrite <- Ea in Hv.
  destruct (_ && _); [discriminate|].
  rewrite evaluate_points_window, code_window_spec in Hv
    by apply sort_points_sorted.
  destruct (spec_window now _) as [w|] eqn:Ew; [|discriminate].
  apply spec_window_levels in Ew;
    [|apply sorted_levels, collect_points_levels].
  cbn [option_map] in Hv. injection Hv as <-.
  destruct (negb (gradual sched)); [apply Ew|].
  unfold SunSchedule._interpolate.
  destruct (fst w), (snd w). destruct (_ <=? _); apply clamp_brightness_range.
Qed.

Lemma targets_loop_lookup (c : controller) (now : Z) (i : nat)
    (rows : list MonitorSliderRow) (acc : gmap string Z) (k : string) (v : Z) :
  targets_loop astral_sun c now i rows acc !! k = Some v ->
  acc !! k = Some v
  \/ exists j row, rows !! j = Some row /\ key (monitor row) = k
                   /\ display_target astral_sun c now (i + j) = Some v.
Proof.
  revert i acc. induction rows as [|row rows IH]; intros i acc; cbn [targets_loop].
  - auto.
  - intros H. apply IH in H. destruct H as [H|(j & r & Hr & Hk & Hv)].
    + assert (Hd : display_target astral_sun c now i
                   = match _rules_for_display_index i c with
                     | [] => None
                     | _ :: _ =>
                         SunSchedule.target_brightness astral_sun
                           (schedule (config c))
                           (Some (_rules_for_display_index i c)) now
                     end).
      { unfold display_target. destruct (_rules_for_display_index i c); reflexivity. }
      destruct (_rules_for_display_index i c) as [|r0 rs] eqn:Er; [left; exact H|].
      rewrite <- Er in *.
      destruct (SunSchedule.target_brightness astral_sun _ _ now) as [value|] eqn:Et;
        [|left; exact H].
      destruct (decide (k = key (monitor row))) as [->|Hne].
      * rewrite lookup_insert_eq in H. injection H as <-.
        right. exists 0%nat, row. rewrite Nat.add_0_r.
        split; [reflexivity|]. split; [reflexivity|]. exact Hd.
      * rewrite lookup_insert_ne in H by congruence. left. exact H.
    + right. exists (S j), r. split; [exact Hr|]. split; [exact Hk|].
      replace (i + S j)%nat with (S i + j)%nat by lia. exact Hv.
Qed.

(** X23.  Every target of a tick is the value the evaluator gives, from the
    rules scoped to it, for a display with that key, and lies within
    0..100. *)
Theorem schedule_targets_of_displays (now : Z) (c : controller) (k : string)
    (v : Z) :
  _calculate_schedule_targets astral_sun now c !! k = Some v ->
  0 <= v <= 100
  /\ exists j row,
       monitor_rows (window c) !! j = Some row /\ key (monitor row) = k
       /\ _rules_for_display_index j c <> []
       /\ SunSchedule.target_brightness astral_sun (schedule (config c))
            (Some (_rules_for_display_index j c)) now = Some v.
Proof.
  unfold _calculate_schedule_targets. intros H.
  apply targets_loop_lookup in H.
  destruct H as [H|(j & row & Hr & Hk & Hv)];
    [rewrite lookup_empty in H; discriminate|].
  cbn [Nat.add] in Hv. unfold display_target in Hv.
  destruct (_rules_for_display_index j c) as [|r rs] eqn:Er; [discriminate|].
  split; [eapply target_brightness_level, Hv|].
  exists j, row. rewrite Er. repeat split; try assumption. discriminate.
Qed.

Lemma rules_for_display_both (c : controller) (i : nat) :
  List.Forall (fun rule => target rule = Both) (rules (schedule (config c))) ->
  _rules_for_display_index i c = rules (schedule (config c)).
Proof.
  unfold _rules_for_display_index.
  generalize (rules (schedule (config c))).
  induction 1 as [|rule rs Hr _ IH]; [reflexivity|].
  cbn [List.filter]. rewrite Hr, IH.
  destruct i as [|[|i]]; reflexivity.
Qed.

(** X24.  Rules that are all for both displays give every display the same
    target, so the link between the displays is never in conflict with
    them. *)
Theorem both_rules_never_conflict (now : Z) (c : controller) :
  List.Forall (fun rule => target rule = Both) (rules (schedule (config c))) ->
  (forall k1 k2 v1 v2,
      _calculate_schedule_targets astral_sun now c !! k1 = Some v1 ->
      _calculate_schedule_targets astral_sun now c !! k2 = Some v2 ->
      v1 = v2)
  /\ _has_link_mode_conflict (_calculate_schedule_targets astral_sun now c) c
     = false.
Proof.
  intros Hboth.
  assert (Hsame : forall k1 k2 v1 v2,
             _calculate_schedule_targets astral_sun now c !! k1 = Some v1 ->
             _calculate_schedule_targets astral_sun now c !! k2 = Some v2 ->
             v1 = v2).
  { intros k1 k2 v1 v2 H1 H2. unfold _calculate_schedule_targets in H1, H2.
    apply targets_loop_lookup in H1, H2.
    destruct H1 as [H1|(j1 & _ & _ & _ & H1)];
      [rewrite lookup_empty in H1; discriminate|].
    destruct H2 as [H2|(j2 & _ & _ & _ & H2)];
      [rewrite lookup_empty in H2; discriminate|].
    unfold display_target in H1, H2.
    rewrite rules_for_display_both in H1, H2 by exact Hboth. congruence. }
  split; [exact Hsame|].
  destruct (_has_link_mode_conflict _ c) eqn:E; [|reflexivity].
  apply conflict_two_targets in E.
  destruct E as (r1 & r2 & v1 & v2 & _ & _ & H1 & H2 & Hne).
  destruct Hne. eapply Hsame; eassumption.
Qed.

(** ** The location look-up *)

Lemma Qabs_self (q : Q) : Qlt_b (Qabs (q - q)) (1 # 10000) = true.
Proof.
  unfold Qlt_b. destruct (Qle_bool _ _) eqn:E; [|reflexivity].
  apply Qle_bool_iff in E.
  assert (H : (Qabs (q - q) == 0)%Q).
  { unfold Qminus. rewrite Qplus_opp_r. reflexivity. }
  rewrite H in E. unfold Qle in E. cbn in E. lia.
Qed.

Lemma resolve_location_cases (detected : option (Q * Q)) (c : controller) :
  _resolve_location_if_needed detected c = c
  \/ exists lat lon,
       detected = Some (lat, lon)
       /\ negb (enabled (schedule (config c))) = false
       /\ negb (_schedule_has_sun_rules c) = false
       /\ _resolve_location_if_needed detected c
          = with_window
              (_persist_config
                 (with_config (with_location lat lon (config c)) (window c)))
              c.
Proof.
  unfold _resolve_location_if_needed.
  destruct (negb (enabled (schedule (config c)))); [left; reflexivity|].
  destruct (negb (_schedule_has_sun_rules c)); [left; reflexivity|].
  destruct detected as [[lat lon]|]; [|left; reflexivity].
  match goal with
  | |- context [if ?b then c else _] => destruct b
  end; [left; reflexivity|].
  right. exists lat, lon. auto.
Qed.

(** X25.  The look-up writes the position it found at most once: run again
    with the same result it changes nothing, and it never touches the
    displays. *)
Theorem resolve_location_settles (detected : option (Q * Q)) (c : controller) :
  _resolve_location_if_needed detected (_resolve_location_if_needed detected c)
  = _resolve_location_if_needed detected c
  /\ monitor_rows (window (_resolve_location_if_needed detected c))
     = monitor_rows (window c)
  /\ (effects (window (_resolve_location_if_needed detected c))
      = effects (window c)
      \/ effects (window (_resolve_location_if_needed detected c))
         = effects (window c)
             ++ [Saved (ConfigStore.save
                          (config (_resolve_location_if_needed detected c)))]).
Proof.
  destruct (resolve_location_cases detected c)
    as [H|(lat & lon & -> & Ee & Es & H)]; rewrite H.
  - auto.
  - split; [|split; [reflexivity|right; reflexivity]].
    match goal with
    | |- context [with_window ?x c] => set (c' := with_window x c)
    end.
    unfold _resolve_location_if_needed.
    assert (E1 : enabled (schedule (config c')) = enabled (schedule (config c)))
      by reflexivity.
    assert (E2 : _schedule_has_sun_rules c' = _schedule_has_sun_rules c)
      by reflexivity.
    rewrite E1, E2, Ee, Es.
    change (latitude (schedule (config c'))) with (Some lat).
    change (longitude (schedule (config c'))) with (Some lon).
    cbv beta iota. rewrite !Qabs_self. reflexivity.
Qed.

End Controller.

Lemma schedule_targets_of_displays_witness :
  _calculate_schedule_targets no_sun noon fresh_controller !! "B"%string = Some 60
  /\ 0 <= 60 <= 100.
Proof.
  assert (H : _calculate_schedule_targets no_sun noon fresh_controller
              !! "B"%string = Some 60) by (vm_compute; reflexivity).
  refine (conj H _).
  exact (proj1 (schedule_targets_of_displays no_sun noon fresh_controller
                  "B"%string 60 H)).
Defined.

Lemma both_rules_never_conflict_witness :
  List.Forall (fun rule => target rule = Both)
    (rules (schedule (config both_controller)))
  /\ _has_link_mode_conflict
       (_calculate_schedule_targets even_days noon both_controller)
       both_controller = false.
Proof.
  assert (H : List.Forall (fun rule => target rule = Both)
                (rules (schedule (config both_controller))))
    by (repeat constructor).
  refine (conj H _).
  exact (proj2 (both_rules_never_conflict even_days noon both_controller H)).
Defined.

End TargetFacts.

(* ===================================================================== *)
(** * Ticks that repeat *)
(* ===================================================================== *)

Module TickFacts.
Import Py Models Ui App ScheduleSpec DispatchSpec AppSpec TargetSpec PyFacts
  SunScheduleFacts UiFacts AppFacts TargetFacts.

(** ** What the parts of a tick depend on *)

Lemma located_settled (detected : option (Q * Q)) (c : controller) :
  needs_fix detected (schedule (config (located detected c))) = false.
Proof.
  unfold located, needs_fix, location_missing, _resolve_location_if_needed,
    _schedule_has_sun_rules.
  destruct (existsb _ (rules (schedule (config c)))) eqn:Es; cbn [andb negb];
    [|rewrite Es; reflexivity].
  destruct (SunSchedule.location_unset (schedule (config c))) eqn:Eu;
    [|rewrite Es, Eu; reflexivity].
  destruct (enabled (schedule (config c))) eqn:Ee; cbn [negb];
    [|rewrite Es, Eu, Ee; reflexivity].
  destruct detected as [[lat lon]|];
    [|rewrite Es, Eu, Ee; reflexivity].
  unfold SunSchedule.location_unset in Eu.
  destruct (latitude (schedule (config c))) eqn:Ela,
           (longitude (schedule (config c))) eqn:Elo;
    cbn in Eu; try discriminate; cbn; rewrite ?Es; reflexivity.
Qed.

Lemma located_fixed (detected : option (Q * Q)) (c : controller) :
  needs_fix detected (schedule (config c)) = false -> located detected c = c.
Proof.
  unfold located, needs_fix, _schedule_has_sun_rules, location_missing.
  destruct (existsb _ (rules (schedule (config c)))) eqn:Es; [|reflexivity].
  destruct (SunSchedule.location_unset (schedule (config c))); [|reflexivity].
  cbn [andb]. unfold _resolve_location_if_needed.
  destruct (enabled (schedule (config c))); [|reflexivity].
  destruct detected as [[lat lon]|]; [discriminate|].
  intros _. cbn [negb]. destruct (negb _); reflexivity.
Qed.

Section Controller.
Variable astral_sun : Z -> Q -> Q -> option (option Z * option Z).

Lemma targets_loop_ext (c c' : controller) (now : Z)
    (rows rows' : list MonitorSliderRow) (i : nat) (acc : gmap string Z) :
  schedule (config c') = schedule (config c) ->
  map monitor rows' = map monitor rows ->
  targets_loop astral_sun c' now i rows' acc
  = targets_loop astral_sun c now i rows acc.
Proof.
  intros Hs. revert rows' i acc.
  induction rows as [|row rows IH]; intros [|row' rows'] i acc Hm;
    try discriminate; [reflexivity|].
  injection Hm as Hm1 Hm2. cbn [targets_loop].
  unfold _rules_for_display_index. rewrite Hs, Hm1. apply IH, Hm2.
Qed.

Lemma calculate_ext (c c' : controller) (now : Z) :
  schedule (config c') = schedule (config c) ->
  map monitor (monitor_rows (window c')) = map monitor (monitor_rows (window c)) ->
  _calculate_schedule_targets astral_sun now c'
  = _calculate_schedule_targets astral_sun now c.
Proof. intros Hs Hm. apply targets_loop_ext; assumption. Qed.

End Controller.

Lemma target_summary_ext (targets : gmap string Z)
    (rows rows' : list MonitorSliderRow) (i : nat) :
  map monitor rows' = map monitor rows ->
  target_summary targets i rows' = target_summary targets i rows.
Proof.
  revert rows' i. induction rows as [|row rows IH]; intros [|row' rows'] i Hm;
    try discriminate; [reflexivity|].
  injection Hm as Hm1 Hm2. cbn [target_summary].
  rewrite Hm1, (IH rows' (S i) Hm2). reflexivity.
Qed.

Lemma active_values_ext (targets : gmap string Z)
    (rows rows' : list MonitorSliderRow) :
  map monitor rows' = map monitor rows ->
  omap (fun row => targets !! key (monitor row)) rows'
  = omap (fun row => targets !! key (monitor row)) rows.
Proof.
  revert rows'. induction rows as [|row rows IH]; intros [|row' rows'] Hm;
    try discriminate; [reflexivity|].
  injection Hm as Hm1 Hm2.
  change (omap (fun r => targets !! key (monitor r)) (row' :: rows'))
    with (match targets !! key (monitor row') with
          | Some l => l :: omap (fun r => targets !! key (monitor r)) rows'
          | None => omap (fun r => targets !! key (monitor r)) rows'
          end).
  change (omap (fun r => targets !! key (monitor r)) (row :: rows))
    with (match targets !! key (monitor row) with
          | Some l => l :: omap (fun r => targets !! key (monitor r)) rows
          | None => omap (fun r => targets !! key (monitor r)) rows
          end).
  rewrite Hm1, (IH rows' Hm2). reflexivity.
Qed.

Lemma conflict_ext (targets : gmap string Z) (c c' : controller) :
  map monitor (monitor_rows (window c')) = map monitor (monitor_rows (window c)) ->
  _has_link_mode_conflict targets c' = _has_link_mode_conflict targets c.
Proof.
  intros Hm. unfold _has_link_mode_conflict.
  rewrite (active_values_ext targets _ _ Hm). reflexivity.
Qed.

Lemma mapped_rows_monitors (values : gmap string Z)
    (rows : list MonitorSliderRow) :
  map monitor (map (mapped_row values) rows) = map monitor rows.
Proof.
  rewrite List.map_map. apply List.map_ext. intros row.
  unfold mapped_row. destruct (mapped_level values row); reflexivity.
Qed.

(** What [apply_brightness_map] leaves alone. *)
Lemma apply_brightness_map_frame (values : gmap string Z) (persist : bool)
    (w : Ui.window) :
  schedule (Ui.config (apply_brightness_map values persist w))
  = schedule (Ui.config w)
  /\ ambient_auto_enabled (Ui.config (apply_brightness_map values persist w))
     = ambient_auto_enabled (Ui.config w)
  /\ link_mode (Ui.config (apply_brightness_map values persist w))
     = link_mode (Ui.config w)
  /\ map monitor (monitor_rows (apply_brightness_map values persist w))
     = map monitor (monitor_rows w)
  /\ _schedule_status_text (apply_brightness_map values persist w)
     = _schedule_status_text w.
Proof.
  unfold apply_brightness_map.
  destruct (map_loop_spec values (monitor_rows w) (monitor_levels (Ui.config w))
              (effects w)) as (lv & ->).
  destruct (omap (mapped_level values) (monitor_rows w)) as [|a applied];
    [|destruct persist]; cbn; rewrite mapped_rows_monitors; auto.
Qed.

Lemma set_link_mode_off_frame (w : Ui.window) :
  schedule (Ui.config (set_link_mode false true false w)) = schedule (Ui.config w)
  /\ ambient_auto_enabled (Ui.config (set_link_mode false true false w))
     = ambient_auto_enabled (Ui.config w)
  /\ link_mode (Ui.config (set_link_mode false true false w)) = false
  /\ monitor_rows (set_link_mode false true false w) = monitor_rows w
  /\ _schedule_status_text (set_link_mode false true false w)
     = _schedule_status_text w.
Proof.
  unfold set_link_mode. cbn [andb]. destruct (Bool.eqb _ _); cbn; auto.
Qed.

(** What the dispatch of some targets leaves behind. *)
Lemma dispatch_targets_frame (force : bool) (targets : gmap string Z)
    (c : controller) :
  schedule (config (dispatch_targets force targets c)) = schedule (config c)
  /\ ambient_auto_enabled (config (dispatch_targets force targets c))
     = ambient_auto_enabled (config c)
  /\ map monitor (monitor_rows (window (dispatch_targets force targets c)))
     = map monitor (monitor_rows (window c))
  /\ link_mode (config (dispatch_targets force targets c))
     && _has_link_mode_conflict targets (dispatch_targets force targets c)
     = false
  /\ _expected_auto_targets (dispatch_targets force targets c) = targets
  /\ _schedule_status_text (window (dispatch_targets force targets c))
     = StatusActive (target_summary targets 0 (monitor_rows (window c))).
Proof.
  assert (Hconf : forall r,
             map monitor (monitor_rows (window r))
             = map monitor (monitor_rows (window c)) ->
             link_mode (config r)
             = (if link_mode (config c) && _has_link_mode_conflict targets c
                then false else link_mode (config c)) ->
             link_mode (config r) && _has_link_mode_conflict targets r = false).
  { intros r Hm Hl. rewrite (conflict_ext targets c r Hm), Hl.
    destruct (link_mode (config c)), (_has_link_mode_conflict targets c);
      reflexivity. }
  unfold dispatch_targets.
  set (c1 := if link_mode (config c) && _has_link_mode_conflict targets c
             then with_window (set_link_mode false true false (window c)) c
             else c).
  assert (H1 : schedule (config c1) = schedule (config c)
               /\ ambient_auto_enabled (config c1)
                  = ambient_auto_enabled (config c)
               /\ monitor_rows (window c1) = monitor_rows (window c)
               /\ link_mode (config c1)
                  = (if link_mode (config c) && _has_link_mode_conflict targets c
                     then false else link_mode (config c))
               /\ _expected_auto_targets c1 = _expected_auto_targets c).
  { subst c1. destruct (link_mode (config c) && _has_link_mode_conflict targets c).
    - destruct (set_link_mode_off_frame (window c)) as (Ha & Hb & Hc & Hd & _).
      unfold config. cbn [with_window window _expected_auto_targets].
      rewrite Ha, Hb, Hc, Hd. auto.
    - auto. }
  destruct H1 as (Hs & Ha & Hr & Hl & He).
  destruct (negb force && bool_decide (targets = _expected_auto_targets c1)) eqn:Eg.
  - apply andb_prop in Eg. destruct Eg as [_ Et].
    apply bool_decide_eq_true_1 in Et.
    unfold config in *.
    cbn [with_window window _expected_auto_targets set_schedule_status
         with_status Ui.config monitor_rows _schedule_status_text].
    rewrite Hs, Ha, Hr. repeat split; auto.
    apply (Hconf (with_window
                    (set_schedule_status
                       (StatusActive (target_summary targets 0
                                        (monitor_rows (window c))))
                       (window c1)) c1)).
    + cbn. rewrite Hr. reflexivity.
    + exact Hl.
  - destruct (apply_brightness_map_frame targets true (window c1))
      as (Fa & Fb & Fc & Fd & _).
    unfold apply_schedule_targets, config in *.
    cbn [with_window with_expected window _expected_auto_targets
         set_schedule_status with_status Ui.config monitor_rows
         _schedule_status_text].
    rewrite Fa, Fb, Fd, Hs, Ha, Hr. repeat split; auto.
    apply (Hconf (with_window
                    (set_schedule_status
                       (StatusActive (target_summary targets 0
                                        (monitor_rows (window c))))
                       (apply_brightness_map targets true (window c1)))
                    (with_expected targets c1))).
    + cbn [with_window window set_schedule_status with_status monitor_rows].
      rewrite Fd, Hr. reflexivity.
    + unfold config. cbn [with_window window set_schedule_status with_status
                          Ui.config].
      rewrite Fc. exact Hl.
Qed.

Lemma status_eta (s : status) (c : controller) :
  _schedule_status_text (window c) = s ->
  with_window (set_schedule_status s (window c)) c = c.
Proof.
  destruct c as [w e]. destruct w. cbn. intros <-. reflexivity.
Qed.

Lemma located_frame (detected : option (Q * Q)) (c : controller) :
  ambient_auto_enabled (config (located detected c))
  = ambient_auto_enabled (config c)
  /\ enabled (schedule (config (located detected c)))
     = enabled (schedule (config c))
  /\ monitor_rows (window (located detected c)) = monitor_rows (window c).
Proof.
  unfold located. destruct (_ && _); [|auto].
  destruct (resolve_location_cases detected c) as [H|(lat & lon & _ & _ & _ & H)];
    rewrite H; auto.
Qed.

Section Tick.
Variable astral_sun : Z -> Q -> Q -> option (option Z * option Z).

Lemma tick_unfold (force : bool) (now : Z) (detected : option (Q * Q))
    (c : controller) :
  is_ambient_auto_enabled (window c) = false ->
  enabled (schedule (config c)) = true ->
  _update_schedule_now astral_sun force now detected c
  = if bool_decide (tick_targets astral_sun now detected c = ∅)
    then with_window
           (set_schedule_status
              (if _schedule_has_sun_rules (located detected c)
                  && location_missing (located detected c)
               then StatusWaitingForLocation else StatusNoTarget)
              (window (located detected c)))
           (located detected c)
    else dispatch_targets force (tick_targets astral_sun now detected c)
           (located detected c).
Proof.
  intros Ha He. unfold _update_schedule_now. rewrite Ha, He. reflexivity.
Qed.

(** X26.  A tick that is not forced and follows a tick at the same instant,
    with the same answer of the location look-up, changes nothing: no
    display, no file, no field of the controller. *)
Theorem schedule_tick_idempotent (force : bool) (now : Z)
    (detected : option (Q * Q)) (c : controller) :
  _update_schedule_now astral_sun false now detected
    (_update_schedule_now astral_sun force now detected c)
  = _update_schedule_now astral_sun force now detected c.
Proof.
  destruct (is_ambient_auto_enabled (window c)) eqn:Ha.
  { unfold _update_schedule_now. rewrite Ha.
    destruct c as [w e]. destruct w.
    unfold is_ambient_auto_enabled, config in *. cbn in *.
    destruct (enabled (schedule config0)) eqn:Ee; cbn; rewrite Ha, ?Ee; reflexivity. }
  destruct (enabled (schedule (config c))) eqn:Ee.
  2:{ unfold _update_schedule_now. rewrite Ha, Ee. cbn [negb].
      destruct c as [w e]. destruct w.
      unfold is_ambient_auto_enabled, config in *. cbn in *.
      rewrite Ha, Ee. reflexivity. }
  rewrite (tick_unfold force now detected c Ha Ee).
  set (c1 := located detected c).
  set (targets := tick_targets astral_sun now detected c).
  destruct (located_frame detected c) as (La & Le & _). fold c1 in La, Le.
  pose proof (located_settled detected c) as Hfix. fold c1 in Hfix.
  assert (Hnext : forall r,
             schedule (config r) = schedule (config c1) ->
             ambient_auto_enabled (config r) = ambient_auto_enabled (config c1) ->
             map monitor (monitor_rows (window r))
             = map monitor (monitor_rows (window c1)) ->
             is_ambient_auto_enabled (window r) = false
             /\ enabled (schedule (config r)) = true
             /\ located detected r = r
             /\ tick_targets astral_sun now detected r = targets).
  { intros r Hs Hamb Hm.
    assert (Hl : located detected r = r)
      by (apply located_fixed; rewrite Hs; exact Hfix).
    split; [|split; [|split]].
    - unfold is_ambient_auto_enabled. fold (config r). rewrite Hamb, La. exact Ha.
    - rewrite Hs, Le. exact Ee.
    - exact Hl.
    - unfold tick_targets. rewrite Hl. apply calculate_ext; assumption. }
  destruct (bool_decide (targets = ∅)) eqn:Ed.
  - set (text := if _schedule_has_sun_rules c1 && location_missing c1
                 then StatusWaitingForLocation else StatusNoTarget).
    set (r := with_window (set_schedule_status text (window c1)) c1).
    destruct (Hnext r eq_refl eq_refl eq_refl) as (Ra & Re & Rl & Rt).
    rewrite (tick_unfold false now detected r Ra Re), Rt, Ed, Rl.
    apply status_eta. reflexivity.
  - destruct (dispatch_targets_frame force targets c1)
      as (Ds & Da & Dm & Dc & Dx & Dt).
    set (r := dispatch_targets force targets c1) in *.
    destruct (Hnext r Ds Da Dm) as (Ra & Re & Rl & Rt).
    rewrite (tick_unfold false now detected r Ra Re), Rt, Ed, Rl.
    unfold dispatch_targets at 1. rewrite Dc, Dx.
    rewrite bool_decide_eq_true_2 by reflexivity. cbn [negb andb].
    rewrite (target_summary_ext targets _ _ 0 Dm).
    apply status_eta. exact Dt.
Qed.

End Tick.

End TickFacts.

(* ===================================================================== *)
(** * Picture controls *)
(* ===================================================================== *)

Module ServiceFacts.
Import Py Models BrightnessService ServiceSpec.
Import ConfigStore.

Lemma code_in_spec (code : Z) (codes : list Z) :
  code_in code codes = true <-> In code codes.
Proof.
  unfold code_in. rewrite List.existsb_exists. split.
  - intros (x & Hx & E). apply Z.eqb_eq in E. subst. exact Hx.
  - intros H. exists code. split; [exact H|apply Z.eqb_refl].
Qed.

Lemma code_in_false (code : Z) (codes : list Z) :
  code_in code codes = false <-> ~ In code codes.
Proof.
  rewrite <- code_in_spec. destruct (code_in code codes); split; congruence.
Qed.

(** ** The candidates *)

Lemma order_checked :
  forallb _looks_like_picture_code _PICTURE_CODE_ORDER = true
  /\ List.NoDup _PICTURE_CODE_ORDER.
Proof.
  split; [reflexivity|].
  unfold _PICTURE_CODE_ORDER.
  repeat (constructor; [cbn; intuition lia|]). constructor.
Qed.

Lemma extend_candidates_ok (capabilities_codes candidates : list Z) :
  List.NoDup candidates ->
  List.Forall (fun code => _looks_like_picture_code code = true) candidates ->
  List.NoDup (extend_candidates capabilities_codes candidates)
  /\ List.Forall (fun code => _looks_like_picture_code code = true)
       (extend_candidates capabilities_codes candidates).
Proof.
  revert candidates.
  induction capabilities_codes as [|code rest IH]; intros candidates Hn Hl.
  - auto.
  - cbn [extend_candidates].
    destruct (code_in code candidates) eqn:Ei; [apply IH; assumption|].
    destruct (_looks_like_picture_code code) eqn:El; cbn [negb];
      [|apply IH; assumption].
    apply IH.
    + apply List.NoDup_app; [exact Hn|repeat constructor; auto|].
      intros x Hx [<-|[]]. apply code_in_false in Ei. contradiction.
    + apply List.Forall_app. split; [exact Hl|repeat constructor; exact El].
Qed.

(** X28.  The codes tried for a monitor are never none, hold no code twice
    and are all codes of picture controls; without the capabilities
    they are the fixed list. *)
Theorem candidate_picture_codes_ok (announced : list Z)
    (include_capabilities : bool) :
  _candidate_picture_codes announced include_capabilities <> []
  /\ List.NoDup (_candidate_picture_codes announced include_capabilities)
  /\ List.Forall (fun code => _looks_like_picture_code code = true)
       (_candidate_picture_codes announced include_capabilities)
  /\ _candidate_picture_codes announced false = _PICTURE_CODE_ORDER.
Proof.
  destruct order_checked as [Hl Hn]. rewrite List.forallb_forall in Hl.
  assert (Hall : List.Forall (fun code => _looks_like_picture_code code = true)
                   _PICTURE_CODE_ORDER)
    by (apply List.Forall_forall; exact Hl).
  assert (Hne : _PICTURE_CODE_ORDER <> []) by discriminate.
  unfold _candidate_picture_codes.
  destruct (if include_capabilities then announced else []) as [|c cs] eqn:Ec;
    [auto|].
  rewrite <- Ec.
  set (capabilities_codes := if include_capabilities then announced else []).
  destruct (extend_candidates_ok capabilities_codes
              (List.filter (fun code => code_in code capabilities_codes)
                 _PICTURE_CODE_ORDER)) as [En El].
  { apply List.NoDup_filter, Hn. }
  { apply List.Forall_forall. intros x Hx. apply List.filter_In in Hx.
    apply Hl, Hx. }
  destruct (extend_candidates _ _) as [|f fs]; [auto|].
  split; [discriminate|auto].
Qed.

(** ** The controls *)

Lemma read_controls_codes (read : Z -> option (Z * Z))
    (candidate_codes seen_codes : list Z) :
  List.NoDup (map code (read_controls read candidate_codes seen_codes))
  /\ forall control,
       In control (read_controls read candidate_codes seen_codes) ->
       ~ In (code control) seen_codes
       /\ In (code control) candidate_codes
       /\ control_ok control
       /\ exists current reported,
            read (code control) = Some (current, reported) /\ 0 < reported
            /\ maximum control = Z.max reported current
            /\ value control = Z.max 0 current.
Proof.
  revert seen_codes.
  induction candidate_codes as [|c rest IH]; intros seen_codes.
  - split; [constructor|intros control []].
  - cbn [read_controls].
    assert (Hskip : forall seen,
               (forall x, In x seen_codes -> In x seen) ->
               List.NoDup (map code (read_controls read rest seen))
               /\ forall control,
                    In control (read_controls read rest seen) ->
                    ~ In (code control) seen_codes
                    /\ In (code control) (c :: rest)
                    /\ control_ok control
                    /\ exists current reported,
                         read (code control) = Some (current, reported)
                         /\ 0 < reported
                         /\ maximum control = Z.max reported current
                         /\ value control = Z.max 0 current).
    { intros seen Hsub. destruct (IH seen) as [Hn Hc]. split; [exact Hn|].
      intros control Hin. destruct (Hc control Hin) as (H1 & H2 & H3 & H4).
      split; [intros H; apply H1, Hsub, H|]. split; [right; exact H2|]. auto. }
    destruct (code_in c seen_codes) eqn:Es; [apply Hskip; auto|].
    assert (Hsub : forall x, In x seen_codes -> In x (c :: seen_codes))
      by (intros x Hx; right; exact Hx).
    destruct (read c) as [[current reported]|] eqn:Er; [|apply Hskip, Hsub].
    destruct (Z.leb_spec reported 0) as [Hle|Hlt]; [apply Hskip, Hsub|].
    destruct (Hskip (c :: seen_codes) Hsub) as [Hn Hc].
    destruct (IH (c :: seen_codes)) as [_ Hc'].
    split.
    + cbn [map code]. constructor; [|exact Hn].
      intros Hin. apply List.in_map_iff in Hin. destruct Hin as (x & Ex & Hx).
      destruct (Hc' x Hx) as (Hnot & _). apply Hnot. left. symmetry. exact Ex.
    + intros control [<-|Hin]; [|apply Hc, Hin].
      cbn [code minimum maximum value].
      split; [apply code_in_false, Es|]. split; [left; reflexivity|].
      split; [unfold control_ok; cbn [minimum maximum value]; lia|].
      exists current, reported. repeat split; try assumption; lia.
Qed.

Lemma update_cached_codes (controls : list PictureControl) (c v : Z) :
  map code (update_cached controls c v) = map code controls.
Proof.
  induction controls as [|control rest IH]; [reflexivity|].
  cbn [update_cached]. destruct (negb _); cbn [map code]; [rewrite IH|]; reflexivity.
Qed.

Lemma update_cached_ok (controls : list PictureControl) (c v : Z) :
  controls_ok controls -> controls_ok (update_cached controls c v).
Proof.
  intros [Hn Hall]. split; [rewrite update_cached_codes; exact Hn|].
  clear Hn. induction Hall as [|control rest Hc Hrest IH]; [constructor|].
  cbn [update_cached]. destruct (negb _).
  - constructor; assumption.
  - constructor; [|assumption].
    destruct Hc as (H1 & H2 & H3). unfold control_ok.
    cbn [minimum maximum value]. lia.
Qed.

Lemma dict_get_Forall {V} (P : string * V -> Prop) (k : string) (v : V)
    (d : list (string * V)) :
  List.Forall P d -> dict_get k d = Some v -> exists k', P (k', v).
Proof.
  induction 1 as [|[k0 v0] d Hp _ IH]; [discriminate|].
  cbn [dict_get]. destruct (String.eqb k k0).
  - intros [= <-]. exists k0. exact Hp.
  - exact IH.
Qed.

Lemma dict_set_Forall {V} (P : string * V -> Prop) (k : string) (v : V)
    (d : list (string * V)) :
  P (k, v) -> List.Forall P d -> List.Forall P (dict_set k v d).
Proof.
  intros Hv. induction 1 as [|[k0 v0] d Hp Hd IH]; cbn [dict_set].
  - repeat constructor. exact Hv.
  - destruct (String.eqb k k0); constructor; assumption.
Qed.

(** X29.  Every control handed out or cached is well formed: it goes from 0
    to a positive maximum, its value lies in between, and no code
    appears twice in a list.  Listing the controls and setting one keep
    the cache that way. *)
Theorem picture_controls_stay_well_formed (monitor : Ui.MonitorHandle)
    (c : cache) :
  cache_ok c ->
  (forall use_cache include_capabilities has_handle announced read,
      controls_ok
        (fst (list_picture_controls monitor use_cache include_capabilities
                has_handle announced read c))
      /\ cache_ok
           (snd (list_picture_controls monitor use_cache include_capabilities
                   has_handle announced read c)))
  /\ (forall code value has_handle written,
        cache_ok (snd (set_picture_control monitor code value has_handle
                         written c)))
  /\ (forall include_capabilities announced read control,
        In control
          (fst (list_picture_controls monitor false include_capabilities true
                  announced read c)) ->
        exists current reported,
          read (BrightnessService.code control) = Some (current, reported)
          /\ 0 < reported
          /\ maximum control = Z.max reported current
          /\ BrightnessService.value control = Z.max 0 current).
Proof.
  intros Hc.
  assert (Hnil : controls_ok []) by (split; constructor).
  split; [|split].
  3:{ intros include_capabilities announced read control.
      unfold list_picture_controls.
      destruct (negb (is_vcp monitor)); [intros []|]. cbn [negb fst].
      intros Hin.
      destruct (read_controls_codes read
                  (_candidate_picture_codes announced include_capabilities) [])
        as [_ Hcs].
      apply (Hcs control Hin). }
  - intros use_cache include_capabilities has_handle announced read.
    unfold list_picture_controls.
    destruct (negb (is_vcp monitor)); [auto|].
    destruct (if use_cache then dict_get (Ui.key monitor) c else None)
      as [cached|] eqn:Eg.
    + cbn [fst snd]. split; [|exact Hc].
      destruct use_cache; [|discriminate].
      destruct (dict_get_Forall _ _ _ _ Hc Eg) as [k' Hk]. exact Hk.
    + destruct (negb has_handle); [auto|]. cbn [fst snd].
      assert (Hok : controls_ok
                      (read_controls read
                         (_candidate_picture_codes announced include_capabilities)
                         [])).
      { destruct (read_controls_codes read
                    (_candidate_picture_codes announced include_capabilities) [])
          as [Hn Hcs].
        split; [exact Hn|]. apply List.Forall_forall. intros x Hx.
        apply (Hcs x Hx). }
      split; [exact Hok|]. apply dict_set_Forall; assumption.
  - intros code value has_handle written. unfold set_picture_control.
    destruct (negb (is_vcp monitor)); [exact Hc|].
    destruct (negb has_handle); [exact Hc|].
    destruct (negb written); [exact Hc|].
    destruct (dict_get (Ui.key monitor) c) as [cached|] eqn:Eg; [|exact Hc].
    cbn [snd]. apply dict_set_Forall; [|exact Hc].
    cbn [snd]. apply update_cached_ok.
    destruct (dict_get_Forall _ _ _ _ Hc Eg) as [k' Hk]. exact Hk.
Qed.

Lemma picture_controls_stay_well_formed_witness :
  cache_ok []
  /\ map (fun control => (code control, maximum control, value control))
         (fst (list_picture_controls vcp_monitor true false true [] answers []))
     = [(16, 120, 120); (18, 100, 40)]
  /\ controls_ok
       (fst (list_picture_controls vcp_monitor true false true [] answers [])).
Proof.
  assert (H : cache_ok []) by constructor.
  refine (conj H (conj eq_refl _)).
  exact (proj1 (proj1 (picture_controls_stay_well_formed vcp_monitor [] H)
                  true false true [] answers)).
Defined.

End ServiceFacts.

(* ===================================================================== *)
(** * The display Auto Light drives *)
(* ===================================================================== *)

Module WmiFacts.
Import Py Models Ui BrightnessService WmiSpec.

(** ** Blanks around a text hide no occurrence of a word *)

Lemma append_cons (c : ascii) (a b : string) :
  (String c a ++ b)%string = String c (a ++ b)%string.
Proof. reflexivity. Qed.

Lemma append_nil (b : string) : (EmptyString ++ b)%string = b.
Proof. reflexivity. Qed.

Lemma prefix_empty (s : string) : String.prefix EmptyString s = true.
Proof. destruct s; reflexivity. Qed.

Lemma prefix_blank (needle s : string) :
  needle <> EmptyString -> solid needle -> blank s ->
  String.prefix needle s = false.
Proof.
  destruct needle as [|a needle]; [intros H; destruct H; reflexivity|].
  intros _ Hn Hs. destruct s as [|c s]; [reflexivity|].
  cbn [String.prefix]. unfold solid, blank in *.
  cbn [list_ascii_of_string forallb] in Hn, Hs.
  apply andb_prop in Hn. destruct Hn as [Ha _].
  apply andb_prop in Hs. destruct Hs as [Hc _].
  destruct (ascii_dec a c) as [->|_]; [|reflexivity].
  rewrite Hc in Ha. discriminate.
Qed.

Lemma prefix_padded (needle u s : string) :
  needle <> EmptyString -> solid needle -> blank s ->
  String.prefix needle (u ++ s) = String.prefix needle u.
Proof.
  revert u. induction needle as [|a needle IH]; intros u Hne Hn Hs.
  - destruct Hne. reflexivity.
  - destruct u as [|b u].
    + rewrite append_nil, prefix_blank by assumption. reflexivity.
    + rewrite append_cons. cbn [String.prefix].
      destruct (ascii_dec a b); [|reflexivity].
      destruct needle as [|a' needle'].
      * rewrite !prefix_empty. reflexivity.
      * apply IH; [discriminate| |exact Hs].
        unfold solid in *. cbn [list_ascii_of_string forallb] in Hn.
        apply andb_prop in Hn. apply Hn.
Qed.

Lemma contains_blank (needle s : string) :
  needle <> EmptyString -> solid needle -> blank s -> contains needle s = false.
Proof.
  intros Hne Hn. induction s as [|c s IH]; intros Hs.
  - cbn [contains]. rewrite prefix_blank by assumption. reflexivity.
  - cbn [contains]. rewrite prefix_blank by assumption.
    apply IH. unfold blank in *. cbn [list_ascii_of_string forallb] in Hs.
    apply andb_prop in Hs. apply Hs.
Qed.

Lemma contains_after_blanks (needle s t : string) :
  needle <> EmptyString -> solid needle -> blank s ->
  contains needle (s ++ t) = contains needle t.
Proof.
  intros Hne Hn. induction s as [|c s IH]; intros Hs; [reflexivity|].
  rewrite append_cons. cbn [contains].
  unfold blank in Hs. cbn [list_ascii_of_string forallb] in Hs.
  apply andb_prop in Hs. destruct Hs as [Hc Hs].
  rewrite (IH Hs).
  destruct needle as [|a needle]; [destruct Hne; reflexivity|].
  cbn [String.prefix].
  destruct (ascii_dec a c) as [->|_]; [|reflexivity].
  unfold solid in Hn. cbn [list_ascii_of_string forallb] in Hn.
  apply andb_prop in Hn. destruct Hn as [Ha _]. rewrite Hc in Ha. discriminate.
Qed.

Lemma contains_before_blanks (needle t s : string) :
  needle <> EmptyString -> solid needle -> blank s ->
  contains needle (t ++ s) = contains needle t.
Proof.
  intros Hne Hn Hs. induction t as [|c t IH].
  - rewrite append_nil, contains_blank by assumption.
    cbn [contains]. destruct needle; [destruct Hne; reflexivity|reflexivity].
  - rewrite append_cons. cbn [contains]. rewrite IH.
    rewrite <- append_cons.
    rewrite prefix_padded by assumption. reflexivity.
Qed.

(** ** [strip] and [lower] *)

Lemma lstrip_split (l : list ascii) :
  exists sp, forallb is_space sp = true /\ l = sp ++ lstrip l.
Proof.
  induction l as [|c l (sp & Hsp & IH)]; [exists []; auto|].
  cbn [lstrip]. destruct (is_space c) eqn:E.
  - exists (c :: sp). cbn [forallb app]. rewrite E, Hsp. split; [reflexivity|].
    f_equal. exact IH.
  - exists []. auto.
Qed.

Lemma rstrip_split (l : list ascii) :
  exists sp, forallb is_space sp = true /\ l = rstrip l ++ sp.
Proof.
  unfold rstrip. destruct (lstrip_split (rev l)) as (sp & Hsp & E).
  exists (rev sp). split.
  - rewrite SensorFacts.forallb_rev. exact Hsp.
  - rewrite <- List.rev_app_distr, <- E, List.rev_involutive. reflexivity.
Qed.

Lemma string_of_app (a b : list ascii) :
  string_of_list_ascii (a ++ b)
  = (string_of_list_ascii a ++ string_of_list_ascii b)%string.
Proof.
  induction a as [|c a IH]; [reflexivity|].
  cbn [app string_of_list_ascii]. rewrite IH, append_cons. reflexivity.
Qed.

(** A text is its stripped form between blanks. *)
Lemma strip_split (s : string) :
  exists before after,
    blank before /\ blank after /\ s = (before ++ strip s ++ after)%string.
Proof.
  destruct (lstrip_split (list_ascii_of_string s)) as (sp1 & H1 & E1).
  destruct (rstrip_split (lstrip (list_ascii_of_string s))) as (sp2 & H2 & E2).
  exists (string_of_list_ascii sp1), (string_of_list_ascii sp2).
  unfold blank. rewrite !list_ascii_of_string_of_list_ascii.
  split; [exact H1|]. split; [exact H2|].
  unfold strip. rewrite <- !string_of_app, <- E2, <- E1.
  symmetry. apply string_of_list_ascii_of_string.
Qed.

Lemma lower_app (a b : string) : lower (a ++ b) = (lower a ++ lower b)%string.
Proof.
  induction a as [|c a IH]; [reflexivity|].
  rewrite append_cons. cbn [lower]. rewrite IH, append_cons. reflexivity.
Qed.

Lemma lower_space (c : ascii) : is_space (lower_ascii c) = is_space c.
Proof. destruct c as [[] [] [] [] [] [] [] []]; reflexivity. Qed.

Lemma lower_blank (s : string) : blank s -> blank (lower s).
Proof.
  unfold blank. induction s as [|c s IH]; [auto|].
  cbn [lower list_ascii_of_string forallb]. rewrite lower_space.
  intros H. apply andb_prop in H. destruct H as [-> H]. apply IH, H.
Qed.

(** Whether a lower-case word occurs in a text does not depend on the
    blanks around the text. *)
Lemma contains_lower_strip (needle s : string) :
  needle <> EmptyString -> solid needle ->
  contains needle (lower (strip s)) = contains needle (lower s).
Proof.
  intros Hne Hn. destruct (strip_split s) as (before & after & Hb & Ha & E).
  rewrite E at 2. rewrite !lower_app.
  rewrite contains_after_blanks by (try apply lower_blank; assumption).
  rewrite contains_before_blanks by (try apply lower_blank; assumption).
  reflexivity.
Qed.

(** X30.  The display Auto Light drives when the displays are not linked is
    one the brightness service addresses through WMI: the window and the
    service tell such a display by the same test. *)
Theorem ambient_display_is_wmi (row : MonitorSliderRow) :
  is_wmi row = true
  <-> _normalize_method (method_name (monitor row)) = Some "wmi"%string.
Proof.
  unfold is_wmi, _normalize_method.
  destruct (method_name (monitor row)) as [text|]; [|split; discriminate].
  rewrite (contains_lower_strip "wmi" text) by (try discriminate; reflexivity).
  destruct text as [|c text]; [split; discriminate|].
  destruct (contains "wmi" (lower (String c text))).
  - split; reflexivity.
  - split; [discriminate|]. destruct (contains "vcp" _); discriminate.
Qed.

End WmiFacts.

(* ===================================================================== *)
(** * The theme *)
(* ===================================================================== *)

Module ThemeFacts.
Import Py Models ConfigStore ConfigSpec App Themes AppTheme ConfigStoreFacts
  ParseFacts.

Lemma theme_options_fixed :
  forallb (fun option => String.eqb (lower (strip option)) option) THEME_OPTIONS
  = true.
Proof. reflexivity. Qed.

Lemma normalize_theme_name_option (value : option string) :
  In (normalize_theme_name value) THEME_OPTIONS.
Proof.
  unfold normalize_theme_name.
  destruct (existsb _ THEME_OPTIONS) eqn:E.
  - apply List.existsb_exists in E. destruct E as (x & Hx & E).
    apply String.eqb_eq in E. rewrite E. exact Hx.
  - right. left. reflexivity.
Qed.

Lemma normalize_theme_name_fixed (option : string) :
  In option THEME_OPTIONS -> normalize_theme_name (Some option) = option.
Proof.
  intros H. unfold THEME_OPTIONS in H. cbn [In] in H.
  repeat (destruct H as [<-|H]; [reflexivity|]). destruct H.
Qed.

(** X27.  The theme name is always brought to one of the four themes, and a
    name that went through stays as it is.  The configuration that
    [load] returns always carries the dark theme, whatever the file
    holds, so that is the theme the controller applies when it
    starts. *)
Theorem applied_theme_is_an_option :
  (forall value, In (normalize_theme_name value) THEME_OPTIONS)
  /\ (forall value,
        normalize_theme_name (Some (normalize_theme_name value))
        = normalize_theme_name value)
  /\ (forall (c : controller),
        theme (config (_apply_theme (_apply_theme c)))
        = theme (config (_apply_theme c)))
  /\ (forall (f : file) (cfg : AppConfig),
        fst (load f) = inr cfg ->
        normalize_theme_name (Some (theme cfg)) = THEME_DARK).
Proof.
  split; [exact normalize_theme_name_option|].
  split; [intros value; apply normalize_theme_name_fixed,
                          normalize_theme_name_option|].
  split.
  - intros c. unfold _apply_theme, config.
    cbn [with_window window Ui.with_config Ui.config with_theme theme].
    apply normalize_theme_name_fixed, normalize_theme_name_option.
  - intros f cfg H.
    assert (Ht : theme cfg = "dark"%string).
    { destruct f as [| |doc]; cbn [load fst] in H.
      - injection H as <-. reflexivity.
      - injection H as <-. reflexivity.
      - destruct doc; try discriminate.
        apply _parse_normal in H. apply H. }
    rewrite Ht. reflexivity.
Qed.

End ThemeFacts.

(* ===================================================================== *)
(** * The list of displays *)
(* ===================================================================== *)

Module RefreshFacts.
Import Py Models Ui UiHandlers UiRefresh HandlerSpec RefreshSpec PyFacts
  HandlerFacts.

(** X22.  Listing the displays without applying the profile, while Auto
    Light is off, only reads: the service is asked to set nothing and no
    file is written.  Every display shows its current level when it
    could be read, else its saved level, else the saved global level;
    the global slider shows their rounded average. *)
Theorem refresh_monitors_only_reads
    (listed : option (list (MonitorHandle * option Z)))
    (lux : option Q) (now : Q) (w : window) :
  ambient_auto_enabled (config w) = false ->
  effects (refresh_monitors false listed lux now w) = effects w
  /\ monitor_levels (config (refresh_monitors false listed lux now w))
     = monitor_levels (config w)
  /\ monitor_rows (refresh_monitors false listed lux now w)
     = map (new_row false (config w))
           (match listed with Some found => found | None => [] end)
  /\ (forall monitor level,
        In (monitor, Some level)
           (match listed with Some found => found | None => [] end) ->
        In {| Ui.monitor := monitor; slider := clamp_brightness (PyInt level) |}
           (monitor_rows (refresh_monitors false listed lux now w)))
  /\ (monitor_rows (refresh_monitors false listed lux now w) <> [] ->
      global_slider (refresh_monitors false listed lux now w)
      = clamp_brightness
          (PyInt (rounded_average
                    (map slider
                         (monitor_rows
                            (refresh_monitors false listed lux now w)))))).
Proof.
  intros Ha. unfold refresh_monitors.
  destruct (match listed with Some found => found | None => [] end)
    as [|m ms] eqn:Em.
  - cbn [with_rows effects config monitor_rows map].
    split; [reflexivity|]. split; [reflexivity|]. split; [reflexivity|].
    split; [intros monitor level []|]. intros H. destruct H. reflexivity.
  - set (rows := map (new_row false (config w)) (m :: ms)).
    set (filled := with_rows rows (with_rows [] w)).
    assert (Hne : monitor_rows filled <> []) by discriminate.
    destruct (sync_average filled Hne) as (Hg & _ & Hr & He & Hl & _).
    destruct (EngineFacts.sync_flags filled) as (Hf & _ & _).
    assert (Hoff : ambient_auto_enabled
                     (config (_sync_global_slider_to_average filled)) = false)
      by (rewrite Hf; exact Ha).
    rewrite Hoff, He, Hl, Hr, Hg.
    split; [reflexivity|]. split; [reflexivity|]. split; [reflexivity|].
    split; [|intros _; reflexivity].
    intros monitor level H.
    apply (List.in_map (new_row false (config w))) in H. exact H.
Qed.

Lemma refresh_monitors_only_reads_witness :
  ambient_auto_enabled (config three_displays) = false
  /\ effects (refresh_monitors false (Some two_listed) None 0 three_displays)
     = effects three_displays
  /\ map slider
       (monitor_rows
          (refresh_monitors false (Some two_listed) None 0 three_displays))
     = [35; 50].
Proof.
  assert (H : ambient_auto_enabled (config three_displays) = false)
    by reflexivity.
  refine (conj H (conj _ eq_refl)).
  exact (proj1 (refresh_monitors_only_reads (Some two_listed) None 0
                  three_displays H)).
Defined.

End RefreshFacts.
